(** * stars_creator: the JSF404 report transcoder and its validation workflow

    A shallow embedding of [src/stars_creator.py]: the layout table and
    [LineParser.parse_line], the record loop of
    [StarsFileCreator.create_stars], and [Validator.parse_valfile],
    [Validator.check_varparm_bordt] and the confirmation gate of
    [Validator.val_parameters].

    Conventions.
    - A Python [str] that is sliced or scanned is a list of characters.
      Characters are the code points 0..255, and the character classes are
      those of Python 3 ([str.isspace], [str.isdigit]) on that range.
    - Dictionary keys and format keys are literals of the program and are
      kept as [string]; dictionaries are [gmap]s.
    - A Python exception is a value of [exn]; code that can raise returns a
      [result]. *)

From Stdlib Require Import ZArith List Ascii String Lia Permutation.
From Stdlib Require Import DecimalString DecimalFacts DecimalPos DecimalN DecimalZ.
From stdpp Require Import gmap strings.
Import ListNotations.

Local Open Scope Z_scope.

(** ** Exceptions *)

Inductive exn : Type :=
| ValueError
| IndexError
| KeyError
| TypeError
| EOFError
| RuntimeError.

Inductive result (A : Type) : Type :=
| Ok (a : A)
| Raise (e : exn).

Arguments Ok {A} a.
Arguments Raise {A} e.

#[global] Instance exn_eq_dec : EqDecision exn.
Proof. solve_decision. Defined.

#[global] Instance result_eq_dec {A : Type} `{EqDecision A} : EqDecision (result A).
Proof. solve_decision. Defined.

Definition bind {A B : Type} (m : result A) (k : A -> result B) : result B :=
  match m with
  | Ok a => k a
  | Raise e => Raise e
  end.

Notation "x <- m ;; k" := (bind m (fun x => k))
  (at level 100, m at next level, right associativity).

Definition returns {A : Type} (m : result A) : Prop := exists a, m = Ok a.
Definition raises {A : Type} (m : result A) : Prop := exists e, m = Raise e.

(** ** Python strings *)

Module Py.

Definition str : Type := list ascii.

(** A string literal of the program. *)
Definition lit (s : string) : str := list_ascii_of_string s.

Definition ord (c : ascii) : N := N_of_ascii c.

(** [c.isspace()] for a code point below 256. *)
Definition is_space (c : ascii) : bool :=
  let n := ord c in
  (((9 <=? n) && (n <=? 13)) || ((28 <=? n) && (n <=? 32))
   || (n =? 133) || (n =? 160))%N.

(** The ASCII decimal digits, the only digits [int()] reads below 256. *)
Definition is_decimal (c : ascii) : bool :=
  let n := ord c in ((48 <=? n) && (n <=? 57))%N.

(** [c.isdigit()] for a code point below 256: the decimal digits and the
    superscripts two, three and one. *)
Definition is_digit (c : ascii) : bool :=
  let n := ord c in
  (is_decimal c || (n =? 178) || (n =? 179) || (n =? 185))%N.

Definition char_in (chars : str) (c : ascii) : bool :=
  existsb (Ascii.eqb c) chars.

Fixpoint lstrip_by (p : ascii -> bool) (s : str) : str :=
  match s with
  | [] => []
  | c :: s' => if p c then lstrip_by p s' else s
  end.

Definition rstrip_by (p : ascii -> bool) (s : str) : str :=
  rev (lstrip_by p (rev s)).

Definition strip_by (p : ascii -> bool) (s : str) : str :=
  rstrip_by p (lstrip_by p s).

(** [s.strip()] *)
Definition strip (s : str) : str := strip_by is_space s.

(** [s.strip(chars)] and [s.lstrip(chars)] *)
Definition strip_chars (chars s : str) : str := strip_by (char_in chars) s.
Definition lstrip_chars (chars s : str) : str := lstrip_by (char_in chars) s.

(** [s.isdigit()]: false on the empty string. *)
Definition isdigit (s : str) : bool :=
  match s with
  | [] => false
  | _ => forallb is_digit s
  end.

(** [s[start:stop]] for non-negative bounds: clamped, never raises. *)
Definition slice (s : str) (start stop : nat) : str :=
  firstn (stop - start) (skipn start s).

(** [s[i]] for a non-negative index. *)
Definition index (s : str) (i : nat) : result str :=
  match nth_error s i with
  | Some c => Ok [c]
  | None => Raise IndexError
  end.

Fixpoint startswith (p s : str) : bool :=
  match p, s with
  | [], _ => true
  | _ :: _, [] => false
  | c :: p', d :: s' => Ascii.eqb c d && startswith p' s'
  end.

(** [sub in s] *)
Fixpoint contains (sub s : str) : bool :=
  startswith sub s ||
  match s with
  | [] => false
  | _ :: s' => contains sub s'
  end.

(** [s.partition(sep)] for a one-character separator. *)
Fixpoint partition (sep : ascii) (s : str) : str * str * str :=
  match s with
  | [] => ([], [], [])
  | c :: s' =>
      if Ascii.eqb c sep then ([], [sep], s')
      else let '(h, m, t) := partition sep s' in (c :: h, m, t)
  end.

(** [str(n)] for an integer. *)
Definition str_of_int (n : Z) : str :=
  list_ascii_of_string (NilZero.string_of_int (Z.to_int n)).

Definition zeros (n : nat) : str := repeat "0"%char n.

(** [s.zfill(width)]: a leading sign stays in front of the padding. *)
Definition zfill (width : nat) (s : str) : str :=
  match s with
  | c :: s' =>
      if Ascii.eqb c "-" || Ascii.eqb c "+"
      then c :: zeros (width - List.length s) ++ s'
      else zeros (width - List.length s) ++ s
  | [] => zeros width
  end.

(** The value of a non-empty run of decimal digits. *)
Definition digits_value (s : str) : option Z :=
  match s with
  | [] => None
  | _ => option_map Z.of_uint (NilZero.uint_of_string (string_of_list_ascii s))
  end.

(** [int(s)] in base ten: surrounding whitespace, one optional sign, then
    decimal digits. The digit separator [_] of Python 3.6 is left out: both
    calls of the program are guarded by [isdigit], which rejects it. *)
Definition int (s : str) : result Z :=
  let t := strip s in
  let '(neg, body) :=
    match t with
    | c :: r =>
        if Ascii.eqb c "-" then (true, r)
        else if Ascii.eqb c "+" then (false, r)
        else (false, t)
    | [] => (false, t)
    end in
  match digits_value body with
  | Some v => Ok (if neg then - v else v)
  | None => Raise ValueError
  end.

End Py.

Abbreviation str := Py.str.
Notation "$ s" := (Py.lit s) (at level 1, only parsing).

(** ** Layout registry *)

(** A field of a layout: one column range, or several ranges whose
    substrings are joined. *)
Inductive field_spec : Type :=
| Single (start stop : nat)
| Joined (ranges : list (nat * nat)).

Definition X0A_LAYOUT : gmap string field_spec :=
  list_to_map
    [ ("di"%string, Single 6 9);
      ("ri"%string, Single 12 15);
      ("ms"%string, Single 18 19);
      ("fsc"%string, Single 24 28);
      ("niin"%string, Joined [(30, 32); (33, 36); (37, 41)]%nat);
      ("ui"%string, Single 44 46);
      ("qty"%string, Single 50 55);
      ("doc_no"%string, Single 57 71);
      ("tec"%string, Single 73 77);
      ("dmd"%string, Single 80 81);
      ("sig"%string, Single 86 87);
      ("fc"%string, Single 91 93);
      ("cog"%string, Single 96 98);
      ("prj"%string, Single 101 104);
      ("pri"%string, Single 107 109);
      ("adv"%string, Single 113 115);
      ("tn"%string, Single 118 121);
      ("fy"%string, Single 127 128);
      ("mv"%string, Joined [(134, 142); (143, 145)]%nat);
      ("rmks"%string, Single 148 163) ].

Definition B1N_LAYOUT : gmap string field_spec :=
  list_to_map
    [ ("di"%string, Single 6 9);
      ("doc_no"%string, Single 12 26);
      ("acrn"%string, Single 32 34);
      ("jon"%string, Single 38 49);
      ("exp"%string, Single 54 55);
      ("occ"%string, Single 62 65);
      ("mv"%string, Single 72 83);
      ("gl"%string, Single 89 92);
      ("cr_db"%string, Single 98 99);
      ("fy"%string, Single 103 104);
      ("qty"%string, Single 110 115);
      ("ui"%string, Single 117 119);
      ("tn"%string, Single 121 124);
      ("cog"%string, Single 126 128);
      ("fsc"%string, Single 130 134);
      ("niin"%string, Single 135 144) ].

(** The dictionary [LineParser.LINE_FORMATS]; each layout is named here so
    that statements can refer to it. *)
Definition LINE_FORMATS : gmap string (gmap string field_spec) :=
  list_to_map [ ("X0A"%string, X0A_LAYOUT); ("B1N"%string, B1N_LAYOUT) ].

(** ** Parsed records *)

(** The values a parsed record holds: the raw substrings, and the integer
    magnitude stored under ["fmv"]. *)
Inductive pyval : Type :=
| PStr (s : str)
| PInt (n : Z).

(** [d[k]] *)
Definition getitem {V : Type} (d : gmap string V) (k : string) : result V :=
  match d !! k with
  | Some v => Ok v
  | None => Raise KeyError
  end.

(** [d.get(k, default)] *)
Definition get_default {V : Type} (d : gmap string V) (k : string) (default : V) : V :=
  match d !! k with
  | Some v => v
  | None => default
  end.

(** The value as a format argument: [str.format] renders an integer in
    decimal. *)
Definition format_arg (v : pyval) : str :=
  match v with
  | PStr s => s
  | PInt n => Py.str_of_int n
  end.

(** The value where the program needs a string ([+], slicing, indexing). *)
Definition as_str (v : pyval) : result str :=
  match v with
  | PStr s => Ok s
  | PInt _ => Raise TypeError
  end.

(** The value where the program needs a number ([total += ...]). *)
Definition as_int (v : pyval) : result Z :=
  match v with
  | PInt n => Ok n
  | PStr _ => Raise TypeError
  end.

(** ** LineParser.parse_line *)

(** The body of the loop over [slices.items()]: the substring of one field. *)
Definition extract (line : str) (v : field_spec) : str :=
  match v with
  | Joined ranges => concat (map (fun '(start, stop) => Py.slice line start stop) ranges)
  | Single start stop => Py.slice line start stop
  end.

(** [abs(int(mv_raw.strip())) if mv_raw.strip().lstrip("-").isdigit() else 0] *)
Definition fmv_X0A (mv_raw : str) : result Z :=
  if Py.isdigit (Py.lstrip_chars ($"-") (Py.strip mv_raw))
  then (n <- Py.int (Py.strip mv_raw) ;; Ok (Z.abs n))
  else Ok 0.

(** [abs(int(mv_raw.lstrip("0"))) if mv_raw.strip("-").lstrip("0").isdigit() else 0] *)
Definition fmv_B1N (mv_raw : str) : result Z :=
  if Py.isdigit (Py.lstrip_chars ($"0") (Py.strip_chars ($"-") mv_raw))
  then (n <- Py.int (Py.lstrip_chars ($"0") mv_raw) ;; Ok (Z.abs n))
  else Ok 0.

(** [str(parsed_data["fmv"]).zfill(10)] *)
Definition smv_of (fmv : Z) : str := Py.zfill 10 (Py.str_of_int fmv).

Definition parse_line (line : str) (format_key : string) : result (gmap string pyval) :=
  match LINE_FORMATS !! format_key with
  | None => Raise ValueError
  | Some slices =>
      let parsed_data : gmap string str := extract line <$> slices in
      mv_raw <- getitem parsed_data "mv" ;;
      if String.eqb format_key "X0A" then
        fmv <- fmv_X0A mv_raw ;;
        Ok (<["smv" := PStr (smv_of fmv)]> (<["fmv" := PInt fmv]> (PStr <$> parsed_data)))
      else if String.eqb format_key "B1N" then
        fmv <- fmv_B1N mv_raw ;;
        Ok (<["fmv" := PInt fmv]> (PStr <$> parsed_data))
      else Ok (PStr <$> parsed_data)
  end.

(** ** StarsFileCreator.create_stars *)

Definition newline : str := ["010"%char].

(** [" " * n] *)
Definition spaces (n : nat) : str := repeat " "%char n.

(** The keyword argument [k=parsed_data[k]] of [str.format]. *)
Definition arg (parsed_data : gmap string pyval) (k : string) : result str :=
  v <- getitem parsed_data k ;; Ok (format_arg v).

(** The keyword argument [k=parsed_data.get(k, "")]. *)
Definition arg_get (parsed_data : gmap string pyval) (k : string) : str :=
  format_arg (get_default parsed_data k (PStr [])).

(** The output line of a record parsed with the X0A layout. The template is
    chosen first, then the keyword arguments are evaluated in the order they
    are written. *)
Definition format_X0A (parsed_data : gmap string pyval) : result str :=
  fsc0 <- (v <- getitem parsed_data "fsc" ;; as_str v) ;;
  niin0 <- (v <- getitem parsed_data "niin" ;; as_str v) ;;
  let no_stock_number := bool_decide (fsc0 ++ niin0 = $"             ") in
  di <- arg parsed_data "di" ;;
  ri <- arg parsed_data "ri" ;;
  ms <- arg parsed_data "ms" ;;
  let fsc := arg_get parsed_data "fsc" in
  let niin := arg_get parsed_data "niin" in
  let rmks := arg_get parsed_data "rmks" in
  ui <- arg parsed_data "ui" ;;
  qty <- arg parsed_data "qty" ;;
  doc_no <- arg parsed_data "doc_no" ;;
  tec <- arg parsed_data "tec" ;;
  sig <- arg parsed_data "sig" ;;
  fc <- arg parsed_data "fc" ;;
  cog <- arg parsed_data "cog" ;;
  prj <- arg parsed_data "prj" ;;
  pri <- arg parsed_data "pri" ;;
  adv <- arg parsed_data "adv" ;;
  tn <- arg parsed_data "tn" ;;
  fy <- arg parsed_data "fy" ;;
  smv <- arg parsed_data "smv" ;;
  Ok (if no_stock_number
      then di ++ ri ++ ms ++ rmks ++ ui ++ qty ++ doc_no ++ $"   "
           ++ tec ++ sig ++ fc ++ $" " ++ cog ++ prj ++ pri ++ $"   "
           ++ adv ++ tn ++ fy ++ smv ++ newline
      else di ++ ri ++ ms ++ fsc ++ niin ++ $"  " ++ ui ++ qty ++ doc_no ++ $"   "
           ++ tec ++ sig ++ fc ++ $" " ++ cog ++ prj ++ pri ++ $"   "
           ++ adv ++ tn ++ fy ++ smv ++ newline).

(** The output line of a record parsed with the B1N layout. *)
Definition format_B1N (parsed_data : gmap string pyval) : result str :=
  di <- (v <- getitem parsed_data "di" ;; s <- as_str v ;; Ok (Py.slice s 0 2)) ;;
  di2 <- (v <- getitem parsed_data "di" ;; s <- as_str v ;; Py.index s 2) ;;
  doc_no <- arg parsed_data "doc_no" ;;
  acrn <- arg parsed_data "acrn" ;;
  jon <- arg parsed_data "jon" ;;
  exp <- arg parsed_data "exp" ;;
  mv <- arg parsed_data "mv" ;;
  gl <- arg parsed_data "gl" ;;
  cr_db <- arg parsed_data "cr_db" ;;
  fy <- arg parsed_data "fy" ;;
  qty <- arg parsed_data "qty" ;;
  cog <- arg parsed_data "cog" ;;
  niin <- arg parsed_data "niin" ;;
  tn <- arg parsed_data "tn" ;;
  fsc <- arg parsed_data "fsc" ;;
  ui <- arg parsed_data "ui" ;;
  occ <- arg parsed_data "occ" ;;
  Ok (di ++ $" RSUPP   " ++ di2 ++ doc_no ++ $" "
      ++ acrn ++ jon ++ exp ++ mv ++ gl ++ cr_db ++ $" "
      ++ fy ++ spaces 36 ++ qty ++ spaces 68 ++ cog ++ $"Y" ++ spaces 10
      ++ niin ++ spaces 79 ++ tn ++ fsc ++ ui ++ occ ++ newline).

(** The two tests of the loop body. *)
Definition is_X0A_line (line : str) : bool :=
  (Py.contains ($"X0A") line || Py.contains ($"Z0A") line)
  && (List.length line =? 182)%nat.

Definition is_B1N_line (line : str) : bool := Py.contains ($"B1N") line.

(** [parsed_data.get("fmv", 0)], as the number added to [total]. *)
Definition fmv_of (parsed_data : gmap string pyval) : result Z :=
  as_int (get_default parsed_data "fmv" (PInt 0)).

(** The loop [for line in original_lines] with its two accumulators. An
    exception raised in the body ends the loop and the call. *)
Fixpoint create_stars_loop (original_lines : list str)
    (output_lines : list str) (total : Z) : result (list str * Z) :=
  match original_lines with
  | [] => Ok (output_lines, total)
  | line :: rest =>
      if is_X0A_line line then
        parsed_data <- parse_line line "X0A" ;;
        formatted_line <- format_X0A parsed_data ;;
        fmv <- fmv_of parsed_data ;;
        create_stars_loop rest (output_lines ++ [formatted_line]) (total + fmv)
      else if is_B1N_line line then
        parsed_data <- parse_line line "B1N" ;;
        formatted_line <- format_B1N parsed_data ;;
        fmv <- fmv_of parsed_data ;;
        create_stars_loop rest (output_lines ++ [formatted_line]) (total + fmv)
      else create_stars_loop rest output_lines total
  end.

Definition header_line (now : str) : str := $"HEADERRSUPPLY   " ++ now ++ newline.

Definition trailer_line (rec_count total pid : str) : str :=
  $"TRAILERSTARSFL   " ++ rec_count ++ total ++ $"stars" ++ pid ++ $"r.txt" ++ newline.

(** [create_stars], as the list of lines handed to [write_file]. [now] is
    the timestamp [datetime.now().strftime("%Y%m%d%H%M%S")] and
    [original_lines] the lines read from [infile]. *)
Definition create_stars (now : str) (original_lines : list str) (pid : str) : result (list str) :=
  let header := header_line now in
  state <- create_stars_loop original_lines [header] 0 ;;
  let '(output_lines, total) := state in
  let rec_count := Py.zfill 15 (Py.str_of_int (Z.of_nat (List.length output_lines) - 1)) in
  let trailer := trailer_line rec_count (Py.zfill 19 (Py.str_of_int total)) pid in
  Ok (output_lines ++ [trailer]).

(** ** Calendar dates *)

(** [datetime.date] and a naive [datetime.datetime]. Years stay inside
    [MINYEAR..MAXYEAR]; the overflow of the calendar arithmetic at its two
    ends is not modelled. *)
Record date : Type := mkdate { year : Z; month : Z; day : Z }.

Record datetime : Type := mkdatetime {
  dt_date : date;
  hour : Z;
  minute : Z;
  second : Z;
  microsecond : Z
}.

#[global] Instance date_eq_dec : EqDecision date.
Proof. solve_decision. Defined.

#[global] Instance datetime_eq_dec : EqDecision datetime.
Proof. solve_decision. Defined.

(** The two kinds of object the validator compares with [==]. *)
Inductive pyobj : Type :=
| DateObj (d : date)
| DateTimeObj (t : datetime).

(** [a == b]. A [datetime] is never equal to a [date] that is not itself a
    [datetime], whichever side it stands on: [datetime.__eq__] answers
    [False] for such an operand, and for [date == datetime] the method of
    the subclass is the one consulted first. *)
Definition py_eq (a b : pyobj) : bool :=
  match a, b with
  | DateObj da, DateObj db => bool_decide (da = db)
  | DateTimeObj ta, DateTimeObj tb => bool_decide (ta = tb)
  | DateTimeObj _, DateObj _ => false
  | DateObj _, DateTimeObj _ => false
  end.

(** [calendar.isleap] and the day count of [calendar.monthrange]. *)
Definition isleap (y : Z) : bool :=
  (y mod 4 =? 0) && (negb (y mod 100 =? 0) || (y mod 400 =? 0)).

Definition monthrange (y m : Z) : Z :=
  if m =? 2 then (if isleap y then 29 else 28)
  else if (m =? 4) || (m =? 6) || (m =? 9) || (m =? 11) then 30
  else 31.

(** [d + relativedelta(months=months)], for a shift of less than a year:
    the month moves, the year follows, the day is clipped to the month. *)
Definition add_months (d : date) (months : Z) : date :=
  let m := month d + months in
  let '(y, m) :=
    if 12 <? m then (year d + 1, m - 12)
    else if m <? 1 then (year d - 1, m + 12)
    else (year d, m) in
  mkdate y m (Z.min (monthrange y m) (day d)).

(** [d + timedelta(days=-1)] *)
Definition minus_one_day (d : date) : date :=
  if 1 <? day d then mkdate (year d) (month d) (day d - 1)
  else if 1 <? month d then mkdate (year d) (month d - 1) (monthrange (year d) (month d - 1))
  else mkdate (year d - 1) 12 31.

(** ** Validator *)

(** [(datetime(y, m, 1) + relativedelta(months=1, days=-1)).date()]: the
    months are applied before the days. In December 9999 the shifted month
    is outside the calendar and the code raises [ValueError]; the function
    stands for the code on every other month of the years 1 to 9999. *)
Definition get_last_day_of_month (current_date : date) : date :=
  minus_one_day (add_months (mkdate (year current_date) (month current_date) 1) 1).

(** [(datetime(y, m, 1) + relativedelta(days=-1)).date()]. In January of the
    year 1 the day before is outside the calendar and the code raises
    [OverflowError]; the function stands for the code on every other month
    of the years 1 to 9999. *)
Definition get_last_day_of_previous_month (current_date : date) : date :=
  minus_one_day (mkdate (year current_date) (month current_date) 1).

(** The expression [is_good] of [check_varparm_bordt]; [today] is
    [date.today()]. *)
Definition bor_date_is_good (today : date) (is_monthly : str)
    (var_parm_bordt fin_tldt : pyobj) : bool :=
  (bool_decide (is_monthly = $"n")
   && py_eq var_parm_bordt (DateObj (get_last_day_of_previous_month today)))
  || (bool_decide (is_monthly = $"y")
      && (py_eq var_parm_bordt fin_tldt
          && py_eq fin_tldt (DateObj (get_last_day_of_month today)))).

Definition BOR_DATE_GOOD : str := newline ++ $"BOR date is good!".
Definition BOR_DATE_NO_GOOD : str := newline ++ $"BOR date is no good!".

(** [check_varparm_bordt], as the status it prints; the echo of the date
    that follows the status in the printed text is left out. *)
Definition check_varparm_bordt (today : date) (is_monthly : str)
    (var_parm_bordt fin_tldt : pyobj) : str :=
  if bor_date_is_good today is_monthly var_parm_bordt fin_tldt
  then BOR_DATE_GOOD else BOR_DATE_NO_GOOD.

(** [check_mrdt_bortecdt], as the status it prints. *)
Definition check_mrdt_bortecdt (bor_tbl : str) (material_request_tldt bor_tldt : pyobj) : str :=
  if py_eq material_request_tldt bor_tldt
  then $"material_request_tbl tl date matches " ++ bor_tbl ++ $" tl date."
  else $"material_request_tbl tl date doesn't match " ++ bor_tbl ++ $" tl date.".

(** [check_tl_no], as the status it prints. *)
Definition check_tl_no (bor_tl_no fin_tl_no material_request_tl_no : str) : str :=
  if bool_decide (bor_tl_no = fin_tl_no) && bool_decide (fin_tl_no = material_request_tl_no)
  then $"TL numbers match." else $"TL numbers do not match!".

(** The ten values [parse_valfile] returns, under the names of the source. *)
Record valfacts : Type := mkfacts {
  var_parm_bordt : datetime;
  bor_tldt : datetime;
  fin_tldt : datetime;
  material_request_tldt : datetime;
  bor_tl_no : str;
  fin_tl_no : str;
  material_request_tl_no : str;
  bor_fy : str;
  fin_fy : str;
  material_request_fy : str
}.

(** [val_lines[i]] *)
Definition line_at (val_lines : list str) (i : nat) : result str :=
  match nth_error val_lines i with
  | Some l => Ok l
  | None => Raise IndexError
  end.

(** [val_lines[i].strip().partition(":")[-1]] *)
Definition value_at (val_lines : list str) (i : nat) : result str :=
  l <- line_at val_lines i ;; Ok (snd (Py.partition ":" (Py.strip l))).

(** [input(...)]: the next line of standard input, [EOFError] at its end. *)
Definition input (stdin : list str) : result (str * list str) :=
  match stdin with
  | [] => Raise EOFError
  | l :: rest => Ok (l, rest)
  end.

(** [c.lower()] for a code point below 256. *)
Definition lower_char (c : ascii) : ascii :=
  let n := Py.ord c in
  if (((65 <=? n) && (n <=? 90)) || ((192 <=? n) && (n <=? 214))
      || ((216 <=? n) && (n <=? 222)))%N
  then ascii_of_N (n + 32) else c.

Definition lower (s : str) : str := map lower_char s.

(** The loop [while val_confirmation not in ["y", "n"]] of
    [val_parameters]: the first answer that reads, stripped and lowered, as
    ["y"] or ["n"], and the input left after it. *)
Fixpoint ask_confirmation (stdin : list str) : result (str * list str) :=
  match stdin with
  | [] => Raise EOFError
  | l :: rest =>
      let val_confirmation := lower (Py.strip l) in
      if bool_decide (val_confirmation = $"y") || bool_decide (val_confirmation = $"n")
      then Ok (val_confirmation, rest)
      else ask_confirmation rest
  end.

Section Validator.

(** [dateutil.parser.parse]: a [datetime], or an exception. *)
Variable parse : str -> result datetime.

(** [self.bor_tbl] *)
Variable bor_tbl : str.

Definition parse_valfile (val_lines : list str) : result valfacts :=
  var_parm_bordt <- (s <- value_at val_lines 0 ;; parse s) ;;
  bor_tldt <- (s <- value_at val_lines 3 ;; parse s) ;;
  fin_tldt <- (s <- value_at val_lines 6 ;; parse s) ;;
  material_request_tldt <- (s <- value_at val_lines 9 ;; parse s) ;;
  bor_tl_no <- value_at val_lines 2 ;;
  fin_tl_no <- value_at val_lines 5 ;;
  material_request_tl_no <- value_at val_lines 8 ;;
  bor_fy <- value_at val_lines 1 ;;
  fin_fy <- value_at val_lines 4 ;;
  material_request_fy <- value_at val_lines 7 ;;
  Ok (mkfacts var_parm_bordt bor_tldt fin_tldt material_request_tldt
        bor_tl_no fin_tl_no material_request_tl_no bor_fy fin_fy material_request_fy).

(** [val_parameters] from the point where the query result is on disk:
    [val_lines] are the lines of the result file, [self_is_monthly] the
    flag given on the command line, [stdin] the answers typed. It returns
    the three statuses printed and the decision. The six calls that come
    before and the read of the file are added in [run_val_parameters]. *)
Definition val_parameters (self_is_monthly : option str) (today : date)
    (val_lines : list str) (stdin : list str) : result (list str * bool) :=
  facts <- parse_valfile val_lines ;;
  asked <- match self_is_monthly with
           | Some (c :: s) => Ok (c :: s, stdin)
           | Some [] | None =>
               a <- input stdin ;; Ok (lower (Py.strip (fst a)), snd a)
           end ;;
  let '(is_monthly, stdin) := asked in
  let report :=
    [ check_varparm_bordt today is_monthly
        (DateTimeObj (var_parm_bordt facts)) (DateTimeObj (fin_tldt facts));
      check_mrdt_bortecdt bor_tbl
        (DateTimeObj (material_request_tldt facts)) (DateTimeObj (bor_tldt facts));
      check_tl_no (bor_tl_no facts) (fin_tl_no facts) (material_request_tl_no facts) ] in
  answer <- ask_confirmation stdin ;;
  let val_confirmation := bool_decide (fst answer = $"y") in
  Ok (report, val_confirmation).

End Validator.

(** ** Validator: val_parameters from its first call *)

(** [a <= b] on strings: by code points, a proper prefix first. *)
Fixpoint str_leb (a b : str) : bool :=
  match a, b with
  | [], _ => true
  | _ :: _, [] => false
  | x :: a', y :: b' =>
      if (Py.ord x <? Py.ord y)%N then true
      else if (Py.ord y <? Py.ord x)%N then false
      else str_leb a' b'
  end.

(** [max(d :: ds)]: the first of the greatest strings. *)
Definition py_max (d : str) (ds : list str) : str :=
  fold_left (fun max_item item => if str_leb item max_item then max_item else item) ds d.

(** [get_sybase_ocs_path]; [ocs_dirs] is what
    [glob.glob("/opt/sybase/OCS-*")] finds. *)
Definition get_sybase_ocs_path (ocs_dirs : list str) : result str :=
  match ocs_dirs with
  | [] => Raise RuntimeError
  | d :: ds => Ok (py_max d ds)
  end.

Section ValParameters.

Variable parse : str -> result datetime.
Variable bor_tbl : str.

(** The calls of [val_parameters] that act on the file system or start a
    process, each as what it does in the environment of the run: it
    returns, or it raises. [generate_pkickoff_script] and
    [execute_pkickoff_script] get the path that was found; [read_valfile]
    is [read_file(VALFILE)], the first call of [parse_valfile]. *)
Variable ensure_directories : result unit.
Variable create_pd_file : result unit.
Variable generate_sql_script : result unit.
Variable ocs_dirs : list str.
Variable generate_pkickoff_script : str -> result unit.
Variable execute_pkickoff_script : str -> result unit.
Variable read_valfile : result (list str).

(** [val_parameters], whole. *)
Definition run_val_parameters (self_is_monthly : option str) (today : date)
    (stdin : list str) : result (list str * bool) :=
  made <- ensure_directories ;;
  pd <- create_pd_file ;;
  sql <- generate_sql_script ;;
  sybase_ocs_path <- get_sybase_ocs_path ocs_dirs ;;
  script <- generate_pkickoff_script sybase_ocs_path ;;
  ran <- execute_pkickoff_script sybase_ocs_path ;;
  val_lines <- read_valfile ;;
  val_parameters parse bor_tbl self_is_monthly today val_lines stdin.

End ValParameters.

(** ** The loop body as a function of one line *)

(** The first branch of the loop body, up to the two accumulator updates. *)
Definition transform_X0A (line : str) : result (str * Z) :=
  parsed_data <- parse_line line "X0A" ;;
  formatted_line <- format_X0A parsed_data ;;
  fmv <- fmv_of parsed_data ;;
  Ok (formatted_line, fmv).

(** The second branch. *)
Definition transform_B1N (line : str) : result (str * Z) :=
  parsed_data <- parse_line line "B1N" ;;
  formatted_line <- format_B1N parsed_data ;;
  fmv <- fmv_of parsed_data ;;
  Ok (formatted_line, fmv).

(** The format key the [if]/[elif]/[else] of the loop body selects. *)
Definition classify (line : str) : option string :=
  if is_X0A_line line then Some "X0A"%string
  else if is_B1N_line line then Some "B1N"%string
  else None.

(** One turn of the loop: nothing for a skipped line, else the formatted
    line and the magnitude added to the total. *)
Definition transcode_line (line : str) : result (option (str * Z)) :=
  match classify line with
  | Some k =>
      r <- (if String.eqb k "X0A" then transform_X0A line else transform_B1N line) ;;
      Ok (Some r)
  | None => Ok None
  end.

Definition is_matched (line : str) : bool :=
  match classify line with Some _ => true | None => false end.

(** The magnitude a line contributes: that of its record, nothing for a
    skipped line. *)
Definition magnitude (line : str) : Z :=
  match transcode_line line with
  | Ok (Some (_, fmv)) => fmv
  | _ => 0
  end.

(** The output line a matched line yields. *)
Definition formatted (line : str) : str :=
  match transcode_line line with
  | Ok (Some (formatted_line, _)) => formatted_line
  | _ => []
  end.

(** The lines of a file that matched a known format, in file order. *)
Definition matched (original_lines : list str) : list str :=
  List.filter is_matched original_lines.

(** A sum taken from left to right, as [total += ...] takes it. *)
Definition sum_in_order (ms : list Z) : Z := fold_left Z.add ms 0.

(** The trailer [create_stars] writes for a given count and total. *)
Definition trailer_for (count : nat) (total : Z) (pid : str) : str :=
  trailer_line (Py.zfill 15 (Py.str_of_int (Z.of_nat count)))
               (Py.zfill 19 (Py.str_of_int total)) pid.

(** The amount columns of a line in each layout: what [parsed_data["mv"]]
    holds. *)
Definition mv_of_X0A (line : str) : str :=
  extract line (Joined [(134, 142); (143, 145)]%nat).

Definition mv_of_B1N (line : str) : str := extract line (Single 72 83).

(** ** The codec as the specification words it *)

(** Detail format: the value of the stripped substring when, one leading
    minus allowed, it is all digits; else zero. *)
Definition claimed_fmv_detail (raw : str) : Z :=
  let s := Py.strip raw in
  let body := match s with
              | c :: r => if Ascii.eqb c "-" then r else s
              | [] => s
              end in
  if Py.isdigit body
  then match Py.digits_value body with Some v => v | None => 0 end
  else 0.

(** Transaction format: leading zeros are stripped, then any leading minus;
    the value of what remains when it is all digits, else zero. *)
Definition claimed_fmv_transaction (raw : str) : Z :=
  let r := Py.lstrip_chars ($"-") (Py.lstrip_chars ($"0") raw) in
  if Py.isdigit r
  then match Py.digits_value r with Some v => v | None => 0 end
  else 0.

(** ** Notions used to state the validation workflow *)

(** The value a line of the query result carries: what follows the first
    colon of the stripped line. *)
Definition fact_value (l : str) : str := snd (Py.partition ":" (Py.strip l)).

(** An answer as the prompts read it: stripped and lowered. *)
Definition normal (answer : str) : str := lower (Py.strip answer).

(** The answers left for the confirmation prompt: all of them when the
    monthly flag came from the command line, else all but the first. *)
Definition confirmation_input (self_is_monthly : option str) (stdin : list str) : list str :=
  match self_is_monthly with
  | Some (_ :: _) => stdin
  | _ => tl stdin
  end.

(** The decision of a run, without its report. *)
Definition decision_of (run : result (list str * bool)) : result bool :=
  r <- run ;; Ok (snd r).

(** ** Sample inputs *)

(** A detail line of 182 characters, its newline included, whose amount
    columns read [      -- 50]. *)
Definition line_double_minus : str :=
  $"      X0A" ++ spaces 125 ++ $"      -- 50" ++ spaces 36 ++ newline.

(** A transaction line whose amount columns read [0000000050-]. *)
Definition line_trailing_minus : str :=
  $"      B1N" ++ spaces 63 ++ $"0000000050-" ++ newline.

(** A transaction line that ends right after its marker. *)
Definition line_short : str := $"B1N" ++ newline.

(** A line of 182 characters that carries both a detail and the transaction
    marker. *)
Definition line_both_markers : str := $"      X0A   B1N" ++ spaces 166 ++ newline.

(** A well-formed detail line, amount 12345. *)
Definition line_detail : str :=
  $"      X0A" ++ spaces 125 ++ $"    -123 45" ++ spaces 36 ++ newline.

(** A well-formed transaction line, amount 123. *)
Definition line_transaction : str :=
  $"      B1Nxx" ++ spaces 61 ++ $"-0000000123" ++ spaces 80 ++ newline.

(** A line of no known format. *)
Definition line_unknown : str := $"JSF404 FINANCIAL REPORT" ++ newline.

(** A date reader for running the workflow on examples: it reads
    [YYYY-MM-DD], as [dateutil] does, and raises on anything else. *)
Definition parse_iso (s : str) : result datetime :=
  match Py.strip s with
  | [ya; yb; yc; yd; dash1; ma; mb; dash2; da; db] =>
      if Ascii.eqb dash1 "-" && Ascii.eqb dash2 "-" then
        match Py.digits_value [ya; yb; yc; yd], Py.digits_value [ma; mb],
              Py.digits_value [da; db] with
        | Some y, Some m, Some d => Ok (mkdatetime (mkdate y m d) 0 0 0 0)
        | _, _, _ => Raise ValueError
        end
      else Raise ValueError
  | _ => Raise ValueError
  end.

(** A query result of ten lines, as the isql run leaves it. *)
Definition sample_valfile : list str :=
  [ $"VarParmDate: 2024-01-31" ++ newline;
    $"bor_mo_rptFY: 2024" ++ newline;
    $"bor_mo_rptTL: 17" ++ newline;
    $"bor_mo_rptTLdt: 2024-01-31" ++ newline;
    $"fin_trnsmtlFY: 2024" ++ newline;
    $"fin_trnsmtlTL: 17" ++ newline;
    $"fin_trnsmtlTLdt: 2024-01-31" ++ newline;
    $"material_request_tblFY: 2024" ++ newline;
    $"material_request_tblTL: 18" ++ newline;
    $"material_request_tblTLdt: 2024-02-02" ++ newline ].

(** A result with other facts. *)
Definition other_valfile : list str :=
  [ $"VarParmDate: 2023-11-30" ++ newline;
    $"bor_mo_rptFY: 2024" ++ newline;
    $"bor_mo_rptTL: 3" ++ newline;
    $"bor_mo_rptTLdt: 2023-12-01" ++ newline;
    $"fin_trnsmtlFY: 2024" ++ newline;
    $"fin_trnsmtlTL: 3" ++ newline;
    $"fin_trnsmtlTLdt: 2023-11-30" ++ newline;
    $"material_request_tblFY: 2024" ++ newline;
    $"material_request_tblTL: 3" ++ newline;
    $"material_request_tblTLdt: 2023-12-01" ++ newline ].

(** ** The output lines by columns *)

(** The detail output line in terms of the columns of the input line: the
    stock number (FSC and NIIN) and two spaces, or the remarks when the
    stock number is blank, between the first three fields and the rest. *)
Definition X0A_output (line : str) (fmv : Z) : str :=
  let stock_number := Py.slice line 24 28 ++ Py.slice line 30 32 ++ Py.slice line 33 36 ++ Py.slice line 37 41 in
  Py.slice line 6 9 ++ Py.slice line 12 15 ++ Py.slice line 18 19
  ++ (if bool_decide (stock_number = spaces 13) then Py.slice line 148 163
      else stock_number ++ spaces 2)
  ++ Py.slice line 44 46 ++ Py.slice line 50 55 ++ Py.slice line 57 71 ++ spaces 3
  ++ Py.slice line 73 77 ++ Py.slice line 86 87 ++ Py.slice line 91 93 ++ spaces 1
  ++ Py.slice line 96 98 ++ Py.slice line 101 104 ++ Py.slice line 107 109 ++ spaces 3
  ++ Py.slice line 113 115 ++ Py.slice line 118 121 ++ Py.slice line 127 128
  ++ smv_of fmv ++ newline.

(** The transaction output line in terms of the columns of the input
    line. *)
Definition B1N_output (line : str) : str :=
  Py.slice line 6 8 ++ $" RSUPP   " ++ Py.slice line 8 9 ++ Py.slice line 12 26 ++ spaces 1
  ++ Py.slice line 32 34 ++ Py.slice line 38 49 ++ Py.slice line 54 55 ++ Py.slice line 72 83 ++ Py.slice line 89 92 ++ Py.slice line 98 99
  ++ spaces 1 ++ Py.slice line 103 104 ++ spaces 36 ++ Py.slice line 110 115 ++ spaces 68
  ++ Py.slice line 126 128 ++ $"Y" ++ spaces 10 ++ Py.slice line 135 144 ++ spaces 79
  ++ Py.slice line 121 124 ++ Py.slice line 130 134 ++ Py.slice line 117 119 ++ Py.slice line 62 65 ++ newline.

(** ** StarsFileCreator: the BOR table *)






(** ** StarsFileCreator: choosing the batch and running *)

(** [s[-n:]]: the last [n] characters, the whole string when it is
    shorter. *)
Definition last_chars (n : nat) (s : str) : str := skipn (List.length s - n) s.

(** How the part of [run_stars_creator] before the transcode ends: with a
    batch number, with [sys.exit(code)] out of [safe_exit], or with a plain
    [return]. *)
Inductive choice : Type :=
| Batch (batch_no : str)
| SystemExit (code : Z)
| Return.

(** How [run_stars_creator] ends when no exception escapes: the file it
    wrote in the tape_out directory, an exit code, or a plain return. *)
Inductive outcome : Type :=
| Wrote (outfile : str) (output_lines : list str)
| Exited (code : Z)
| Returned.

(** [x in (a, b)] for two string literals. *)
Definition one_of (a b x : str) : bool := bool_decide (x = a) || bool_decide (x = b).

Section StarsFileCreator.

(** [str.upper]. *)
Variable upper : str -> str.

(** [os.path.exists(os.path.join(directory, name))] in the reports
    directory. *)
Variable path_exists : str -> bool.

(** [validate_batch_input], as the boolean it returns. *)
Definition validate_batch_input (batch_no : str) : bool :=
  if negb (List.length batch_no =? 13)%nat || negb (Py.startswith ($"JSF404") batch_no)
  then false
  else if path_exists batch_no then true
  else false.

(** The loop [while attempts < 3 ... else: safe_exit(..., 1)];
    [attempts_left] is [3 - attempts]. *)
Fixpoint ask_batch_no (attempts_left : nat) (stdin : list str) : result (choice * list str) :=
  match attempts_left with
  | O => Ok (SystemExit 1, stdin)
  | S n =>
      a <- input stdin ;;
      let batch_no := upper (Py.strip (fst a)) in
      if validate_batch_input batch_no then Ok (Batch batch_no, snd a)
      else ask_batch_no n (snd a)
  end.

(** The first part of [run_stars_creator]: the batch number to use.
    [self_batch_no] is the [--batch] argument, [latest_report_exists] is
    [os.path.exists(self.latest_report)]. *)
Definition choose_batch (self_batch_no : option str) (latest_report_exists : bool)
    (latest_batch_no : str) (stdin : list str) : result (choice * list str) :=
  match self_batch_no with
  | Some (c :: s) => Ok (Batch (c :: s), stdin)
  | Some [] | None =>
      if latest_report_exists then
        a <- input stdin ;;
        let confirmation := lower (Py.strip (fst a)) in
        if one_of ($"y") ($"yes") confirmation then Ok (Batch (upper latest_batch_no), snd a)
        else if one_of ($"n") ($"no") confirmation then ask_batch_no 3 (snd a)
        else if one_of ($"q") ($"quit") confirmation then Ok (SystemExit 0, snd a)
        else Ok (Return, snd a)
      else Ok (Return, stdin)
  end.

(** [self.validate], the validator's [val_parameters] as a function of the
    answers typed, [read_file] on a name of the reports directory, and the
    timestamp of the header. *)
Variable validator : list str -> result (list str * bool).
Variable read_file : str -> result (list str).
Variable now : str.

(** [run_stars_creator]. The prompt for the validation queries is the loop
    of [ask_confirmation] under another text. The messages printed, the
    permissions and the cleanup are left out. *)
Definition run_stars_creator (self_batch_no : option str) (latest_report_exists : bool)
    (latest_batch_no : str) (self_validate : bool) (stdin : list str) : result outcome :=
  chosen <- choose_batch self_batch_no latest_report_exists latest_batch_no stdin ;;
  match fst chosen with
  | SystemExit code => Ok (Exited code)
  | Return => Ok Returned
  | Batch batch_no =>
      asked <- (if self_validate then Ok (true, snd chosen)
                else user_resp <- ask_confirmation (snd chosen) ;;
                     Ok (bool_decide (fst user_resp = $"y"), snd user_resp)) ;;
      proceed <- (if fst asked then r <- validator (snd asked) ;; Ok (snd r)
                  else Ok true) ;;
      if negb proceed then Ok (Exited 1)
      else
        original_lines <- read_file batch_no ;;
        let pid := last_chars 3 batch_no in
        output_lines <- create_stars now original_lines pid ;;
        Ok (Wrote (batch_no ++ $"RR") output_lines)
  end.

End StarsFileCreator.

(** * Properties *)

(** ** The error monad *)

Lemma bind_ok {A B : Type} (m : result A) (k : A -> result B) (b : B) :
  bind m k = Ok b -> exists a, m = Ok a /\ k a = Ok b.
Proof. destruct m as [a|e]; simpl; [eauto | discriminate]. Qed.

Lemma Ok_inj {A : Type} (a b : A) : Ok a = Ok b -> a = b.
Proof. intros H. injection H. auto. Qed.

Lemma bind_raise {A B : Type} (m : result A) (k : A -> result B) (e : exn) :
  m = Raise e -> bind m k = Raise e.
Proof. intros ->. reflexivity. Qed.

Lemma returns_or_raises {A : Type} (m : result A) : returns m \/ raises m.
Proof. destruct m; [left | right]; eexists; reflexivity. Qed.

Lemma raises_not_returns {A : Type} (m : result A) : raises m -> ~ returns m.
Proof. intros [e ->] [a Ha]. discriminate. Qed.

(** ** Stripping *)

Lemma lstrip_by_length (p : ascii -> bool) (s : str) :
  (List.length (Py.lstrip_by p s) <= List.length s)%nat.
Proof. induction s as [|c s IH]; simpl; [lia |]. destruct (p c); simpl; lia. Qed.

Lemma strip_by_length (p : ascii -> bool) (s : str) :
  (List.length (Py.strip_by p s) <= List.length s)%nat.
Proof.
  unfold Py.strip_by, Py.rstrip_by. rewrite length_rev.
  etransitivity; [apply lstrip_by_length |]. rewrite length_rev. apply lstrip_by_length.
Qed.

Lemma lstrip_by_head (p : ascii -> bool) (c : ascii) (s : str) :
  p c = false -> Py.lstrip_by p (c :: s) = c :: s.
Proof. intros H. simpl. rewrite H. reflexivity. Qed.

(** A string none of whose characters is stripped is left as it is. *)
Lemma strip_by_noop (p : ascii -> bool) (s : str) :
  Forall (fun c => p c = false) s -> Py.strip_by p s = s.
Proof.
  intros H. unfold Py.strip_by, Py.rstrip_by.
  assert (forall t, Forall (fun c => p c = false) t -> Py.lstrip_by p t = t) as Hl.
  { intros t Ht. destruct Ht as [|c t Hc Ht]; [reflexivity | now apply lstrip_by_head]. }
  rewrite (Hl s H). rewrite Hl; [apply rev_involutive |].
  now apply List.Forall_rev.
Qed.

(** ** Decimal digits *)

Lemma is_decimal_is_digit (c : ascii) : Py.is_decimal c = true -> Py.is_digit c = true.
Proof. unfold Py.is_digit. intros ->. reflexivity. Qed.

Lemma is_decimal_not_space (c : ascii) : Py.is_decimal c = true -> Py.is_space c = false.
Proof.
  unfold Py.is_decimal, Py.is_space. intros H.
  apply andb_true_iff in H as [H1 H2]. apply N.leb_le in H1, H2.
  repeat match goal with
  | |- context [(?a <=? ?b)%N] => destruct (N.leb_spec a b)
  | |- context [(?a =? ?b)%N] => destruct (N.eqb_spec a b)
  end; simpl; try reflexivity; lia.
Qed.

Lemma is_decimal_not_minus (c : ascii) : Py.is_decimal c = true -> Ascii.eqb c "-" = false.
Proof.
  intros H. destruct (Ascii.eqb_spec c "-") as [->|]; [discriminate H | reflexivity].
Qed.

Lemma is_decimal_not_plus (c : ascii) : Py.is_decimal c = true -> Ascii.eqb c "+" = false.
Proof.
  intros H. destruct (Ascii.eqb_spec c "+") as [->|]; [discriminate H | reflexivity].
Qed.

Lemma string_of_uint_length (d : Decimal.uint) :
  String.length (NilEmpty.string_of_uint d) = Decimal.nb_digits d.
Proof. induction d; simpl; congruence. Qed.

Lemma list_ascii_of_string_length (s : string) :
  List.length (list_ascii_of_string s) = String.length s.
Proof. induction s; simpl; congruence. Qed.

Lemma string_of_list_ascii_length (s : str) :
  String.length (string_of_list_ascii s) = List.length s.
Proof. induction s; simpl; congruence. Qed.

(** [str(n)] of a number read from [k] digits has at most [k] digits. *)
Lemma digits_value_str_length (s : str) (v : Z) :
  Py.digits_value s = Some v ->
  0 <= v /\ (List.length (Py.str_of_int v) <= List.length s)%nat.
Proof.
  unfold Py.digits_value. destruct s as [|c s]; [discriminate |].
  destruct (NilZero.uint_of_string (string_of_list_ascii (c :: s))) as [d|] eqn:E;
    [| discriminate].
  simpl. intros [= <-]. split.
  { unfold Z.of_uint. apply N2Z.is_nonneg. }
  unfold Py.str_of_int.
  change (Z.of_uint d) with (Z.of_int (Decimal.Pos d)).
  rewrite DecimalZ.to_of. simpl Decimal.norm.
  assert (d <> Decimal.Nil) as Hnil.
  { intros ->. exact (NilZero.uint_of_string_nonnil _ E). }
  pose proof (nb_digits_unorm d Hnil) as Hle.
  pose proof (unorm_nonnil d) as Hun.
  apply NilZero.sus in E.
  assert (String.length (NilZero.string_of_uint d) = Decimal.nb_digits d) as Hd.
  { destruct d; [congruence | apply (string_of_uint_length (_ d)) ..]. }
  rewrite E, string_of_list_ascii_length in Hd.
  rewrite list_ascii_of_string_length.
  unfold NilZero.string_of_int.
  assert (String.length (NilZero.string_of_uint (Decimal.unorm d))
          = Decimal.nb_digits (Decimal.unorm d)) as Hu.
  { destruct (Decimal.unorm d); [congruence | apply (string_of_uint_length (_ u)) ..]. }
  rewrite Hu. simpl in Hd. lia.
Qed.

Lemma lstrip_by_noop (p : ascii -> bool) (s : str) :
  Forall (fun c => p c = false) s -> Py.lstrip_by p s = s.
Proof. intros [|c t Hc Ht]; [reflexivity | now apply lstrip_by_head]. Qed.

Lemma string_of_uint_decimal (d : Decimal.uint) :
  Forall (fun c => Py.is_decimal c = true) (list_ascii_of_string (NilEmpty.string_of_uint d)).
Proof. induction d; simpl; constructor; solve [reflexivity | assumption]. Qed.

(** A string has a value exactly as a non-empty run of decimal digits. *)
Lemma digits_value_decimal (s : str) (v : Z) :
  Py.digits_value s = Some v ->
  s <> [] /\ Forall (fun c => Py.is_decimal c = true) s.
Proof.
  unfold Py.digits_value. destruct s as [|c s]; [discriminate |].
  destruct (NilZero.uint_of_string (string_of_list_ascii (c :: s))) as [d|] eqn:E;
    [| discriminate].
  intros _. split; [discriminate |].
  assert (d <> Decimal.Nil) as Hnil.
  { intros ->. exact (NilZero.uint_of_string_nonnil _ E). }
  apply NilZero.sus in E.
  rewrite <- (list_ascii_of_string_of_list_ascii (c :: s)), <- E.
  destruct d; [congruence | apply (string_of_uint_decimal (_ d)) ..].
Qed.

Lemma decimal_isdigit (s : str) :
  s <> [] -> Forall (fun c => Py.is_decimal c = true) s -> Py.isdigit s = true.
Proof.
  intros Hs H. unfold Py.isdigit. destruct s; [congruence |].
  apply forallb_forall. intros c Hc. apply is_decimal_is_digit.
  rewrite List.Forall_forall in H. now apply H.
Qed.

Lemma digits_value_zero_head (s : str) :
  s <> [] -> Py.digits_value ("0"%char :: s) = Py.digits_value s.
Proof.
  intros Hs. destruct s as [|c s]; [congruence |].
  unfold Py.digits_value, NilZero.uint_of_string.
  change (string_of_list_ascii ("0"%char :: c :: s))
    with (String "0" (string_of_list_ascii (c :: s))).
  change (NilEmpty.uint_of_string (String "0" (string_of_list_ascii (c :: s))))
    with (option_map Decimal.D0 (NilEmpty.uint_of_string (string_of_list_ascii (c :: s)))).
  change (string_of_list_ascii (c :: s)) with (String c (string_of_list_ascii s)).
  cbv iota.
  destruct (NilEmpty.uint_of_string (String c (string_of_list_ascii s))); reflexivity.
Qed.

Lemma digits_value_zero_only : Py.digits_value ["0"%char] = Some 0.
Proof. reflexivity. Qed.

(** Stripping the leading zeros keeps the value; a run of zeros has value 0. *)
Lemma digits_value_lstrip_zeros (s : str) (v : Z) :
  Py.digits_value s = Some v ->
  match Py.lstrip_chars ($"0") s with
  | [] => v = 0
  | z => Py.digits_value z = Some v
  end.
Proof.
  unfold Py.lstrip_chars. induction s as [|c s IH]; [discriminate |].
  intros H. cbn [Py.lstrip_by].
  destruct (Py.char_in ($"0") c) eqn:Ec.
  - assert (c = "0"%char) as ->.
    { unfold Py.char_in in Ec. simpl in Ec. rewrite orb_false_r in Ec.
      now apply Ascii.eqb_eq in Ec. }
    destruct s as [|c' s'].
    + simpl. rewrite digits_value_zero_only in H. congruence.
    + rewrite digits_value_zero_head in H by discriminate. apply IH, H.
  - exact H.
Qed.

Lemma int_digits (s : str) (v : Z) :
  Py.digits_value s = Some v -> Py.int s = Ok v.
Proof.
  intros H. destruct (digits_value_decimal s v H) as [Hne Hdec].
  unfold Py.int, Py.strip. rewrite strip_by_noop.
  2: { eapply List.Forall_impl; [| exact Hdec]. apply is_decimal_not_space. }
  destruct s as [|c s]; [congruence |].
  inversion Hdec as [|? ? Hc _]; subst.
  rewrite (is_decimal_not_minus c Hc), (is_decimal_not_plus c Hc), H. reflexivity.
Qed.

Lemma int_minus_digits (s : str) (v : Z) :
  Py.digits_value s = Some v -> Py.int ("-"%char :: s) = Ok (- v).
Proof.
  intros H. destruct (digits_value_decimal s v H) as [Hne Hdec].
  unfold Py.int, Py.strip. rewrite strip_by_noop.
  2: { constructor; [reflexivity |].
       eapply List.Forall_impl; [| exact Hdec]. apply is_decimal_not_space. }
  simpl. rewrite H. reflexivity.
Qed.

Lemma int_ok_length (s : str) (n : Z) :
  Py.int s = Ok n ->
  (List.length (Py.str_of_int (Z.abs n)) <= List.length s)%nat.
Proof.
  unfold Py.int. pose proof (strip_by_length Py.is_space s) as Hs.
  fold (Py.strip s) in Hs.
  destruct (Py.strip s) as [|c r] eqn:Et; simpl.
  - discriminate.
  - destruct (Ascii.eqb c "-"); [| destruct (Ascii.eqb c "+")].
    all: match goal with |- context [Py.digits_value ?b] =>
           destruct (Py.digits_value b) as [v|] eqn:Ev; [| discriminate] end.
    all: intros [= <-]; destruct (digits_value_str_length _ _ Ev) as [Hv Hl].
    all: rewrite ?Z.abs_opp, Z.abs_eq by lia; simpl in *; lia.
Qed.

(** ** Rendering a number *)

Lemma str_of_int_nonneg_head (n : Z) :
  0 <= n ->
  exists c r, Py.str_of_int n = c :: r
              /\ Ascii.eqb c "-" = false /\ Ascii.eqb c "+" = false.
Proof.
  intros Hn. destruct n as [|p|p]; [| | lia].
  - exists "0"%char, []. repeat split.
  - unfold Py.str_of_int. simpl Z.to_int. unfold NilZero.string_of_int.
    pose proof (DecimalPos.Unsigned.to_uint_nonnil p) as Hnil.
    destruct (Pos.to_uint p); [congruence | ..]; simpl; eexists _, _; repeat split.
Qed.

Lemma zeros_length (n : nat) : List.length (Py.zeros n) = n.
Proof. apply repeat_length. Qed.

(** On a number that is not negative [zfill] only pads on the left. *)
Lemma zfill_nonneg (width : nat) (n : Z) :
  0 <= n ->
  Py.zfill width (Py.str_of_int n)
  = Py.zeros (width - List.length (Py.str_of_int n)) ++ Py.str_of_int n.
Proof.
  intros Hn. destruct (str_of_int_nonneg_head n Hn) as (c & r & -> & Hm & Hp).
  unfold Py.zfill. rewrite Hm, Hp. reflexivity.
Qed.

Lemma zfill_nonneg_length (width : nat) (n : Z) :
  0 <= n ->
  (List.length (Py.str_of_int n) <= width)%nat ->
  List.length (Py.zfill width (Py.str_of_int n)) = width.
Proof.
  intros Hn Hl. rewrite zfill_nonneg by exact Hn.
  rewrite length_app, zeros_length. lia.
Qed.

(** ** The two amount rules *)

Lemma fmv_X0A_nonneg (mv_raw : str) (n : Z) : fmv_X0A mv_raw = Ok n -> 0 <= n.
Proof.
  unfold fmv_X0A. destruct (Py.isdigit _).
  - destruct (Py.int _); simpl; [| discriminate]. intros [= <-]. apply Z.abs_nonneg.
  - intros [= <-]. lia.
Qed.

Lemma fmv_B1N_nonneg (mv_raw : str) (n : Z) : fmv_B1N mv_raw = Ok n -> 0 <= n.
Proof.
  unfold fmv_B1N. destruct (Py.isdigit _).
  - destruct (Py.int _); simpl; [| discriminate]. intros [= <-]. apply Z.abs_nonneg.
  - intros [= <-]. lia.
Qed.

Lemma fmv_X0A_str_length (mv_raw : str) (n : Z) :
  fmv_X0A mv_raw = Ok n ->
  (List.length (Py.str_of_int n) <= Nat.max 1 (List.length mv_raw))%nat.
Proof.
  unfold fmv_X0A. destruct (Py.isdigit _).
  - destruct (Py.int (Py.strip mv_raw)) as [k|] eqn:Ek; simpl; [| discriminate].
    intros [= <-]. apply int_ok_length in Ek.
    pose proof (strip_by_length Py.is_space mv_raw) as Hs. fold (Py.strip mv_raw) in Hs.
    lia.
  - intros [= <-]. change (Py.str_of_int 0) with ["0"%char]. simpl. lia.
Qed.

Lemma minus_is_minus (c : ascii) : Py.char_in ($"-") c = Ascii.eqb c "-".
Proof. unfold Py.char_in. simpl. apply orb_false_r. Qed.

Lemma decimal_not_in_minus (s : str) :
  Forall (fun c => Py.is_decimal c = true) s ->
  Forall (fun c => Py.char_in ($"-") c = false) s.
Proof.
  apply List.Forall_impl. intros c Hc. rewrite minus_is_minus.
  now apply is_decimal_not_minus.
Qed.

(** Detail rule on a run of digits, bare or after one minus. *)
Lemma fmv_X0A_digits (mv_raw ds : str) (v : Z) :
  Py.digits_value ds = Some v ->
  Py.strip mv_raw = ds \/ Py.strip mv_raw = "-"%char :: ds ->
  fmv_X0A mv_raw = Ok v.
Proof.
  intros Hv Hs. destruct (digits_value_decimal ds v Hv) as [Hne Hdec].
  destruct (digits_value_str_length ds v Hv) as [Hpos _].
  unfold fmv_X0A.
  assert (Py.lstrip_chars ($"-") (Py.strip mv_raw) = ds) as ->.
  { unfold Py.lstrip_chars. destruct Hs as [-> | ->].
    - apply lstrip_by_noop, decimal_not_in_minus, Hdec.
    - cbn [Py.lstrip_by]. rewrite minus_is_minus. simpl.
      apply lstrip_by_noop, decimal_not_in_minus, Hdec. }
  rewrite (decimal_isdigit ds Hne Hdec).
  destruct Hs as [-> | ->].
  - rewrite (int_digits ds v Hv). simpl. now rewrite Z.abs_eq.
  - rewrite (int_minus_digits ds v Hv). simpl. now rewrite Z.abs_opp, Z.abs_eq.
Qed.

(** Transaction rule on a run of digits, bare or after one minus. *)
Lemma fmv_B1N_digits (mv_raw ds : str) (v : Z) :
  Py.digits_value ds = Some v ->
  mv_raw = ds \/ mv_raw = "-"%char :: ds ->
  fmv_B1N mv_raw = Ok v.
Proof.
  intros Hv Hs. destruct (digits_value_decimal ds v Hv) as [Hne Hdec].
  destruct (digits_value_str_length ds v Hv) as [Hpos _].
  pose proof (decimal_not_in_minus ds Hdec) as Hnm.
  unfold fmv_B1N.
  assert (Py.strip_chars ($"-") mv_raw = ds) as ->.
  { unfold Py.strip_chars. destruct Hs as [-> | ->].
    - now apply strip_by_noop.
    - unfold Py.strip_by. cbn [Py.lstrip_by]. rewrite minus_is_minus. simpl.
      rewrite lstrip_by_noop by exact Hnm.
      unfold Py.rstrip_by. rewrite lstrip_by_noop by now apply List.Forall_rev.
      apply rev_involutive. }
  pose proof (digits_value_lstrip_zeros ds v Hv) as Hz.
  destruct (Py.lstrip_chars ($"0") ds) as [|z zs] eqn:Ez.
  - subst v. reflexivity.
  - destruct (digits_value_decimal _ _ Hz) as [Hzne Hzdec].
    rewrite (decimal_isdigit _ Hzne Hzdec).
    destruct Hs as [-> | ->].
    + rewrite Ez, (int_digits _ v Hz). simpl. now rewrite Z.abs_eq.
    + unfold Py.lstrip_chars. cbn [Py.lstrip_by].
      replace (Py.char_in ($"0") "-"%char) with false by reflexivity.
      rewrite (int_minus_digits ds v Hv). simpl. now rewrite Z.abs_opp, Z.abs_eq.
Qed.

(** ** parse_line on the two layouts *)

Lemma LINE_FORMATS_X0A : LINE_FORMATS !! "X0A"%string = Some X0A_LAYOUT.
Proof. reflexivity. Qed.

Lemma LINE_FORMATS_B1N : LINE_FORMATS !! "B1N"%string = Some B1N_LAYOUT.
Proof. reflexivity. Qed.

(** The keys of the table are the two format keys. *)
Lemma LINE_FORMATS_keys (format_key : string) :
  is_Some (LINE_FORMATS !! format_key)
  <-> format_key = "X0A"%string \/ format_key = "B1N"%string.
Proof.
  unfold LINE_FORMATS. cbn [list_to_map foldr fst snd].
  rewrite !lookup_insert_is_Some, lookup_empty, is_Some_alt. intuition congruence.
Qed.

Lemma parse_line_X0A (line : str) :
  parse_line line "X0A"
  = (fmv <- fmv_X0A (mv_of_X0A line) ;;
     Ok (<["smv"%string := PStr (smv_of fmv)]>
           (<["fmv"%string := PInt fmv]> (PStr <$> (extract line <$> X0A_LAYOUT))))).
Proof.
  unfold parse_line. rewrite LINE_FORMATS_X0A. unfold getitem.
  rewrite lookup_fmap. reflexivity.
Qed.

Lemma parse_line_B1N (line : str) :
  parse_line line "B1N"
  = (fmv <- fmv_B1N (mv_of_B1N line) ;;
     Ok (<["fmv"%string := PInt fmv]> (PStr <$> (extract line <$> B1N_LAYOUT)))).
Proof.
  unfold parse_line. rewrite LINE_FORMATS_B1N. unfold getitem.
  rewrite lookup_fmap. reflexivity.
Qed.

Lemma slice_length_le (s : str) (start stop : nat) :
  (List.length (Py.slice s start stop) <= stop - start)%nat.
Proof. unfold Py.slice. rewrite length_firstn. lia. Qed.

Lemma slice_length (s : str) (start stop : nat) :
  (stop <= List.length s)%nat ->
  List.length (Py.slice s start stop) = (stop - start)%nat.
Proof. intros H. unfold Py.slice. rewrite length_firstn, length_skipn. lia. Qed.

Lemma mv_of_X0A_length (line : str) : (List.length (mv_of_X0A line) <= 10)%nat.
Proof.
  unfold mv_of_X0A, extract. simpl. rewrite app_nil_r, length_app.
  pose proof (slice_length_le line 134 142). pose proof (slice_length_le line 143 145).
  lia.
Qed.

(** The record of a detail line: its magnitude is not negative and its
    encoding has ten characters. *)
Lemma parse_line_X0A_amount (line : str) (parsed_data : gmap string pyval) :
  parse_line line "X0A" = Ok parsed_data ->
  exists fmv,
    fmv_X0A (mv_of_X0A line) = Ok fmv
    /\ parsed_data !! "fmv"%string = Some (PInt fmv)
    /\ parsed_data !! "smv"%string = Some (PStr (smv_of fmv))
    /\ 0 <= fmv
    /\ smv_of fmv = Py.zeros (10 - List.length (Py.str_of_int fmv)) ++ Py.str_of_int fmv
    /\ List.length (smv_of fmv) = 10%nat.
Proof.
  rewrite parse_line_X0A. intros H. apply bind_ok in H as (fmv & Hf & Heq).
  apply Ok_inj in Heq. subst parsed_data.
  exists fmv. pose proof (fmv_X0A_nonneg _ _ Hf) as Hn.
  pose proof (fmv_X0A_str_length _ _ Hf) as Hl.
  pose proof (mv_of_X0A_length line) as Hm.
  split; [assumption |].
  split; [rewrite lookup_insert_ne by discriminate; apply lookup_insert_eq |].
  split; [apply lookup_insert_eq |].
  split; [assumption |].
  unfold smv_of. split.
  - now apply zfill_nonneg.
  - apply zfill_nonneg_length; [assumption | lia].
Qed.

Lemma parse_line_B1N_amount (line : str) (parsed_data : gmap string pyval) :
  parse_line line "B1N" = Ok parsed_data ->
  exists fmv,
    fmv_B1N (mv_of_B1N line) = Ok fmv
    /\ parsed_data !! "fmv"%string = Some (PInt fmv)
    /\ 0 <= fmv.
Proof.
  rewrite parse_line_B1N. intros H. apply bind_ok in H as (fmv & Hf & Heq).
  apply Ok_inj in Heq. subst parsed_data.
  exists fmv. split; [assumption |]. split; [apply lookup_insert_eq |].
  eapply fmv_B1N_nonneg, Hf.
Qed.

(** Whenever [parse_line] returns, the magnitude it stored is not negative. *)
Lemma parse_line_fmv_nonneg (line : str) (format_key : string)
    (parsed_data : gmap string pyval) :
  parse_line line format_key = Ok parsed_data ->
  exists fmv, parsed_data !! "fmv"%string = Some (PInt fmv) /\ 0 <= fmv.
Proof.
  intros H.
  assert (is_Some (LINE_FORMATS !! format_key)) as Hk.
  { unfold parse_line in H. destruct (LINE_FORMATS !! format_key); [eauto | discriminate]. }
  apply LINE_FORMATS_keys in Hk as [-> | ->].
  - apply parse_line_X0A_amount in H as (fmv & _ & H1 & _ & H2 & _). eauto.
  - apply parse_line_B1N_amount in H as (fmv & _ & H1 & H2). eauto.
Qed.

(** [parse_line] refuses every key outside the table. *)
Lemma parse_line_unknown_format (line : str) (format_key : string) :
  format_key <> "X0A"%string -> format_key <> "B1N"%string ->
  parse_line line format_key = Raise ValueError.
Proof.
  intros H1 H2. unfold parse_line.
  destruct (LINE_FORMATS !! format_key) eqn:E; [| reflexivity].
  assert (is_Some (LINE_FORMATS !! format_key)) as Hk by eauto.
  apply LINE_FORMATS_keys in Hk. tauto.
Qed.

(** ** parse_line on a line's content *)

(** C1 (the code departs from the claim). [parse_line] with a key of the
    layout table raises [ValueError] on some lines: in the detail layout when
    the amount columns hold two minus signs before the digits, in the
    transaction layout when a minus follows the digits. The [isdigit] guard
    lets both through and [int] rejects them. *)
Theorem parse_line_raises_on_line_content :
  parse_line line_double_minus "X0A" = Raise ValueError
  /\ parse_line line_trailing_minus "B1N" = Raise ValueError.
Proof. split; vm_compute; reflexivity. Qed.

(** ** The amount rules against their description *)

(** C5, counterexample. In the transaction format a minus after leading
    zeros gives zero, where the description strips the zeros first and
    reads 50; in the detail format two leading minus signs raise, where the
    description gives zero. *)
Lemma amount_rules_differ_from_description :
  fmv_B1N ($"00000000-50") = Ok 0
  /\ claimed_fmv_transaction ($"00000000-50") = 50
  /\ fmv_X0A ($"      --50") = Raise ValueError
  /\ claimed_fmv_detail ($"      --50") = 0.
Proof. repeat split; vm_compute; reflexivity. Qed.

(** C5, amended. Detail format: a stripped substring that is a run of
    decimal digits, bare or after one minus, gives its absolute value; a
    stripped substring that, its leading minus signs removed, is not a
    digit string gives zero; the magnitude of a substring of at most ten
    characters is encoded on exactly ten digits, zeros on the left.
    Transaction format: a substring that is a run of decimal digits, bare or
    after one minus, gives its absolute value; a substring that, its minus
    signs at both ends and then its leading zeros removed, is not a digit
    string gives zero. *)
Theorem amount_rules :
  (forall mv_raw ds v,
      Py.digits_value ds = Some v ->
      Py.strip mv_raw = ds \/ Py.strip mv_raw = "-"%char :: ds ->
      fmv_X0A mv_raw = Ok v)
  /\ (forall mv_raw,
         Py.isdigit (Py.lstrip_chars ($"-") (Py.strip mv_raw)) = false ->
         fmv_X0A mv_raw = Ok 0)
  /\ (forall mv_raw fmv,
         (List.length mv_raw <= 10)%nat ->
         fmv_X0A mv_raw = Ok fmv ->
         0 <= fmv
         /\ smv_of fmv = Py.zeros (10 - List.length (Py.str_of_int fmv)) ++ Py.str_of_int fmv
         /\ List.length (smv_of fmv) = 10%nat)
  /\ (forall mv_raw ds v,
         Py.digits_value ds = Some v ->
         mv_raw = ds \/ mv_raw = "-"%char :: ds ->
         fmv_B1N mv_raw = Ok v)
  /\ (forall mv_raw,
         Py.isdigit (Py.lstrip_chars ($"0") (Py.strip_chars ($"-") mv_raw)) = false ->
         fmv_B1N mv_raw = Ok 0).
Proof.
  split; [exact fmv_X0A_digits |].
  split; [intros mv_raw H; unfold fmv_X0A; now rewrite H |].
  split.
  { intros mv_raw fmv Hl Hf.
    pose proof (fmv_X0A_nonneg _ _ Hf) as Hn.
    pose proof (fmv_X0A_str_length _ _ Hf) as Hs.
    split; [assumption |]. unfold smv_of. split.
    - now apply zfill_nonneg.
    - apply zfill_nonneg_length; [assumption | lia]. }
  split; [exact fmv_B1N_digits |].
  intros mv_raw H. unfold fmv_B1N. now rewrite H.
Qed.

Lemma amount_rules_witness :
  fmv_X0A ($"    -12345") = Ok 12345
  /\ fmv_X0A ($"  12.50   ") = Ok 0
  /\ List.length (smv_of 12345) = 10%nat
  /\ fmv_B1N ($"-0000000123") = Ok 123
  /\ fmv_B1N ($"        1.5") = Ok 0.
Proof.
  destruct amount_rules as (H1 & H2 & H3 & H4 & H5).
  split; [apply (H1 _ ($"12345")); [reflexivity | right; reflexivity] |].
  split; [apply H2; reflexivity |].
  split; [apply (H3 ($"    -12345")); [simpl; lia | apply (H1 _ ($"12345")); [reflexivity | right; reflexivity]] |].
  split; [apply (H4 _ ($"0000000123")); [reflexivity | right; reflexivity] |].
  apply H5; reflexivity.
Defined.

(** ** Classification of a line *)

Lemma create_stars_loop_step (line : str) (rest output_lines : list str) (total : Z) :
  create_stars_loop (line :: rest) output_lines total
  = (r <- transcode_line line ;;
     match r with
     | Some (formatted_line, fmv) =>
         create_stars_loop rest (output_lines ++ [formatted_line]) (total + fmv)
     | None => create_stars_loop rest output_lines total
     end).
Proof.
  unfold transcode_line, classify. simpl.
  destruct (is_X0A_line line); [| destruct (is_B1N_line line)]; simpl; try reflexivity.
  - unfold transform_X0A.
    destruct (parse_line line "X0A") as [pd|]; simpl; [| reflexivity].
    destruct (format_X0A pd); simpl; [| reflexivity].
    destruct (fmv_of pd); reflexivity.
  - unfold transform_B1N.
    destruct (parse_line line "B1N") as [pd|]; simpl; [| reflexivity].
    destruct (format_B1N pd); simpl; [| reflexivity].
    destruct (fmv_of pd); reflexivity.
Qed.

Lemma is_X0A_line_true (line : str) :
  is_X0A_line line = true
  <-> (Py.contains ($"X0A") line = true \/ Py.contains ($"Z0A") line = true)
      /\ List.length line = 182%nat.
Proof.
  unfold is_X0A_line. rewrite andb_true_iff, orb_true_iff, Nat.eqb_eq. tauto.
Qed.

(** C4, counterexample. A line of 182 characters with both markers contains
    ["B1N"] and is classified as detail format, not as transaction format. *)
Lemma transaction_marker_classified_as_detail :
  Py.contains ($"B1N") line_both_markers = true
  /\ classify line_both_markers = Some "X0A"%string
  /\ transcode_line line_both_markers
     = (r <- transform_X0A line_both_markers ;; Ok (Some r)).
Proof. repeat split; vm_compute; reflexivity. Qed.

(** C4, amended. A line is classified as detail format exactly when it
    contains ["X0A"] or ["Z0A"] and has length 182; as transaction format
    exactly when it contains ["B1N"] and is not a detail line, whatever its
    length; a line of neither kind leaves the output lines and the total as
    they were. *)
Theorem classification_of_a_line (line : str) :
  let detail := (Py.contains ($"X0A") line = true \/ Py.contains ($"Z0A") line = true)
                /\ List.length line = 182%nat in
  (classify line = Some "X0A"%string <-> detail)
  /\ (classify line = Some "B1N"%string <-> Py.contains ($"B1N") line = true /\ ~ detail)
  /\ (classify line = None <-> Py.contains ($"B1N") line = false /\ ~ detail)
  /\ (forall rest output_lines total,
         create_stars_loop (line :: rest) output_lines total
         = match classify line with
           | Some k =>
               r <- (if String.eqb k "X0A" then transform_X0A line else transform_B1N line) ;;
               create_stars_loop rest (output_lines ++ [fst r]) (total + snd r)
           | None => create_stars_loop rest output_lines total
           end).
Proof.
  intros detail. subst detail. rewrite <- is_X0A_line_true.
  split; [| split; [| split]].
  4: { intros. rewrite create_stars_loop_step. unfold transcode_line.
       destruct (classify line) as [k|]; [| reflexivity].
       destruct (String.eqb k "X0A"); simpl.
       - destruct (transform_X0A line) as [[fl m]|]; reflexivity.
       - destruct (transform_B1N line) as [[fl m]|]; reflexivity. }
  all: unfold classify, is_B1N_line;
    destruct (is_X0A_line line), (Py.contains ($"B1N") line); intuition congruence.
Qed.

(** ** The detail template *)

Lemma parsed_X0A_lookup (line : str) (fmv : Z) (k : string) (spec : field_spec) :
  X0A_LAYOUT !! k = Some spec ->
  k <> "smv"%string -> k <> "fmv"%string ->
  (<["smv"%string := PStr (smv_of fmv)]>
     (<["fmv"%string := PInt fmv]> (PStr <$> (extract line <$> X0A_LAYOUT)))) !! k
  = Some (PStr (extract line spec)).
Proof.
  intros H Hs Hf. rewrite !lookup_insert_ne by congruence.
  rewrite !lookup_fmap, H. reflexivity.
Qed.




Lemma spaces_length (n : nat) : List.length (spaces n) = n.
Proof. apply repeat_length. Qed.


(** ** Precedence of the detail format *)



(** ** The record loop *)

Lemma sum_in_order_from (ms : list Z) (a : Z) :
  fold_left Z.add ms a = a + sum_in_order ms.
Proof.
  unfold sum_in_order. revert a.
  induction ms as [|m ms IH]; intros a; simpl; [lia |].
  rewrite (IH (a + m)), (IH (0 + m)). lia.
Qed.

Lemma sum_in_order_cons (m : Z) (ms : list Z) :
  sum_in_order (m :: ms) = m + sum_in_order ms.
Proof. unfold sum_in_order at 1. simpl. apply sum_in_order_from. Qed.

Lemma sum_in_order_Permutation (ms ms' : list Z) :
  Permutation ms ms' -> sum_in_order ms = sum_in_order ms'.
Proof.
  induction 1 as [| x l l' _ IH | x y l | l l' l'' _ IH1 _ IH2].
  - reflexivity.
  - rewrite !sum_in_order_cons. lia.
  - rewrite !sum_in_order_cons. lia.
  - congruence.
Qed.

Lemma transcode_line_unmatched (line : str) :
  is_matched line = false <-> transcode_line line = Ok None.
Proof.
  unfold is_matched, transcode_line. destruct (classify line) as [k|].
  - split; [discriminate |].
    destruct (if String.eqb k "X0A" then _ else _); simpl; discriminate.
  - split; reflexivity.
Qed.

Lemma transcode_line_matched (line formatted_line : str) (fmv : Z) :
  transcode_line line = Ok (Some (formatted_line, fmv)) ->
  is_matched line = true /\ formatted line = formatted_line /\ magnitude line = fmv.
Proof.
  intros H. unfold formatted, magnitude. rewrite H. repeat split.
  destruct (is_matched line) eqn:E; [reflexivity |].
  apply transcode_line_unmatched in E. congruence.
Qed.

Lemma fmv_of_lookup (parsed_data : gmap string pyval) (fmv : Z) :
  parsed_data !! "fmv"%string = Some (PInt fmv) -> fmv_of parsed_data = Ok fmv.
Proof. intros H. unfold fmv_of, get_default. now rewrite H. Qed.

Lemma transform_X0A_nonneg (line formatted_line : str) (fmv : Z) :
  transform_X0A line = Ok (formatted_line, fmv) -> 0 <= fmv.
Proof.
  unfold transform_X0A. intros H.
  apply bind_ok in H as (pd & Hp & H).
  apply bind_ok in H as (fl & _ & H).
  apply bind_ok in H as (m & Hm & H).
  apply parse_line_fmv_nonneg in Hp as (n & Hn & Hpos).
  rewrite (fmv_of_lookup _ _ Hn) in Hm. congruence.
Qed.

Lemma transform_B1N_nonneg (line formatted_line : str) (fmv : Z) :
  transform_B1N line = Ok (formatted_line, fmv) -> 0 <= fmv.
Proof.
  unfold transform_B1N. intros H.
  apply bind_ok in H as (pd & Hp & H).
  apply bind_ok in H as (fl & _ & H).
  apply bind_ok in H as (m & Hm & H).
  apply parse_line_fmv_nonneg in Hp as (n & Hn & Hpos).
  rewrite (fmv_of_lookup _ _ Hn) in Hm. congruence.
Qed.

Lemma magnitude_nonneg (line : str) : 0 <= magnitude line.
Proof.
  unfold magnitude, transcode_line.
  destruct (classify line) as [k|]; [| lia].
  destruct (String.eqb k "X0A").
  - destruct (transform_X0A line) as [[fl m]|] eqn:E; simpl; [| lia].
    eapply transform_X0A_nonneg, E.
  - destruct (transform_B1N line) as [[fl m]|] eqn:E; simpl; [| lia].
    eapply transform_B1N_nonneg, E.
Qed.

Lemma sum_magnitude_nonneg (lines : list str) : 0 <= sum_in_order (map magnitude lines).
Proof.
  induction lines as [|l lines IH]; simpl; [unfold sum_in_order; simpl; lia |].
  rewrite sum_in_order_cons. pose proof (magnitude_nonneg l). lia.
Qed.

(** What the loop returns: the matched lines, formatted, after the lines it
    started from, and their magnitudes added from left to right to the
    total it started from. *)
Lemma create_stars_loop_ok (original_lines output_lines out : list str) (total total' : Z) :
  create_stars_loop original_lines output_lines total = Ok (out, total') ->
  Forall (fun l => returns (transcode_line l)) original_lines
  /\ out = output_lines ++ map formatted (matched original_lines)
  /\ total' = total + sum_in_order (map magnitude (matched original_lines)).
Proof.
  revert output_lines total.
  induction original_lines as [|line rest IH]; intros output_lines total H.
  - simpl in H. apply Ok_inj in H. injection H as <- <-.
    unfold matched, sum_in_order. simpl. rewrite app_nil_r.
    repeat split; [constructor | lia].
  - rewrite create_stars_loop_step in H.
    apply bind_ok in H as (r & Hr & H).
    unfold matched in *. cbn [List.filter].
    destruct r as [[fl m]|].
    + apply transcode_line_matched in Hr as Hm. destruct Hm as (Hm & Hf & Hg).
      apply IH in H as (Hall & Hout & Htot). rewrite Hm. cbn [map].
      rewrite sum_in_order_cons, Hf, Hg.
      split; [constructor; [eexists; exact Hr | exact Hall] |].
      split; [rewrite Hout, <- app_assoc; reflexivity | lia].
    + apply transcode_line_unmatched in Hr as Hm.
      apply IH in H as (Hall & Hout & Htot). rewrite Hm.
      split; [constructor; [eexists; exact Hr | exact Hall] |].
      split; assumption.
Qed.

(** The loop returns as soon as every line can be transcoded. *)
Lemma create_stars_loop_returns (original_lines output_lines : list str) (total : Z) :
  Forall (fun l => returns (transcode_line l)) original_lines ->
  returns (create_stars_loop original_lines output_lines total).
Proof.
  intros H. revert output_lines total.
  induction H as [|line rest [r Hr] _ IH]; intros output_lines total.
  - eexists. reflexivity.
  - rewrite create_stars_loop_step, Hr. simpl.
    destruct r as [[fl m]|]; apply IH.
Qed.

Lemma matched_Permutation (lines lines' : list str) :
  Permutation lines lines' -> Permutation (matched lines) (matched lines').
Proof.
  unfold matched. induction 1 as [| x l l' _ IH | x y l | l l' l'' _ IH1 _ IH2].
  - constructor.
  - simpl. destruct (is_matched x); [now constructor | assumption].
  - simpl. destruct (is_matched x), (is_matched y); try reflexivity. constructor.
  - etransitivity; eassumption.
Qed.

(** [create_stars] on a file every line of which can be transcoded. *)
Lemma create_stars_ok (now : str) (original_lines : list str) (pid : str) (out : list str) :
  create_stars now original_lines pid = Ok out ->
  Forall (fun l => returns (transcode_line l)) original_lines
  /\ out = header_line now :: map formatted (matched original_lines)
           ++ [trailer_for (List.length (matched original_lines))
                 (sum_in_order (map magnitude (matched original_lines))) pid].
Proof.
  unfold create_stars. intros H. apply bind_ok in H as ([o t] & Hl & H).
  apply create_stars_loop_ok in Hl as (Hall & -> & ->).
  apply Ok_inj in H. subst out. split; [exact Hall |].
  simpl. f_equal. f_equal. f_equal. unfold trailer_for. f_equal.
  rewrite length_map. f_equal. f_equal. lia.
Qed.

Lemma create_stars_returns (now : str) (original_lines : list str) (pid : str) :
  Forall (fun l => returns (transcode_line l)) original_lines ->
  returns (create_stars now original_lines pid).
Proof.
  intros H. unfold create_stars.
  destruct (create_stars_loop_returns original_lines [header_line now] 0 H) as [[o t] ->].
  eexists. reflexivity.
Qed.

(** ** Exceptions out of the loop *)

(** C7 (the code departs from the claim). Transforming a line classified as
    transaction format can raise: [parsed_data["di"][2]] raises [IndexError]
    on a line that ends before column 9, and [parse_line] raises
    [ValueError] on a minus after the amount; [create_stars] then ends with
    that exception, whatever came before the line. *)
Theorem create_stars_raises_on_transaction_line :
  is_B1N_line line_short = true
  /\ is_X0A_line line_short = false
  /\ transform_B1N line_short = Raise IndexError
  /\ (forall now pid, create_stars now [line_unknown; line_short] pid = Raise IndexError)
  /\ is_B1N_line line_trailing_minus = true
  /\ (forall now pid, create_stars now [line_trailing_minus] pid = Raise ValueError).
Proof.
  repeat split; vm_compute; reflexivity.
Qed.

(** ** The trailer *)

(** C3, counterexample. For a file with one line of no known format the
    trailer carries fifteen zeros and then nineteen zeros; the total the
    claim writes has twenty, and is not what is written. *)
Lemma trailer_total_has_nineteen_digits :
  create_stars ($"20240101120000") [line_unknown] ($"001")
  = Ok [ header_line ($"20240101120000");
         trailer_line ($"000000000000000") ($"0000000000000000000") ($"001") ]
  /\ List.length ($"0000000000000000000") = 19%nat
  /\ List.length ($"00000000000000000000") = 20%nat
  /\ bool_decide
       (create_stars ($"20240101120000") [line_unknown] ($"001")
        = Ok [ header_line ($"20240101120000");
               trailer_line ($"000000000000000") ($"00000000000000000000") ($"001") ])
     = false.
Proof. repeat split; vm_compute; reflexivity. Qed.

(** C3, amended. Whenever [create_stars] completes, the output is the
    header, one line per line that matched a known format, and a trailer
    whose record count is the number of matched lines, padded with zeros on
    the left to 15 digits, and whose total is padded with zeros on the left
    to 19 digits; on a file none of whose lines matches, it completes with a
    count of 000000000000000 and a total of 0000000000000000000 (nineteen
    zeros). *)
Theorem trailer_counts_matched_lines (now : str) (original_lines : list str) (pid : str) :
  (forall out,
      create_stars now original_lines pid = Ok out ->
      exists body total,
        let count := Py.str_of_int (Z.of_nat (List.length (matched original_lines))) in
        let sum := Py.str_of_int total in
        out = header_line now :: body
              ++ [trailer_line (Py.zeros (15 - List.length count) ++ count)
                               (Py.zeros (19 - List.length sum) ++ sum) pid]
        /\ List.length body = List.length (matched original_lines)
        /\ 0 <= total)
  /\ (matched original_lines = [] ->
      create_stars now original_lines pid
      = Ok [ header_line now;
             trailer_line ($"000000000000000") ($"0000000000000000000") pid ]).
Proof.
  split.
  - intros out H. apply create_stars_ok in H as [_ ->].
    exists (map formatted (matched original_lines)),
           (sum_in_order (map magnitude (matched original_lines))).
    cbv zeta. pose proof (sum_magnitude_nonneg (matched original_lines)) as Hs.
    split; [| split; [apply length_map | exact Hs]].
    unfold trailer_for. rewrite !zfill_nonneg by lia. reflexivity.
  - intros Hm.
    assert (Forall (fun l => returns (transcode_line l)) original_lines) as Hall.
    { apply List.Forall_forall. intros l Hl.
      assert (is_matched l = false) as Hu.
      { destruct (is_matched l) eqn:E; [| reflexivity].
        assert (In l (matched original_lines)) as Hin
          by (apply filter_In; split; assumption).
        rewrite Hm in Hin. destruct Hin. }
      apply transcode_line_unmatched in Hu. eexists. exact Hu. }
    destruct (create_stars_returns now original_lines pid Hall) as [out Hout].
    rewrite Hout. apply create_stars_ok in Hout as [_ ->].
    rewrite Hm. reflexivity.
Qed.

Lemma trailer_counts_matched_lines_witness :
  exists out,
    create_stars ($"20240101120000") [line_detail; line_unknown; line_transaction] ($"001")
    = Ok out
    /\ nth 3 out [] = $"TRAILERSTARSFL   0000000000000020000000000000012468stars001r.txt" ++ newline
    /\ create_stars ($"20240101120000") [line_unknown; line_unknown] ($"001")
       = Ok [ header_line ($"20240101120000");
              trailer_line ($"000000000000000") ($"0000000000000000000") ($"001") ].
Proof.
  destruct (trailer_counts_matched_lines ($"20240101120000")
              [line_detail; line_unknown; line_transaction] ($"001")) as [H1 _].
  destruct (trailer_counts_matched_lines ($"20240101120000")
              [line_unknown; line_unknown] ($"001")) as [_ H2].
  eexists. split; [vm_compute; reflexivity |].
  split; [vm_compute; reflexivity |].
  apply H2. reflexivity.
Defined.

(** ** The running total *)

(** C6 (the code departs from the claim). A file can hold matched lines
    and get no trailer and no total: a line whose amount passes the digit
    guard and fails [int] ends [create_stars] with its exception, and what
    the lines before it have added to the total is lost. The same lines in
    another order can end in another exception. *)
Theorem create_stars_leaves_no_total :
  is_matched line_detail = true
  /\ magnitude line_detail = 12345
  /\ is_matched line_trailing_minus = true
  /\ (forall now pid,
         create_stars now [line_detail; line_trailing_minus] pid = Raise ValueError)
  /\ (forall now pid,
         create_stars now [line_trailing_minus; line_short] pid = Raise ValueError)
  /\ (forall now pid,
         create_stars now [line_short; line_trailing_minus] pid = Raise IndexError).
Proof.
  repeat split; vm_compute; reflexivity.
Qed.

(** ** The reference-date check *)

Lemma py_eq_datetime_date (t : datetime) (d : date) :
  py_eq (DateTimeObj t) (DateObj d) = false.
Proof. reflexivity. Qed.

Lemma get_last_day_of_previous_month_eq (d : date) :
  1 < month d ->
  get_last_day_of_previous_month d
  = mkdate (year d) (month d - 1) (monthrange (year d) (month d - 1)).
Proof.
  intros Hm. unfold get_last_day_of_previous_month, minus_one_day. simpl.
  destruct (1 <? month d) eqn:E; [reflexivity | apply Z.ltb_ge in E; lia].
Qed.

Lemma monthrange_gt_1 (y m : Z) : 1 < monthrange y m.
Proof.
  unfold monthrange.
  repeat match goal with |- context [if ?b then _ else _] => destruct b end; lia.
Qed.

Lemma get_last_day_of_month_eq (d : date) :
  1 <= month d <= 12 ->
  get_last_day_of_month d = mkdate (year d) (month d) (monthrange (year d) (month d)).
Proof.
  intros Hm. unfold get_last_day_of_month, add_months. cbn [year month day].
  destruct (12 <? month d + 1) eqn:E12.
  - apply Z.ltb_lt in E12. assert (month d = 12) as Hd by lia.
    rewrite Hd. change (12 + 1 - 12) with 1.
    change (monthrange (year d + 1) 1) with 31. change (Z.min 31 1) with 1.
    unfold minus_one_day. cbn [year month day]. change (1 <? 1) with false.
    cbv iota. change (monthrange (year d) 12) with 31.
    f_equal. lia.
  - apply Z.ltb_ge in E12.
    destruct (month d + 1 <? 1) eqn:E1; [apply Z.ltb_lt in E1; lia |].
    pose proof (monthrange_gt_1 (year d) (month d + 1)) as Hr.
    rewrite Z.min_r by lia.
    unfold minus_one_day. cbn [year month day]. change (1 <? 1) with false.
    cbv iota.
    destruct (1 <? month d + 1) eqn:E; [| apply Z.ltb_ge in E; lia].
    replace (month d + 1 - 1) with (month d) by lia. reflexivity.
Qed.

(** On two [date] operands the check is the one its text describes. *)
Lemma bor_date_is_good_on_dates (today : date) (is_monthly : str) (ref fin : date) :
  bor_date_is_good today is_monthly (DateObj ref) (DateObj fin) = true
  <-> (is_monthly = $"n" /\ ref = get_last_day_of_previous_month today)
      \/ (is_monthly = $"y" /\ ref = fin /\ fin = get_last_day_of_month today).
Proof.
  unfold bor_date_is_good, py_eq.
  rewrite orb_true_iff, !andb_true_iff, !bool_decide_eq_true. tauto.
Qed.

(** C2 (the code departs from the claim). The reference date and the
    transmittal date reach the check as [datetime] objects, the last day of
    the month as a [date]; the two never compare equal, so the check reports
    a failure for every input. The query result [sample_valfile], read on
    2024-02-15 with the monthly flag ["n"], has the last day of the previous
    month as its reference date and is reported as no good. *)
Theorem reference_date_check_never_passes :
  (forall today is_monthly t_ref t_fin,
      bor_date_is_good today is_monthly (DateTimeObj t_ref) (DateTimeObj t_fin) = false
      /\ check_varparm_bordt today is_monthly (DateTimeObj t_ref) (DateTimeObj t_fin)
         = BOR_DATE_NO_GOOD)
  /\ (exists facts,
         parse_valfile parse_iso sample_valfile = Ok facts
         /\ dt_date (var_parm_bordt facts) = get_last_day_of_previous_month (mkdate 2024 2 15)
         /\ check_varparm_bordt (mkdate 2024 2 15) ($"n")
              (DateTimeObj (var_parm_bordt facts)) (DateTimeObj (fin_tldt facts))
            = BOR_DATE_NO_GOOD).
Proof.
  assert (forall today is_monthly t_ref t_fin,
      bor_date_is_good today is_monthly (DateTimeObj t_ref) (DateTimeObj t_fin) = false) as H.
  { intros. unfold bor_date_is_good. rewrite !py_eq_datetime_date.
    rewrite !andb_false_r. reflexivity. }
  split.
  - intros. split; [apply H |]. unfold check_varparm_bordt. rewrite H. reflexivity.
  - eexists. split; [vm_compute; reflexivity |]. split; vm_compute; reflexivity.
Qed.

(** ** parse_valfile *)

Lemma partition_after_first (sep : ascii) (h t : str) :
  ~ In sep h -> Py.partition sep (h ++ sep :: t) = (h, [sep], t).
Proof.
  induction h as [|c h IH]; intros Hn; simpl.
  - now rewrite Ascii.eqb_refl.
  - destruct (Ascii.eqb_spec c sep) as [->|_]; [exfalso; apply Hn; now left |].
    rewrite IH; [reflexivity |]. intros Hin. apply Hn. now right.
Qed.

Lemma partition_no_separator (sep : ascii) (s : str) :
  ~ In sep s -> Py.partition sep s = (s, [], []).
Proof.
  induction s as [|c s IH]; intros Hn; simpl; [reflexivity |].
  destruct (Ascii.eqb_spec c sep) as [->|_]; [exfalso; apply Hn; now left |].
  rewrite IH; [reflexivity |]. intros Hin. apply Hn. now right.
Qed.

Lemma value_at_eq (val_lines : list str) (i : nat) :
  value_at val_lines i
  = match nth_error val_lines i with
    | Some l => Ok (fact_value l)
    | None => Raise IndexError
    end.
Proof. unfold value_at, line_at. destruct (nth_error val_lines i); reflexivity. Qed.

Section ParseValfile.

Variable parse : str -> result datetime.

(** The result on ten lines or more. *)
Lemma parse_valfile_ten (l0 l1 l2 l3 l4 l5 l6 l7 l8 l9 : str) (rest : list str) :
  parse_valfile parse (l0 :: l1 :: l2 :: l3 :: l4 :: l5 :: l6 :: l7 :: l8 :: l9 :: rest)
  = (var_parm_bordt <- parse (fact_value l0) ;;
     bor_tldt <- parse (fact_value l3) ;;
     fin_tldt <- parse (fact_value l6) ;;
     material_request_tldt <- parse (fact_value l9) ;;
     Ok (mkfacts var_parm_bordt bor_tldt fin_tldt material_request_tldt
           (fact_value l2) (fact_value l5) (fact_value l8)
           (fact_value l1) (fact_value l4) (fact_value l7))).
Proof. reflexivity. Qed.

(** A result of fewer than ten lines raises. *)
Lemma parse_valfile_short (val_lines : list str) :
  (List.length val_lines < 10)%nat -> raises (parse_valfile parse val_lines).
Proof.
  intros Hlen. unfold parse_valfile. rewrite !value_at_eq.
  do 10 (destruct val_lines as [|? val_lines];
         [simpl; repeat (match goal with
                         | |- context [parse ?x] => destruct (parse x); simpl
                         end); eexists; reflexivity |]).
  simpl in Hlen. lia.
Qed.

End ParseValfile.

(** C8. [parse_valfile] reads the facts by position: it returns exactly
    when the result has ten lines or more and the values of lines 0, 3, 6
    and 9 parse as dates, and then the four dates are those parsed values,
    the sequence numbers are the values of lines 2, 5 and 8 and the fiscal
    years those of lines 1, 4 and 7, each value being what follows the
    first colon of the stripped line; a result of fewer than ten lines, or
    one whose date does not parse, raises. *)
Theorem parse_valfile_is_positional (parse : str -> result datetime) (val_lines : list str) :
  (forall facts,
      parse_valfile parse val_lines = Ok facts
      <-> exists l0 l1 l2 l3 l4 l5 l6 l7 l8 l9 rest,
            val_lines = l0 :: l1 :: l2 :: l3 :: l4 :: l5 :: l6 :: l7 :: l8 :: l9 :: rest
            /\ parse (fact_value l0) = Ok (var_parm_bordt facts)
            /\ parse (fact_value l3) = Ok (bor_tldt facts)
            /\ parse (fact_value l6) = Ok (fin_tldt facts)
            /\ parse (fact_value l9) = Ok (material_request_tldt facts)
            /\ bor_tl_no facts = fact_value l2
            /\ fin_tl_no facts = fact_value l5
            /\ material_request_tl_no facts = fact_value l8
            /\ bor_fy facts = fact_value l1
            /\ fin_fy facts = fact_value l4
            /\ material_request_fy facts = fact_value l7)
  /\ ((List.length val_lines < 10)%nat -> raises (parse_valfile parse val_lines))
  /\ (forall i l,
         In i [0; 3; 6; 9]%nat ->
         nth_error val_lines i = Some l ->
         raises (parse (fact_value l)) ->
         raises (parse_valfile parse val_lines))
  /\ (forall label value l,
         ~ In ":"%char label ->
         Py.strip l = label ++ ":"%char :: value ->
         fact_value l = value).
Proof.
  assert (forall facts,
      parse_valfile parse val_lines = Ok facts
      <-> exists l0 l1 l2 l3 l4 l5 l6 l7 l8 l9 rest,
            val_lines = l0 :: l1 :: l2 :: l3 :: l4 :: l5 :: l6 :: l7 :: l8 :: l9 :: rest
            /\ parse (fact_value l0) = Ok (var_parm_bordt facts)
            /\ parse (fact_value l3) = Ok (bor_tldt facts)
            /\ parse (fact_value l6) = Ok (fin_tldt facts)
            /\ parse (fact_value l9) = Ok (material_request_tldt facts)
            /\ bor_tl_no facts = fact_value l2
            /\ fin_tl_no facts = fact_value l5
            /\ material_request_tl_no facts = fact_value l8
            /\ bor_fy facts = fact_value l1
            /\ fin_fy facts = fact_value l4
            /\ material_request_fy facts = fact_value l7) as Hiff.
  { intros facts. split.
    - intros H.
      destruct (Nat.lt_ge_cases (List.length val_lines) 10) as [Hlt | Hge].
      { destruct (parse_valfile_short parse val_lines Hlt) as [e He]. congruence. }
      do 10 (destruct val_lines as [|? val_lines]; [simpl in Hge; lia |]).
      rewrite parse_valfile_ten in H.
      apply bind_ok in H as (d0 & H0 & H).
      apply bind_ok in H as (d3 & H3 & H).
      apply bind_ok in H as (d6 & H6 & H).
      apply bind_ok in H as (d9 & H9 & H).
      apply Ok_inj in H. subst facts. simpl.
      do 11 eexists. repeat split; eassumption.
    - intros (l0 & l1 & l2 & l3 & l4 & l5 & l6 & l7 & l8 & l9 & rest & -> & H0 & H3 & H6
              & H9 & Hrest).
      rewrite parse_valfile_ten, H0, H3, H6, H9. simpl.
      destruct facts; simpl in *.
      destruct Hrest as (-> & -> & -> & -> & -> & ->). reflexivity. }
  split; [exact Hiff |].
  split; [apply parse_valfile_short |].
  split.
  - intros i l Hi Hl [e He].
    destruct (returns_or_raises (parse_valfile parse val_lines)) as [[facts Hf] | Hr];
      [| exact Hr].
    apply Hiff in Hf
      as (l0 & l1 & l2 & l3 & l4 & l5 & l6 & l7 & l8 & l9 & rest & -> & H0 & H3 & H6 & H9 & _).
    simpl in Hi.
    destruct Hi as [<- | [<- | [<- | [<- | []]]]]; simpl in Hl;
      apply (f_equal (fun o => match o with Some x => x | None => l end)) in Hl;
      subst l; congruence.
  - intros label value l Hn Hs. unfold fact_value.
    rewrite Hs, partition_after_first by exact Hn. reflexivity.
Qed.

Lemma parse_valfile_is_positional_witness :
  (exists facts,
      parse_valfile parse_iso sample_valfile = Ok facts
      /\ dt_date (var_parm_bordt facts) = mkdate 2024 1 31
      /\ dt_date (material_request_tldt facts) = mkdate 2024 2 2
      /\ bor_tl_no facts = $" 17"
      /\ material_request_tl_no facts = $" 18")
  /\ raises (parse_valfile parse_iso (firstn 9 sample_valfile))
  /\ raises (parse_valfile parse_iso (($"VarParmDate: NULL" ++ newline) :: tl sample_valfile)).
Proof.
  destruct (parse_valfile_is_positional parse_iso (firstn 9 sample_valfile)) as (_ & H1 & _).
  destruct (parse_valfile_is_positional parse_iso
              (($"VarParmDate: NULL" ++ newline) :: tl sample_valfile)) as (_ & _ & H2 & _).
  split; [| split].
  - eexists. split; [vm_compute; reflexivity |]. repeat split.
  - apply H1. simpl. lia.
  - apply (H2 0%nat ($"VarParmDate: NULL" ++ newline));
      [left; reflexivity | reflexivity | exists ValueError; vm_compute; reflexivity].
Defined.

(** ** The confirmation gate *)

(** The confirmation loop stops at the first answer that reads as ["y"] or
    ["n"]. *)
Lemma ask_confirmation_ok (stdin : list str) (val_confirmation : str) (remaining : list str) :
  ask_confirmation stdin = Ok (val_confirmation, remaining) ->
  exists skipped answer,
    stdin = skipped ++ answer :: remaining
    /\ Forall (fun l => normal l <> $"y" /\ normal l <> $"n") skipped
    /\ normal answer = val_confirmation
    /\ (val_confirmation = $"y" \/ val_confirmation = $"n").
Proof.
  induction stdin as [|l rest IH]; [discriminate |].
  cbn [ask_confirmation]. fold (normal l).
  destruct (bool_decide (normal l = $"y")) eqn:Ey;
    [| destruct (bool_decide (normal l = $"n")) eqn:En]; simpl.
  - intros H. apply Ok_inj in H. injection H as <- <-.
    apply bool_decide_eq_true in Ey.
    exists [], l. repeat split; [constructor | now left].
  - intros H. apply Ok_inj in H. injection H as <- <-.
    apply bool_decide_eq_true in En.
    exists [], l. repeat split; [constructor | now right].
  - intros H. apply IH in H as (skipped & answer & -> & Hs & Ha & Hv).
    apply bool_decide_eq_false in Ey, En.
    exists (l :: skipped), answer. repeat split; try assumption.
    constructor; [split; assumption | assumption].
Qed.

Section Gate.

Variable parse : str -> result datetime.
Variable bor_tbl : str.

(** After the facts are parsed, the decision is computed from the flag and
    the answers alone. *)
Lemma val_parameters_decision (self_is_monthly : option str) (today : date)
    (val_lines stdin : list str) :
  returns (parse_valfile parse val_lines) ->
  decision_of (val_parameters parse bor_tbl self_is_monthly today val_lines stdin)
  = (asked <- match self_is_monthly with
              | Some (c :: s) => Ok stdin
              | _ => a <- input stdin ;; Ok (snd a)
              end ;;
     answer <- ask_confirmation asked ;;
     Ok (bool_decide (fst answer = $"y"))).
Proof.
  intros [facts Hf]. unfold decision_of, val_parameters. rewrite Hf. simpl.
  destruct self_is_monthly as [[|c s]|]; simpl.
  - destruct (input stdin) as [[a rest]|]; simpl; [| reflexivity].
    destruct (ask_confirmation rest); reflexivity.
  - destruct (ask_confirmation stdin); reflexivity.
  - destruct (input stdin) as [[a rest]|]; simpl; [| reflexivity].
    destruct (ask_confirmation rest); reflexivity.
Qed.

End Gate.

(** C9. [val_parameters] returns [True] exactly when the answer that ends
    the confirmation loop reads, stripped and lowered, as ["y"]; and two
    runs on the same flag and the same answers return the same decision
    whatever facts were parsed and whatever the day, so the outcome of the
    three checks has no part in it. *)
Theorem val_parameters_returns_the_answer (parse : str -> result datetime) (bor_tbl : str)
    (self_is_monthly : option str) (stdin : list str) :
  (forall today val_lines report val_confirmation,
      val_parameters parse bor_tbl self_is_monthly today val_lines stdin
      = Ok (report, val_confirmation) ->
      exists skipped answer remaining,
        confirmation_input self_is_monthly stdin = skipped ++ answer :: remaining
        /\ Forall (fun l => normal l <> $"y" /\ normal l <> $"n") skipped
        /\ (normal answer = $"y" \/ normal answer = $"n")
        /\ (val_confirmation = true <-> normal answer = $"y"))
  /\ (forall today today' val_lines val_lines',
         returns (parse_valfile parse val_lines) ->
         returns (parse_valfile parse val_lines') ->
         decision_of (val_parameters parse bor_tbl self_is_monthly today val_lines stdin)
         = decision_of (val_parameters parse bor_tbl self_is_monthly today' val_lines' stdin)).
Proof.
  split.
  - intros today val_lines report val_confirmation H.
    assert (returns (parse_valfile parse val_lines)) as Hr.
    { unfold val_parameters in H. destruct (parse_valfile parse val_lines);
        [eexists; reflexivity | discriminate]. }
    pose proof (val_parameters_decision parse bor_tbl self_is_monthly today
                  val_lines stdin Hr) as Hd.
    rewrite H in Hd. simpl in Hd. symmetry in Hd.
    apply bind_ok in Hd as (asked & Ha & Hd).
    apply bind_ok in Hd as ([v remaining] & Hc & Hd).
    apply Ok_inj in Hd. simpl in Hd.
    assert (asked = confirmation_input self_is_monthly stdin) as ->.
    { unfold confirmation_input. destruct self_is_monthly as [[|c s]|].
      - destruct stdin; [discriminate |]. simpl in Ha. now apply Ok_inj in Ha.
      - now apply Ok_inj in Ha.
      - destruct stdin; [discriminate |]. simpl in Ha. now apply Ok_inj in Ha. }
    apply ask_confirmation_ok in Hc as (skipped & answer & Hs & Hall & Hn & Hv).
    exists skipped, answer, remaining. rewrite Hn.
    split; [exact Hs |]. split; [exact Hall |]. split; [exact Hv |].
    rewrite <- Hd. apply bool_decide_eq_true.
  - intros today today' val_lines val_lines' Hr Hr'.
    rewrite !val_parameters_decision by assumption. reflexivity.
Qed.

Lemma val_parameters_returns_the_answer_witness :
  decision_of (val_parameters parse_iso ($"bor_mo_rpt") None (mkdate 2024 2 15)
                 sample_valfile [$"n"; $"maybe"; $" Y " ++ newline])
  = Ok true
  /\ decision_of (val_parameters parse_iso ($"bor_mo_rpt") None (mkdate 2024 2 15)
                    sample_valfile [$"n"; $"maybe"; $" Y " ++ newline])
     = decision_of (val_parameters parse_iso ($"bor_mo_rpt") None (mkdate 2023 12 7)
                      other_valfile [$"n"; $"maybe"; $" Y " ++ newline]).
Proof.
  destruct (val_parameters_returns_the_answer parse_iso ($"bor_mo_rpt") None
              [$"n"; $"maybe"; $" Y " ++ newline]) as [_ H].
  split; [vm_compute; reflexivity |].
  apply H; eexists; vm_compute; reflexivity.
Defined.

(** ** More on parse_line *)

Lemma int_raises (s : str) (e : exn) : Py.int s = Raise e -> e = ValueError.
Proof.
  unfold Py.int.
  destruct (match Py.strip s with
            | [] => (false, Py.strip s)
            | c :: r => _
            end) as [neg body].
  destruct (Py.digits_value body); congruence.
Qed.

Lemma fmv_X0A_raises (mv_raw : str) (e : exn) : fmv_X0A mv_raw = Raise e -> e = ValueError.
Proof.
  unfold fmv_X0A. destruct (Py.isdigit _); [| discriminate].
  destruct (Py.int _) eqn:E; simpl; [discriminate |].
  intros [= <-]. eapply int_raises, E.
Qed.

Lemma fmv_B1N_raises (mv_raw : str) (e : exn) : fmv_B1N mv_raw = Raise e -> e = ValueError.
Proof.
  unfold fmv_B1N. destruct (Py.isdigit _); [| discriminate].
  destruct (Py.int _) eqn:E; simpl; [discriminate |].
  intros [= <-]. eapply int_raises, E.
Qed.

(** X1. [parse_line] raises [ValueError] for every format key outside the
    table, whatever the line; and [ValueError] is the only exception it
    raises for any line and key: no [KeyError] for a field, no [IndexError]
    for a short line. *)
Theorem parse_line_raises_only_ValueError :
  (forall line format_key,
      format_key <> "X0A"%string -> format_key <> "B1N"%string ->
      parse_line line format_key = Raise ValueError)
  /\ (forall line format_key e, parse_line line format_key = Raise e -> e = ValueError).
Proof.
  split; [exact parse_line_unknown_format |].
  intros line format_key e H.
  destruct (String.eqb_spec format_key "X0A") as [-> | Hx].
  { rewrite parse_line_X0A in H.
    destruct (fmv_X0A (mv_of_X0A line)) eqn:E; [discriminate |].
    simpl in H. injection H as <-. eapply fmv_X0A_raises, E. }
  destruct (String.eqb_spec format_key "B1N") as [-> | Hb].
  { rewrite parse_line_B1N in H.
    destruct (fmv_B1N (mv_of_B1N line)) eqn:E; [discriminate |].
    simpl in H. injection H as <-. eapply fmv_B1N_raises, E. }
  rewrite parse_line_unknown_format in H by assumption. congruence.
Qed.

Lemma slice_length_min (s : str) (start stop : nat) :
  List.length (Py.slice s start stop)
  = Nat.min (stop - start) (List.length s - start).
Proof. unfold Py.slice. now rewrite length_firstn, length_skipn. Qed.

Lemma X0A_LAYOUT_no_amount_keys :
  X0A_LAYOUT !! "fmv"%string = None /\ X0A_LAYOUT !! "smv"%string = None.
Proof. split; reflexivity. Qed.

Lemma B1N_LAYOUT_no_amount_keys :
  B1N_LAYOUT !! "fmv"%string = None /\ B1N_LAYOUT !! "smv"%string = None.
Proof. split; reflexivity. Qed.

(** X2. The record [parse_line] returns holds, under each field name of the
    layout, the columns of the line the layout gives for it, cut where the
    line ends; under ["fmv"] a number that is not negative; and no name
    besides these and, in the detail layout, ["smv"]. *)
Theorem parse_line_fields (line : str) (format_key : string)
    (layout : gmap string field_spec) (parsed_data : gmap string pyval) :
  LINE_FORMATS !! format_key = Some layout ->
  parse_line line format_key = Ok parsed_data ->
  (forall k spec, layout !! k = Some spec ->
                  parsed_data !! k = Some (PStr (extract line spec)))
  /\ (exists fmv, parsed_data !! "fmv"%string = Some (PInt fmv) /\ 0 <= fmv)
  /\ (forall k, is_Some (parsed_data !! k) ->
                is_Some (layout !! k) \/ k = "fmv"%string
                \/ (k = "smv"%string /\ format_key = "X0A"%string))
  /\ (forall start stop,
         List.length (extract line (Single start stop))
         = Nat.min (stop - start) (List.length line - start)).
Proof.
  intros Hk Hp.
  split; [| split; [eapply parse_line_fmv_nonneg, Hp | split]].
  3: { intros. apply slice_length_min. }
  all: assert (is_Some (LINE_FORMATS !! format_key)) as Hs by eauto;
    apply LINE_FORMATS_keys in Hs as [-> | ->].
  - rewrite LINE_FORMATS_X0A in Hk. apply (inj Some) in Hk. subst layout.
    rewrite parse_line_X0A in Hp. apply bind_ok in Hp as (fmv & _ & Hp).
    apply Ok_inj in Hp. subst parsed_data. intros k spec H.
    destruct X0A_LAYOUT_no_amount_keys as [Hf Hs].
    rewrite !lookup_insert_ne by congruence. now rewrite !lookup_fmap, H.
  - rewrite LINE_FORMATS_B1N in Hk. apply (inj Some) in Hk. subst layout.
    rewrite parse_line_B1N in Hp. apply bind_ok in Hp as (fmv & _ & Hp).
    apply Ok_inj in Hp. subst parsed_data. intros k spec H.
    destruct B1N_LAYOUT_no_amount_keys as [Hf Hs].
    rewrite !lookup_insert_ne by congruence. now rewrite !lookup_fmap, H.
  - rewrite LINE_FORMATS_X0A in Hk. apply (inj Some) in Hk. subst layout.
    rewrite parse_line_X0A in Hp. apply bind_ok in Hp as (fmv & _ & Hp).
    apply Ok_inj in Hp. subst parsed_data. intros k H.
    destruct (decide (k = "smv"%string)) as [-> | Hns]; [right; right; now split |].
    destruct (decide (k = "fmv"%string)) as [-> | Hnf]; [right; now left |].
    left. rewrite !lookup_insert_ne in H by congruence.
    rewrite !lookup_fmap in H. destruct (X0A_LAYOUT !! k); [eauto |].
    simpl in H. now destruct H.
  - rewrite LINE_FORMATS_B1N in Hk. apply (inj Some) in Hk. subst layout.
    rewrite parse_line_B1N in Hp. apply bind_ok in Hp as (fmv & _ & Hp).
    apply Ok_inj in Hp. subst parsed_data. intros k H.
    destruct (decide (k = "fmv"%string)) as [-> | Hnf]; [right; now left |].
    left. rewrite !lookup_insert_ne in H by congruence.
    rewrite !lookup_fmap in H. destruct (B1N_LAYOUT !! k); [eauto |].
    simpl in H. now destruct H.
Qed.

Lemma parse_line_fields_witness :
  exists parsed_data,
    parse_line line_detail "X0A" = Ok parsed_data
    /\ parsed_data !! "di"%string = Some (PStr ($"X0A"))
    /\ parsed_data !! "mv"%string = Some (PStr ($"    -12345"))
    /\ parsed_data !! "fmv"%string = Some (PInt 12345).
Proof.
  destruct (parse_line line_detail "X0A") as [pd|] eqn:E;
    [| vm_compute in E; discriminate E].
  destruct (parse_line_fields line_detail "X0A" X0A_LAYOUT pd LINE_FORMATS_X0A E)
    as (H1 & _).
  exists pd. split; [reflexivity |].
  split; [apply (H1 "di"%string (Single 6 9)); reflexivity |].
  split; [apply (H1 "mv"%string (Joined [(134, 142); (143, 145)]%nat)); reflexivity |].
  apply Ok_inj in E. subst pd. vm_compute. reflexivity.
Defined.

(** ** More on stripping *)

Lemma lstrip_by_split (p : ascii -> bool) (s : str) :
  exists pre, s = pre ++ Py.lstrip_by p s /\ Forall (fun c => p c = true) pre.
Proof.
  induction s as [|c s (pre & Hs & Hp)]; [exists []; split; [reflexivity | constructor] |].
  simpl. destruct (p c) eqn:E.
  - exists (c :: pre). split; [simpl; congruence | now constructor].
  - exists []. split; [reflexivity | constructor].
Qed.

Lemma lstrip_by_stops (p : ascii -> bool) (s : str) (c : ascii) (t : str) :
  Py.lstrip_by p s = c :: t -> p c = false.
Proof.
  induction s as [|x s IH]; [discriminate |]. simpl.
  destruct (p x) eqn:E; [exact IH |]. intros [= <- _]. exact E.
Qed.

Lemma lstrip_by_idem (p : ascii -> bool) (s : str) :
  Py.lstrip_by p (Py.lstrip_by p s) = Py.lstrip_by p s.
Proof.
  destruct (Py.lstrip_by p s) as [|c t] eqn:E; [reflexivity |].
  apply lstrip_by_head. eapply lstrip_by_stops, E.
Qed.

Lemma lstrip_by_app_all (p : ascii -> bool) (pre t : str) :
  Forall (fun c => p c = true) pre -> Py.lstrip_by p (pre ++ t) = Py.lstrip_by p t.
Proof. induction 1 as [|c pre Hc _ IH]; [reflexivity |]. simpl. now rewrite Hc. Qed.

Lemma lstrip_by_snoc (p : ascii -> bool) (u : str) (c : ascii) :
  p c = false -> Py.lstrip_by p (u ++ [c]) = Py.lstrip_by p u ++ [c].
Proof.
  intros Hc. induction u as [|x u IH]; simpl; [now rewrite Hc |].
  destruct (p x); [exact IH | reflexivity].
Qed.

Lemma rstrip_by_cons (p : ascii -> bool) (c : ascii) (t : str) :
  p c = false -> Py.rstrip_by p (c :: t) = c :: Py.rstrip_by p t.
Proof.
  intros Hc. unfold Py.rstrip_by. simpl rev.
  rewrite lstrip_by_snoc by exact Hc. rewrite rev_app_distr. reflexivity.
Qed.

Lemma rstrip_by_split (p : ascii -> bool) (s : str) :
  exists post, s = Py.rstrip_by p s ++ post /\ Forall (fun c => p c = true) post.
Proof.
  unfold Py.rstrip_by. destruct (lstrip_by_split p (rev s)) as (pre & Hs & Hp).
  exists (rev pre). split; [| now apply List.Forall_rev].
  rewrite <- rev_app_distr, <- Hs. symmetry. apply rev_involutive.
Qed.

Lemma rstrip_by_idem (p : ascii -> bool) (s : str) :
  Py.rstrip_by p (Py.rstrip_by p s) = Py.rstrip_by p s.
Proof. unfold Py.rstrip_by. now rewrite rev_involutive, lstrip_by_idem. Qed.

(** Stripping twice is stripping once. *)
Lemma strip_by_idem (p : ascii -> bool) (s : str) :
  Py.strip_by p (Py.strip_by p s) = Py.strip_by p s.
Proof.
  unfold Py.strip_by.
  destruct (Py.lstrip_by p s) as [|c t] eqn:E; [reflexivity |].
  pose proof (lstrip_by_stops p s c t E) as Hc.
  rewrite rstrip_by_cons by exact Hc.
  rewrite lstrip_by_head by exact Hc.
  rewrite rstrip_by_cons by exact Hc. now rewrite rstrip_by_idem.
Qed.

(** A stripped string is what is left between two runs of stripped
    characters. *)
Lemma strip_by_split (p : ascii -> bool) (s : str) :
  exists pre post,
    s = pre ++ Py.strip_by p s ++ post
    /\ Forall (fun c => p c = true) pre /\ Forall (fun c => p c = true) post.
Proof.
  unfold Py.strip_by.
  destruct (lstrip_by_split p s) as (pre & Hs & Hp).
  destruct (rstrip_by_split p (Py.lstrip_by p s)) as (post & Ht & Hq).
  exists pre, post. split; [| split; assumption].
  rewrite <- Ht. exact Hs.
Qed.

Lemma Forall_lstrip_by (P : ascii -> Prop) (p : ascii -> bool) (s : str) :
  Forall P s -> Forall P (Py.lstrip_by p s).
Proof.
  intros H. destruct (lstrip_by_split p s) as (pre & Hs & _).
  rewrite Hs in H. now apply Forall_app in H as [_ H].
Qed.

Lemma Forall_strip_by (P : ascii -> Prop) (p : ascii -> bool) (s : str) :
  Forall P s -> Forall P (Py.strip_by p s).
Proof.
  intros H. destruct (strip_by_split p s) as (pre & post & Hs & _).
  rewrite Hs in H. apply Forall_app in H as [_ H]. now apply Forall_app in H as [H _].
Qed.

(** ** Digits of seven-bit text *)

Lemma ascii_digit_is_decimal (c : ascii) :
  (Py.ord c < 128)%N -> Py.is_digit c = true -> Py.is_decimal c = true.
Proof.
  unfold Py.is_digit. intros Hc H.
  destruct (Py.is_decimal c); [reflexivity |]. simpl in H.
  apply orb_true_iff in H as [H | H]; [apply orb_true_iff in H as [H | H] |];
    apply N.eqb_eq in H; lia.
Qed.

Lemma uint_of_char_decimal (c : ascii) (d : Decimal.uint) :
  Py.is_decimal c = true -> exists d', uint_of_char c (Some d) = Some d'.
Proof.
  intros H. destruct c as [[] [] [] [] [] [] [] []]; try discriminate H;
    eexists; reflexivity.
Qed.

Lemma uint_of_string_decimal (s : str) :
  Forall (fun c => Py.is_decimal c = true) s ->
  exists d, NilEmpty.uint_of_string (string_of_list_ascii s) = Some d.
Proof.
  induction 1 as [|c s Hc _ [d IH]]; [eexists; reflexivity |].
  simpl. rewrite IH. now apply uint_of_char_decimal.
Qed.

(** Every non-empty run of decimal digits has a value. *)
Lemma decimal_digits_value (s : str) :
  s <> [] -> Forall (fun c => Py.is_decimal c = true) s ->
  exists v, Py.digits_value s = Some v.
Proof.
  intros Hs H. unfold Py.digits_value, NilZero.uint_of_string.
  destruct s as [|c s]; [congruence |].
  destruct (uint_of_string_decimal (c :: s) H) as [d Hd].
  change (string_of_list_ascii (c :: s)) with (String c (string_of_list_ascii s)) in *.
  rewrite Hd. eexists. reflexivity.
Qed.

Lemma isdigit_inv (s : str) :
  Py.isdigit s = true -> s <> [] /\ Forall (fun c => Py.is_digit c = true) s.
Proof.
  unfold Py.isdigit. destruct s as [|c s]; [discriminate |].
  intros H. split; [discriminate |].
  apply List.Forall_forall. now apply forallb_forall.
Qed.

Lemma ascii_isdigit_value (s : str) :
  Forall (fun c => (Py.ord c < 128)%N) s -> Py.isdigit s = true ->
  exists v, Py.digits_value s = Some v.
Proof.
  intros Ha H. apply isdigit_inv in H as [Hne Hd].
  apply decimal_digits_value; [exact Hne |].
  apply List.Forall_forall. intros c Hc.
  rewrite List.Forall_forall in Ha, Hd.
  apply ascii_digit_is_decimal; auto.
Qed.

Lemma digits_value_no_minus (r : str) : Py.digits_value ("-"%char :: r) = None.
Proof.
  destruct (Py.digits_value ("-"%char :: r)) as [v|] eqn:E; [| reflexivity].
  apply digits_value_decimal in E as [_ H]. inversion H as [|? ? Hc _]. discriminate Hc.
Qed.

Lemma in_minus (c : ascii) : Py.char_in ($"-") c = true -> c = "-"%char.
Proof. rewrite minus_is_minus. apply Ascii.eqb_eq. Qed.

Lemma minus_run (pre : str) :
  Forall (fun c => Py.char_in ($"-") c = true) pre ->
  pre = [] \/ pre = ["-"%char] \/ exists pre', pre = "-"%char :: "-"%char :: pre'.
Proof.
  intros H. destruct H as [|c pre Hc H]; [now left |]. right.
  apply in_minus in Hc as ->.
  destruct H as [|c' pre' Hc' H]; [now left |]. right.
  apply in_minus in Hc' as ->. eauto.
Qed.

(** ** The two templates *)

Lemma parsed_B1N_lookup (line : str) (fmv : Z) (k : string) (spec : field_spec) :
  B1N_LAYOUT !! k = Some spec ->
  k <> "fmv"%string ->
  (<["fmv"%string := PInt fmv]> (PStr <$> (extract line <$> B1N_LAYOUT))) !! k
  = Some (PStr (extract line spec)).
Proof.
  intros H Hf. rewrite lookup_insert_ne by congruence.
  rewrite !lookup_fmap, H. reflexivity.
Qed.

Ltac X0A_field k spec H :=
  rewrite !(parsed_X0A_lookup _ _ k spec) in H by (reflexivity || discriminate).

Ltac B1N_field k spec H :=
  rewrite !(parsed_B1N_lookup _ _ k spec) in H by (reflexivity || discriminate).

(** The detail template on the record of a line. *)
Lemma format_X0A_parsed (line : str) (fmv : Z) :
  format_X0A (<["smv"%string := PStr (smv_of fmv)]>
                (<["fmv"%string := PInt fmv]> (PStr <$> (extract line <$> X0A_LAYOUT))))
  = Ok (X0A_output line fmv).
Proof.
  match goal with |- ?lhs = _ => destruct lhs as [fl|e] eqn:Hf end.
  all: unfold format_X0A, arg, arg_get, getitem, get_default in Hf;
    rewrite lookup_insert_eq in Hf;
    X0A_field "fsc"%string (Single 24 28) Hf;
    X0A_field "niin"%string (Joined [(30, 32); (33, 36); (37, 41)]%nat) Hf;
    X0A_field "di"%string (Single 6 9) Hf;
    X0A_field "ri"%string (Single 12 15) Hf;
    X0A_field "ms"%string (Single 18 19) Hf;
    X0A_field "rmks"%string (Single 148 163) Hf;
    X0A_field "ui"%string (Single 44 46) Hf;
    X0A_field "qty"%string (Single 50 55) Hf;
    X0A_field "doc_no"%string (Single 57 71) Hf;
    X0A_field "tec"%string (Single 73 77) Hf;
    X0A_field "sig"%string (Single 86 87) Hf;
    X0A_field "fc"%string (Single 91 93) Hf;
    X0A_field "cog"%string (Single 96 98) Hf;
    X0A_field "prj"%string (Single 101 104) Hf;
    X0A_field "pri"%string (Single 107 109) Hf;
    X0A_field "adv"%string (Single 113 115) Hf;
    X0A_field "tn"%string (Single 118 121) Hf;
    X0A_field "fy"%string (Single 127 128) Hf;
    cbv beta iota delta [bind format_arg as_str] in Hf.
  2: discriminate Hf.
  apply Ok_inj in Hf. subst fl. f_equal.
  unfold X0A_output, extract. cbn [map concat]. cbv zeta.
  rewrite app_nil_r, <- !app_assoc.
  destruct (bool_decide _); rewrite <- ?app_assoc; reflexivity.
Qed.

Lemma slice_slice_prefix (s : str) (start stop n : nat) :
  (start + n <= stop)%nat ->
  Py.slice (Py.slice s start stop) 0 n = Py.slice s start (start + n).
Proof.
  intros H. unfold Py.slice. rewrite skipn_O, firstn_firstn.
  f_equal. lia.
Qed.

Lemma index_slice (s : str) (start stop i : nat) :
  (start + i < stop)%nat -> (start + i < List.length s)%nat ->
  Py.index (Py.slice s start stop) i = Ok (Py.slice s (start + i) (start + i + 1)).
Proof.
  intros H Hl. unfold Py.index, Py.slice.
  rewrite nth_error_firstn.
  destruct (Nat.ltb_spec i (stop - start)) as [_|]; [| lia].
  rewrite nth_error_skipn.
  destruct (nth_error s (start + i)) as [c|] eqn:E.
  - f_equal. replace (start + i + 1 - (start + i))%nat with 1%nat by lia.
    apply nth_error_split in E as (l1 & l2 & -> & Hlen).
    rewrite skipn_app, skipn_all2 by lia.
    replace (start + i - List.length l1)%nat with 0%nat by lia. reflexivity.
  - apply nth_error_None in E. lia.
Qed.

Lemma index_slice_short (s : str) (start stop i : nat) :
  (List.length s <= start + i)%nat ->
  Py.index (Py.slice s start stop) i = Raise IndexError.
Proof.
  intros H. unfold Py.index, Py.slice.
  destruct (nth_error (firstn (stop - start) (skipn start s)) i) eqn:E; [| reflexivity].
  assert (i < List.length (firstn (stop - start) (skipn start s)))%nat as Hi
    by (apply nth_error_Some; congruence).
  rewrite length_firstn, length_skipn in Hi. lia.
Qed.

(** The transaction template on the record of a line: it needs the
    character of column 8. *)
Lemma format_B1N_parsed (line : str) (fmv : Z) :
  format_B1N (<["fmv"%string := PInt fmv]> (PStr <$> (extract line <$> B1N_LAYOUT)))
  = if (9 <=? List.length line)%nat then Ok (B1N_output line) else Raise IndexError.
Proof.
  match goal with |- ?lhs = _ => destruct lhs as [fl|e] eqn:Hf end.
  all: unfold format_B1N, arg, getitem in Hf;
    B1N_field "di"%string (Single 6 9) Hf;
    B1N_field "doc_no"%string (Single 12 26) Hf;
    B1N_field "acrn"%string (Single 32 34) Hf;
    B1N_field "jon"%string (Single 38 49) Hf;
    B1N_field "exp"%string (Single 54 55) Hf;
    B1N_field "mv"%string (Single 72 83) Hf;
    B1N_field "gl"%string (Single 89 92) Hf;
    B1N_field "cr_db"%string (Single 98 99) Hf;
    B1N_field "fy"%string (Single 103 104) Hf;
    B1N_field "qty"%string (Single 110 115) Hf;
    B1N_field "cog"%string (Single 126 128) Hf;
    B1N_field "niin"%string (Single 135 144) Hf;
    B1N_field "tn"%string (Single 121 124) Hf;
    B1N_field "fsc"%string (Single 130 134) Hf;
    B1N_field "ui"%string (Single 117 119) Hf;
    B1N_field "occ"%string (Single 62 65) Hf;
    cbv beta iota delta [bind format_arg as_str extract] in Hf;
    rewrite (slice_slice_prefix line 6 9 2) in Hf by lia;
    destruct (Nat.leb_spec 9 (List.length line)) as [Hlen | Hlen].
  - rewrite (index_slice line 6 9 2) in Hf by lia.
    cbv beta iota delta [bind] in Hf. rewrite <- Hf. reflexivity.
  - rewrite (index_slice_short line 6 9 2) in Hf by lia. discriminate Hf.
  - rewrite (index_slice line 6 9 2) in Hf by lia. discriminate Hf.
  - rewrite (index_slice_short line 6 9 2) in Hf by lia.
    cbv beta iota delta [bind] in Hf. congruence.
Qed.

Lemma transform_X0A_eq (line : str) :
  transform_X0A line
  = (fmv <- fmv_X0A (mv_of_X0A line) ;; Ok (X0A_output line fmv, fmv)).
Proof.
  unfold transform_X0A. rewrite parse_line_X0A.
  destruct (fmv_X0A (mv_of_X0A line)) as [fmv|]; [| reflexivity].
  cbn [bind]. rewrite format_X0A_parsed. cbn [bind].
  rewrite (fmv_of_lookup _ fmv); [reflexivity |].
  rewrite lookup_insert_ne by discriminate. apply lookup_insert_eq.
Qed.

Lemma transform_B1N_eq (line : str) :
  transform_B1N line
  = (fmv <- fmv_B1N (mv_of_B1N line) ;;
     if (9 <=? List.length line)%nat then Ok (B1N_output line, fmv)
     else Raise IndexError).
Proof.
  unfold transform_B1N. rewrite parse_line_B1N.
  destruct (fmv_B1N (mv_of_B1N line)) as [fmv|]; [| reflexivity].
  cbn [bind]. rewrite format_B1N_parsed.
  destruct (9 <=? List.length line)%nat; [| reflexivity].
  cbn [bind]. rewrite (fmv_of_lookup _ fmv); [reflexivity | apply lookup_insert_eq].
Qed.

(** ** Reading back what was rendered *)

Lemma digits_value_zeros (k : nat) (s : str) :
  s <> [] -> Py.digits_value (Py.zeros k ++ s) = Py.digits_value s.
Proof.
  intros Hs. induction k as [|k IH]; [reflexivity |].
  change (Py.zeros (S k) ++ s) with ("0"%char :: (Py.zeros k ++ s)).
  rewrite digits_value_zero_head; [exact IH |].
  destruct (Py.zeros k); [exact Hs | discriminate].
Qed.

Lemma digits_value_str_of_int (n : Z) :
  0 <= n -> Py.digits_value (Py.str_of_int n) = Some n.
Proof.
  intros Hn. unfold Py.digits_value, Py.str_of_int.
  destruct (str_of_int_nonneg_head n Hn) as (c & r & Hs & _). unfold Py.str_of_int in Hs.
  rewrite Hs, <- Hs, string_of_list_ascii_of_string.
  pose proof (DecimalZ.of_to n) as Hr.
  destruct (Z.to_int n) as [u|u] eqn:Eu.
  - simpl NilZero.string_of_int.
    assert (u <> Decimal.Nil) as Hnil.
    { destruct n as [|p|p]; simpl in Eu; [| | discriminate Eu].
      - injection Eu as <-. discriminate.
      - injection Eu as <-. apply DecimalPos.Unsigned.to_uint_nonnil. }
    rewrite (NilZero.usu u Hnil). simpl. f_equal. exact Hr.
  - destruct n; simpl in Eu; try discriminate. lia.
Qed.

Lemma int_zfill_str_of_int (width : nat) (n : Z) :
  0 <= n -> Py.int (Py.zfill width (Py.str_of_int n)) = Ok n.
Proof.
  intros Hn. rewrite zfill_nonneg by exact Hn.
  apply int_digits. rewrite digits_value_zeros.
  - now apply digits_value_str_of_int.
  - destruct (str_of_int_nonneg_head n Hn) as (c & r & -> & _). discriminate.
Qed.

(** X7. Rendering and reading are inverse: [int(str(n))] is [n] for every
    integer, and for a magnitude that is not negative the zero-padded
    encoding of any width, the ten-digit [smv] among them, reads back as the
    magnitude. *)
Theorem int_of_rendered_amount :
  (forall n, Py.int (Py.str_of_int n) = Ok n)
  /\ (forall width n, 0 <= n -> Py.int (Py.zfill width (Py.str_of_int n)) = Ok n)
  /\ (forall fmv, 0 <= fmv -> Py.int (smv_of fmv) = Ok fmv).
Proof.
  split; [| split; [exact int_zfill_str_of_int | intros; now apply int_zfill_str_of_int]].
  intros n. destruct (Z.le_gt_cases 0 n) as [Hn | Hn].
  - apply int_digits. now apply digits_value_str_of_int.
  - destruct n as [|p|p]; try lia.
    assert (Py.str_of_int (Z.neg p) = "-"%char :: Py.str_of_int (Z.pos p)) as -> by reflexivity.
    rewrite (int_minus_digits _ (Z.pos p)); [reflexivity |].
    apply digits_value_str_of_int. lia.
Qed.

(** ** The detail branch *)

Lemma X0A_output_length (line : str) (fmv : Z) :
  List.length line = 182%nat ->
  List.length (smv_of fmv) = 10%nat ->
  List.length (X0A_output line fmv) = 81%nat
  /\ skipn 70 (X0A_output line fmv) = smv_of fmv ++ newline.
Proof.
  intros Hlen Hs. unfold X0A_output.
  set (tail := smv_of fmv ++ newline).
  assert (forall a b c d e f g h i j k l m n o p q r s : str,
             a ++ b ++ c ++ d ++ e ++ f ++ g ++ h ++ i ++ j ++ k ++ l ++ m ++ n ++ o ++ p
               ++ q ++ r ++ s ++ tail
             = (a ++ b ++ c ++ d ++ e ++ f ++ g ++ h ++ i ++ j ++ k ++ l ++ m ++ n ++ o ++ p
                  ++ q ++ r ++ s) ++ tail) as Hassoc.
  { intros. now rewrite <- !app_assoc. }
  rewrite Hassoc. clear Hassoc.
  match goal with |- context [?pre ++ tail] => set (prefix := pre) end.
  assert (List.length prefix = 70%nat) as Hp.
  { subst prefix. destruct (bool_decide _);
      rewrite !length_app, !slice_length, !spaces_length by lia; reflexivity. }
  split.
  - subst tail. rewrite !length_app, Hp, Hs. reflexivity.
  - rewrite skipn_app, skipn_all2 by lia. rewrite Hp. reflexivity.
Qed.

(** X8. The detail branch of the loop returns exactly when the amount rule
    does, and its only exception is [ValueError]; the line it yields is built
    from fixed columns of the input line, with the remarks in place of a
    blank stock number. For a line of 182 characters the output has 80
    characters and a newline, the last ten of them the zero-padded magnitude
    that is added to the total. *)
Theorem detail_branch_output (line : str) :
  transform_X0A line
  = (fmv <- fmv_X0A (mv_of_X0A line) ;; Ok (X0A_output line fmv, fmv))
  /\ (forall e, transform_X0A line = Raise e -> e = ValueError)
  /\ (forall formatted_line fmv,
         List.length line = 182%nat ->
         transform_X0A line = Ok (formatted_line, fmv) ->
         List.length formatted_line = 81%nat
         /\ skipn 70 formatted_line = smv_of fmv ++ newline
         /\ Py.int (smv_of fmv) = Ok fmv).
Proof.
  pose proof (transform_X0A_eq line) as Heq.
  split; [exact Heq |]. split.
  - intros e H. rewrite Heq in H.
    destruct (fmv_X0A (mv_of_X0A line)) as [fmv|e'] eqn:E; [discriminate |].
    simpl in H. injection H as <-. eapply fmv_X0A_raises, E.
  - intros formatted_line fmv Hlen H. rewrite Heq in H.
    apply bind_ok in H as (fmv' & Hf & H). apply Ok_inj in H.
    injection H as <- <-.
    pose proof (fmv_X0A_nonneg _ _ Hf) as Hn.
    assert (List.length (smv_of fmv') = 10%nat) as Hs.
    { unfold smv_of. apply zfill_nonneg_length; [exact Hn |].
      pose proof (fmv_X0A_str_length _ _ Hf). pose proof (mv_of_X0A_length line). lia. }
    destruct (X0A_output_length line fmv' Hlen Hs) as [H1 H2].
    split; [exact H1 |]. split; [exact H2 |].
    now apply int_zfill_str_of_int.
Qed.

Lemma detail_branch_output_witness :
  transform_X0A line_detail
  = Ok ($"X0A                                                                   0000012345"
        ++ newline, 12345)
  /\ transform_X0A line_double_minus = Raise ValueError.
Proof.
  destruct (detail_branch_output line_detail) as (H1 & _).
  split; [rewrite H1; vm_compute; reflexivity | vm_compute; reflexivity].
Defined.

(** ** The transaction branch *)

Lemma slice_middle (p m x : str) (start stop : nat) :
  List.length p = start -> List.length m = (stop - start)%nat ->
  Py.slice (p ++ m ++ x) start stop = m.
Proof.
  intros Hp Hm. unfold Py.slice.
  rewrite skipn_app, skipn_all2 by lia. rewrite Hp, Nat.sub_diag, skipn_O.
  cbn [app]. rewrite <- Hm, firstn_app, Nat.sub_diag, firstn_all, firstn_O.
  apply app_nil_r.
Qed.

Lemma B1N_output_length (line : str) :
  (144 <= List.length line)%nat ->
  List.length (B1N_output line) = 281%nat
  /\ Py.slice (B1N_output line) 41 52 = Py.slice line 72 83.
Proof.
  intros Hlen. unfold B1N_output. split.
  - rewrite !length_app, !slice_length, !spaces_length by lia. reflexivity.
  - assert (forall a b c d e f g h m r : str,
               a ++ b ++ c ++ d ++ e ++ f ++ g ++ h ++ m ++ r
               = (a ++ b ++ c ++ d ++ e ++ f ++ g ++ h) ++ m ++ r) as Hassoc.
    { intros. now rewrite <- !app_assoc. }
    rewrite Hassoc. apply slice_middle.
    + rewrite !length_app, !slice_length, !spaces_length by lia. reflexivity.
    + rewrite slice_length by lia. reflexivity.
Qed.

(** X9. The transaction branch needs the character of column 8: on a line
    of fewer than nine characters whose amount passes it raises
    [IndexError], on any other line it returns exactly when the amount rule
    does, and otherwise it raises the [ValueError] of that rule. The line it
    yields is built from fixed columns of the input line; for a line of at
    least 144 characters it has 280 characters and a newline and carries
    the amount columns of the input unchanged, sign and zeros included, in
    columns 41 to 51. *)
Theorem transaction_branch_output (line : str) :
  transform_B1N line
  = (fmv <- fmv_B1N (mv_of_B1N line) ;;
     if (9 <=? List.length line)%nat then Ok (B1N_output line, fmv)
     else Raise IndexError)
  /\ (transform_B1N line = Raise IndexError
      <-> returns (fmv_B1N (mv_of_B1N line)) /\ (List.length line < 9)%nat)
  /\ (forall e, transform_B1N line = Raise e -> e = ValueError \/ e = IndexError)
  /\ ((144 <= List.length line)%nat ->
      List.length (B1N_output line) = 281%nat
      /\ Py.slice (B1N_output line) 41 52 = mv_of_B1N line).
Proof.
  pose proof (transform_B1N_eq line) as Heq.
  split; [exact Heq |]. split; [| split].
  - rewrite Heq. destruct (fmv_B1N (mv_of_B1N line)) as [fmv|e] eqn:E; cbn [bind].
    + destruct (Nat.leb_spec 9 (List.length line)) as [Hl | Hl]; split.
      * intros H. discriminate H.
      * intros [_ H']. lia.
      * intros _. split; [eexists; reflexivity | lia].
      * intros _. reflexivity.
    + split.
      * intros H. pose proof (fmv_B1N_raises _ _ E) as He. congruence.
      * intros [[v Hv] _]. discriminate Hv.
  - intros e H. rewrite Heq in H.
    destruct (fmv_B1N (mv_of_B1N line)) as [fmv|e'] eqn:E; cbn [bind] in H.
    + destruct (9 <=? List.length line)%nat; [discriminate H |].
      injection H as <-. now right.
    + injection H as <-. left. eapply fmv_B1N_raises, E.
  - apply B1N_output_length.
Qed.

Lemma transaction_branch_output_witness :
  transform_B1N line_short = Raise IndexError
  /\ List.length (B1N_output line_transaction) = 281%nat
  /\ Py.slice (B1N_output line_transaction) 41 52 = $"-0000000123".
Proof.
  destruct (transaction_branch_output line_short) as (_ & H1 & _).
  destruct (transaction_branch_output line_transaction) as (_ & _ & _ & H2).
  split; [apply H1; split; [eexists; vm_compute; reflexivity | simpl; lia] |].
  destruct H2 as [H3 H4]; [simpl; lia |].
  split; [exact H3 | rewrite H4; reflexivity].
Defined.

(** ** When the amount rules raise *)

Lemma int_double_minus (r : str) :
  Py.strip ("-"%char :: "-"%char :: r) = "-"%char :: "-"%char :: r ->
  Py.int ("-"%char :: "-"%char :: r) = Raise ValueError.
Proof.
  intros Hs.
  assert (Py.int ("-"%char :: "-"%char :: r)
          = match Py.digits_value ("-"%char :: r) with
            | Some v => Ok (- v)
            | None => Raise ValueError
            end) as -> by (unfold Py.int; rewrite Hs; reflexivity).
  now rewrite digits_value_no_minus.
Qed.

(** X10. On seven-bit text the detail rule raises exactly when the stripped
    amount begins with two minus signs and, its leading minus signs set
    aside, is a digit string; on every other amount it returns. *)
Theorem fmv_X0A_raises_iff (mv_raw : str) :
  Forall (fun c => (Py.ord c < 128)%N) mv_raw ->
  raises (fmv_X0A mv_raw)
  <-> exists r, Py.strip mv_raw = "-"%char :: "-"%char :: r
                /\ Py.isdigit (Py.lstrip_chars ($"-") r) = true.
Proof.
  intros Hascii. split.
  - intros [e He]. pose proof He as He0. unfold fmv_X0A in He.
    destruct (Py.isdigit (Py.lstrip_chars ($"-") (Py.strip mv_raw))) eqn:Hg;
      [| discriminate He].
    set (s := Py.strip mv_raw) in *.
    assert (Forall (fun c => (Py.ord c < 128)%N) s) as Hs
      by (apply Forall_strip_by, Hascii).
    destruct (lstrip_by_split (Py.char_in ($"-")) s) as (pre & Hsplit & Hpre).
    fold (Py.lstrip_chars ($"-") s) in Hsplit.
    set (ds := Py.lstrip_chars ($"-") s) in *.
    assert (exists v, Py.digits_value ds = Some v) as [v Hv].
    { apply ascii_isdigit_value; [| exact Hg]. apply Forall_lstrip_by, Hs. }
    destruct (minus_run pre Hpre) as [-> | [-> | [pre' ->]]].
    + assert (fmv_X0A mv_raw = Ok v) as Hok
        by (apply (fmv_X0A_digits mv_raw ds v Hv); left; exact Hsplit).
      congruence.
    + assert (fmv_X0A mv_raw = Ok v) as Hok
        by (apply (fmv_X0A_digits mv_raw ds v Hv); right; exact Hsplit).
      congruence.
    + exists (pre' ++ ds). split; [exact Hsplit |].
      inversion Hpre as [|? ? _ Hpre1]; subst. inversion Hpre1 as [|? ? _ Hpre2]; subst.
      unfold Py.lstrip_chars. rewrite lstrip_by_app_all by exact Hpre2.
      subst ds. unfold Py.lstrip_chars. rewrite lstrip_by_idem. exact Hg.
  - intros (r & Hs & Hg). unfold fmv_X0A. rewrite Hs.
    assert (Py.lstrip_chars ($"-") ("-"%char :: "-"%char :: r) = Py.lstrip_chars ($"-") r)
      as -> by reflexivity.
    rewrite Hg, int_double_minus; [eexists; reflexivity |].
    rewrite <- Hs. apply strip_by_idem.
Qed.

Lemma fmv_X0A_raises_iff_witness :
  raises (fmv_X0A ($"      --50")) /\ returns (fmv_X0A ($"     -1 50")).
Proof.
  split.
  - apply fmv_X0A_raises_iff.
    + repeat constructor.
    + exists ($"50"). split; reflexivity.
  - eexists. vm_compute. reflexivity.
Defined.

Lemma is_digit_not_space (c : ascii) : Py.is_digit c = true -> Py.is_space c = false.
Proof.
  unfold Py.is_digit, Py.is_decimal, Py.is_space. intros H.
  repeat match goal with
  | |- context [(?a <=? ?b)%N] => destruct (N.leb_spec a b)
  | |- context [(?a =? ?b)%N] => destruct (N.eqb_spec a b)
  | H : context [(?a <=? ?b)%N] |- _ => destruct (N.leb_spec a b)
  | H : context [(?a =? ?b)%N] |- _ => destruct (N.eqb_spec a b)
  end; simpl in *; try reflexivity; try discriminate; lia.
Qed.

Lemma in_zero (c : ascii) : Py.char_in ($"0") c = true -> c = "0"%char.
Proof.
  unfold Py.char_in. simpl. rewrite orb_false_r. apply Ascii.eqb_eq.
Qed.

Lemma digits_value_snoc_minus (b : str) : Py.digits_value (b ++ ["-"%char]) = None.
Proof.
  destruct (Py.digits_value (b ++ ["-"%char])) as [v|] eqn:E; [| reflexivity].
  apply digits_value_decimal in E as [_ H].
  apply Forall_app in H as [_ H]. inversion H as [|? ? Hc _]. discriminate Hc.
Qed.

Lemma int_trailing_minus (u : str) :
  Py.strip (u ++ ["-"%char]) = u ++ ["-"%char] ->
  Py.int (u ++ ["-"%char]) = Raise ValueError.
Proof.
  intros Hs. unfold Py.int. rewrite Hs.
  destruct u as [|c u'].
  - reflexivity.
  - change ((c :: u') ++ ["-"%char]) with (c :: (u' ++ ["-"%char])).
    cbv beta iota.
    destruct (Ascii.eqb c "-"); [| destruct (Ascii.eqb c "+")]; cbv beta iota.
    + now rewrite digits_value_snoc_minus.
    + now rewrite digits_value_snoc_minus.
    + change (c :: (u' ++ ["-"%char])) with ((c :: u') ++ ["-"%char]).
      now rewrite digits_value_snoc_minus.
Qed.

(** What the guard of the transaction rule says of the whole substring:
    minus signs, then zeros, then digits, then minus signs. *)
Lemma B1N_guard_shape (mv_raw : str) :
  Py.isdigit (Py.lstrip_chars ($"0") (Py.strip_chars ($"-") mv_raw)) = true ->
  exists pre core post,
    mv_raw = pre ++ core ++ post
    /\ core = Py.strip_chars ($"-") mv_raw
    /\ Forall (fun c => Py.char_in ($"-") c = true) pre
    /\ Forall (fun c => Py.char_in ($"-") c = true) post
    /\ core <> []
    /\ Forall (fun c => Py.is_digit c = true) core.
Proof.
  intros Hg. unfold Py.strip_chars in *.
  destruct (strip_by_split (Py.char_in ($"-")) mv_raw) as (pre & post & Hs & Hpre & Hpost).
  set (core := Py.strip_by (Py.char_in ($"-")) mv_raw) in *.
  exists pre, core, post. repeat split; try assumption.
  - intros Hc. rewrite Hc in Hg. discriminate Hg.
  - apply isdigit_inv in Hg as [_ Hz]. unfold Py.lstrip_chars in Hz.
    destruct (lstrip_by_split (Py.char_in ($"0")) core) as (pz & Hcore & Hpz).
    rewrite Hcore. apply Forall_app. split; [| exact Hz].
    eapply List.Forall_impl; [| exact Hpz].
    intros c Hc. apply in_zero in Hc as ->. reflexivity.
Qed.

(** X11. On seven-bit text the transaction rule raises exactly when its
    guard passes and the substring begins with two minus signs or ends with
    a minus sign; on every other amount it returns. *)
Theorem fmv_B1N_raises_iff (mv_raw : str) :
  Forall (fun c => (Py.ord c < 128)%N) mv_raw ->
  raises (fmv_B1N mv_raw)
  <-> Py.isdigit (Py.lstrip_chars ($"0") (Py.strip_chars ($"-") mv_raw)) = true
      /\ ((exists r, mv_raw = "-"%char :: "-"%char :: r)
          \/ (exists r, mv_raw = r ++ ["-"%char])).
Proof.
  intros Hascii. split.
  - intros [e He].
    destruct (Py.isdigit (Py.lstrip_chars ($"0") (Py.strip_chars ($"-") mv_raw))) eqn:Hg.
    2: { unfold fmv_B1N in He. rewrite Hg in He. discriminate He. }
    split; [reflexivity |].
    destruct (B1N_guard_shape mv_raw Hg) as (pre & core & post & Hs & _ & Hpre & Hpost
                                             & Hne & Hd).
    assert (post = [] -> pre = [] \/ pre = ["-"%char] -> False) as Hreturns.
    { intros -> Hp.
      assert (exists v, Py.digits_value core = Some v) as [v Hv].
      { apply decimal_digits_value; [exact Hne |].
        rewrite Hs in Hascii. apply Forall_app in Hascii as [_ Ha].
        apply Forall_app in Ha as [Ha _].
        apply List.Forall_forall. intros x Hx.
        rewrite List.Forall_forall in Ha, Hd. apply ascii_digit_is_decimal; auto. }
      rewrite app_nil_r in Hs.
      rewrite (fmv_B1N_digits mv_raw core v Hv) in He; [discriminate He |].
      destruct Hp as [-> | ->]; [left | right]; exact Hs. }
    destruct post as [|x post0].
    + destruct (minus_run pre Hpre) as [Hp | [Hp | [pre' ->]]].
      * exfalso. apply Hreturns; [reflexivity | now left].
      * exfalso. apply Hreturns; [reflexivity | now right].
      * left. eexists. rewrite Hs. reflexivity.
    + right. destruct (exists_last (l := x :: post0)) as [post' [c Hc]]; [discriminate |].
      rewrite Hc in Hpost, Hs. apply Forall_app in Hpost as [_ Hl].
      inversion Hl as [|? ? Hm _]; subst. apply in_minus in Hm as ->.
      exists (pre ++ core ++ post'). rewrite <- !app_assoc. reflexivity.
  - intros [Hg Hshape]. unfold fmv_B1N. rewrite Hg.
    destruct (B1N_guard_shape mv_raw Hg) as (pre & core & post & Hs & _ & Hpre & Hpost
                                             & Hne & Hd).
    assert (Forall (fun c => Py.is_space c = false) mv_raw) as Hnosp.
    { rewrite Hs. repeat (apply Forall_app; split).
      - eapply List.Forall_impl; [| exact Hpre]. intros c Hc. now apply in_minus in Hc as ->.
      - eapply List.Forall_impl; [| exact Hd]. apply is_digit_not_space.
      - eapply List.Forall_impl; [| exact Hpost]. intros c Hc. now apply in_minus in Hc as ->. }
    assert (Py.int (Py.lstrip_chars ($"0") mv_raw) = Raise ValueError) as ->;
      [| eexists; reflexivity].
    destruct Hshape as [[r Hr] | [r Hr]].
    + subst mv_raw.
      assert (Py.lstrip_chars ($"0") ("-"%char :: "-"%char :: r) = "-"%char :: "-"%char :: r)
        as -> by reflexivity.
      apply int_double_minus. now apply strip_by_noop.
    + unfold Py.lstrip_chars. rewrite Hr, lstrip_by_snoc by reflexivity.
      apply int_trailing_minus. apply strip_by_noop.
      rewrite <- lstrip_by_snoc by reflexivity.
      apply Forall_lstrip_by. now rewrite <- Hr.
Qed.

Lemma fmv_B1N_raises_iff_witness :
  raises (fmv_B1N ($"0000000050-")) /\ returns (fmv_B1N ($"00000000-50")).
Proof.
  split.
  - apply fmv_B1N_raises_iff.
    + repeat constructor.
    + split; [reflexivity |]. right. exists ($"0000000050"). reflexivity.
  - eexists. vm_compute. reflexivity.
Defined.

(** ** More on create_stars *)

(** X3. [create_stars] completes exactly when every line of the file can be
    transcoded, and then writes the header, the formatted matched lines in
    the order of the file, and the trailer with their count and the sum of
    their magnitudes. *)
Theorem create_stars_frame (now : str) (original_lines : list str) (pid : str)
    (out : list str) :
  create_stars now original_lines pid = Ok out
  <-> Forall (fun l => returns (transcode_line l)) original_lines
      /\ out = header_line now :: map formatted (matched original_lines)
               ++ [trailer_for (List.length (matched original_lines))
                     (sum_in_order (map magnitude (matched original_lines))) pid].
Proof.
  split; [apply create_stars_ok |].
  intros [Hall ->].
  destruct (create_stars_returns now original_lines pid Hall) as [out' Hout].
  rewrite Hout. f_equal. now apply create_stars_ok in Hout as [_ ->].
Qed.

Lemma create_stars_loop_first_failure (pre : list str) (l : str) (post : list str)
    (output_lines : list str) (total : Z) (e : exn) :
  Forall (fun l => returns (transcode_line l)) pre ->
  transcode_line l = Raise e ->
  create_stars_loop (pre ++ l :: post) output_lines total = Raise e.
Proof.
  intros Hpre Hl. revert output_lines total.
  induction Hpre as [|x pre [r Hr] _ IH]; intros output_lines total.
  - simpl app. rewrite create_stars_loop_step, Hl. reflexivity.
  - simpl app. rewrite create_stars_loop_step, Hr. simpl.
    destruct r as [[fl m]|]; apply IH.
Qed.

(** X4. When a line cannot be transcoded and every line before it can,
    [create_stars] ends with the exception of that line, whatever follows
    it: nothing is written. *)
Theorem create_stars_raises_at_first_failure (now : str) (pre : list str) (l : str)
    (post : list str) (pid : str) (e : exn) :
  Forall (fun l => returns (transcode_line l)) pre ->
  transcode_line l = Raise e ->
  create_stars now (pre ++ l :: post) pid = Raise e.
Proof.
  intros Hpre Hl. unfold create_stars.
  now rewrite (create_stars_loop_first_failure pre l post _ _ e Hpre Hl).
Qed.

Lemma create_stars_raises_at_first_failure_witness :
  create_stars ($"20240101120000")
    ([line_detail; line_unknown] ++ line_trailing_minus :: [line_short]) ($"001")
  = Raise ValueError.
Proof.
  apply create_stars_raises_at_first_failure.
  - repeat constructor; eexists; vm_compute; reflexivity.
  - vm_compute. reflexivity.
Defined.

Lemma create_stars_loop_matched (original_lines output_lines : list str) (total : Z) :
  create_stars_loop original_lines output_lines total
  = create_stars_loop (matched original_lines) output_lines total.
Proof.
  revert output_lines total. unfold matched.
  induction original_lines as [|line rest IH]; intros output_lines total; [reflexivity |].
  cbn [List.filter]. destruct (is_matched line) eqn:Em.
  - rewrite !create_stars_loop_step.
    destruct (transcode_line line) as [[[fl m]|]|]; simpl; [apply IH | apply IH | reflexivity].
  - rewrite create_stars_loop_step.
    apply transcode_line_unmatched in Em. rewrite Em. simpl. apply IH.
Qed.

(** X5. The lines that match no known format have no effect at all:
    [create_stars] gives the same result, output or exception, on the file
    and on the file with those lines removed. *)
Theorem create_stars_ignores_unmatched (now : str) (original_lines : list str) (pid : str) :
  create_stars now original_lines pid = create_stars now (matched original_lines) pid.
Proof. unfold create_stars. now rewrite create_stars_loop_matched. Qed.

Lemma matched_app (l1 l2 : list str) : matched (l1 ++ l2) = matched l1 ++ matched l2.
Proof. unfold matched. apply List.filter_app. Qed.

Lemma sum_in_order_app (ms ms' : list Z) :
  sum_in_order (ms ++ ms') = sum_in_order ms + sum_in_order ms'.
Proof.
  induction ms as [|m ms IH]; simpl.
  - unfold sum_in_order at 2. simpl. lia.
  - rewrite !sum_in_order_cons, IH. lia.
Qed.

(** X6. The record loop over two files one after the other is the loop
    over the first followed by the loop over the second from where the
    first ended; the matched lines of the whole are those of the parts, and
    the totals add up. *)
Theorem create_stars_loop_app (l1 l2 output_lines : list str) (total : Z) :
  create_stars_loop (l1 ++ l2) output_lines total
  = (state <- create_stars_loop l1 output_lines total ;;
     create_stars_loop l2 (fst state) (snd state))
  /\ matched (l1 ++ l2) = matched l1 ++ matched l2
  /\ sum_in_order (map magnitude (matched (l1 ++ l2)))
     = sum_in_order (map magnitude (matched l1))
       + sum_in_order (map magnitude (matched l2)).
Proof.
  split; [| split; [apply matched_app |]].
  - revert output_lines total.
    induction l1 as [|line rest IH]; intros output_lines total; [reflexivity |].
    simpl app. rewrite !create_stars_loop_step.
    destruct (transcode_line line) as [[[fl m]|]|]; simpl; [apply IH | apply IH | reflexivity].
  - now rewrite matched_app, map_app, sum_in_order_app.
Qed.

(** ** The total in the trailer *)

(** X20. When [create_stars] completes, the last line it writes is the
    trailer: the tag, the count field, the total field, ["stars"], the pid
    and ["r.txt"]. The count field is the number of matched lines filled
    with zeros to 15 digits; the total field is the sum, taken from left to
    right in file order, of the magnitudes of the matched lines, filled with
    zeros to 19 digits, and read as a number it gives that sum back. On the
    same lines in any other order [create_stars] completes too, with the
    same trailer. *)
Theorem total_is_sum_in_file_order (now : str) (original_lines : list str) (pid : str)
    (out : list str) :
  create_stars now original_lines pid = Ok out ->
  (exists body rec_count total_field,
      out = header_line now :: body
            ++ [$"TRAILERSTARSFL   " ++ rec_count ++ total_field
                ++ $"stars" ++ pid ++ $"r.txt" ++ newline]
      /\ List.length body = List.length (matched original_lines)
      /\ rec_count
         = Py.zfill 15 (Py.str_of_int (Z.of_nat (List.length (matched original_lines))))
      /\ total_field
         = Py.zfill 19
             (Py.str_of_int (sum_in_order (map magnitude (matched original_lines))))
      /\ (19 <= List.length total_field)%nat
      /\ Py.int total_field = Ok (sum_in_order (map magnitude (matched original_lines))))
  /\ (forall reordered,
         Permutation original_lines reordered ->
         exists out',
           create_stars now reordered pid = Ok out'
           /\ List.last out' [] = List.last out []
           /\ sum_in_order (map magnitude (matched reordered))
              = sum_in_order (map magnitude (matched original_lines))).
Proof.
  intros H. apply create_stars_ok in H as [Hall ->].
  pose proof (sum_magnitude_nonneg (matched original_lines)) as Hs. split.
  - eexists _, _, _. split; [reflexivity |].
    split; [apply length_map |]. split; [reflexivity |]. split; [reflexivity |].
    split; [| now apply int_zfill_str_of_int].
    rewrite zfill_nonneg by exact Hs. rewrite length_app, zeros_length. lia.
  - intros reordered Hp.
    assert (Forall (fun l => returns (transcode_line l)) reordered) as Hall'.
    { eapply Permutation_Forall; eassumption. }
    destruct (create_stars_returns now reordered pid Hall') as [out' Hout].
    exists out'. split; [exact Hout |].
    apply create_stars_ok in Hout as [_ ->].
    pose proof (matched_Permutation _ _ Hp) as Hm.
    assert (sum_in_order (map magnitude (matched reordered))
            = sum_in_order (map magnitude (matched original_lines))) as Hsum.
    { apply sum_in_order_Permutation. apply Permutation_map. now symmetry. }
    split; [| exact Hsum].
    rewrite !app_comm_cons, !List.last_last, Hsum.
    now rewrite (Permutation_length Hm).
Qed.

Lemma total_is_sum_in_file_order_witness :
  exists out out',
    create_stars ($"20240101120000") [line_detail; line_unknown; line_transaction] ($"001")
    = Ok out
    /\ create_stars ($"20240101120000") [line_transaction; line_detail; line_unknown] ($"001")
       = Ok out'
    /\ List.last out' [] = List.last out []
    /\ List.last out []
       = $"TRAILERSTARSFL   0000000000000020000000000000012468stars001r.txt" ++ newline
    /\ Py.int (Py.slice (List.last out []) 32 51) = Ok 12468.
Proof.
  destruct (create_stars ($"20240101120000")
              [line_detail; line_unknown; line_transaction] ($"001")) as [out|e] eqn:E;
    [| vm_compute in E; discriminate E].
  destruct (total_is_sum_in_file_order _ _ _ _ E) as [_ H].
  destruct (H [line_transaction; line_detail; line_unknown]) as (out' & H1 & H2 & _).
  { apply Permutation_sym, (Permutation_cons_append [line_detail; line_unknown]). }
  exists out, out'. split; [reflexivity |]. split; [exact H1 |]. split; [exact H2 |].
  vm_compute in E. apply Ok_inj in E. subst out.
  split; vm_compute; reflexivity.
Defined.

(** ** The two month ends *)

Lemma monthrange_bounds (y m : Z) : 28 <= monthrange y m <= 31.
Proof.
  unfold monthrange.
  repeat match goal with |- context [if ?b then _ else _] => destruct b end; lia.
Qed.

(** X12. For a current date of the calendar, years 1 to 9999 and months 1
    to 12, whatever its day: outside December 9999 the month shifted by
    [relativedelta] stays in the calendar and [get_last_day_of_month] is
    the day of the current month and year numbered by the length of the
    month; outside January of the year 1 [get_last_day_of_previous_month]
    is the same for the month before, which for January is the 31st of
    December of the year before. Both results are days 28 to 31 of a year
    from 1 to 9999. *)
Theorem month_ends (current_date : date) :
  1 <= year current_date <= 9999 ->
  1 <= month current_date <= 12 ->
  (year current_date < 9999 \/ month current_date < 12 ->
   1 <= year (add_months (mkdate (year current_date) (month current_date) 1) 1) <= 9999
   /\ get_last_day_of_month current_date
      = mkdate (year current_date) (month current_date)
          (monthrange (year current_date) (month current_date))
   /\ 28 <= day (get_last_day_of_month current_date) <= 31)
  /\ (1 < year current_date \/ 1 < month current_date ->
      get_last_day_of_previous_month current_date
      = (if month current_date =? 1 then mkdate (year current_date - 1) 12 31
         else mkdate (year current_date) (month current_date - 1)
                (monthrange (year current_date) (month current_date - 1)))
      /\ 28 <= day (get_last_day_of_previous_month current_date) <= 31
      /\ 1 <= year (get_last_day_of_previous_month current_date) <= 9999).
Proof.
  intros Hy Hm. split.
  - intros Hend. rewrite (get_last_day_of_month_eq current_date Hm). cbn [day].
    split; [| split; [reflexivity | apply monthrange_bounds]].
    unfold add_months. cbn [year month day].
    destruct (Z.ltb_spec 12 (month current_date + 1)) as [H12 | H12]; cbn [year]; [lia |].
    destruct (Z.ltb_spec (month current_date + 1) 1); cbn [year]; lia.
  - intros Hstart.
    assert (get_last_day_of_previous_month current_date
            = (if month current_date =? 1 then mkdate (year current_date - 1) 12 31
               else mkdate (year current_date) (month current_date - 1)
                      (monthrange (year current_date) (month current_date - 1)))) as Hp.
    { destruct (Z.eqb_spec (month current_date) 1) as [E | E].
      - unfold get_last_day_of_previous_month, minus_one_day. cbn [year month day].
        rewrite E. reflexivity.
      - apply get_last_day_of_previous_month_eq. lia. }
    rewrite Hp. split; [reflexivity |].
    destruct (Z.eqb_spec (month current_date) 1) as [E | E]; cbn [day year].
    + split; lia.
    + split; [apply monthrange_bounds | lia].
Qed.

Lemma month_ends_witness :
  get_last_day_of_month (mkdate 2024 2 15) = mkdate 2024 2 29
  /\ get_last_day_of_previous_month (mkdate 2024 1 9) = mkdate 2023 12 31
  /\ get_last_day_of_month (mkdate 2100 2 1) = mkdate 2100 2 28
  /\ get_last_day_of_previous_month (mkdate 9999 12 31) = mkdate 9999 11 30
  /\ get_last_day_of_month (mkdate 1 1 1) = mkdate 1 1 31.
Proof.
  destruct (month_ends (mkdate 2024 2 15)) as ((_ & H1 & _) & _);
    [simpl; lia | simpl; lia | simpl; lia |].
  destruct (month_ends (mkdate 2024 1 9)) as (_ & (H2 & _));
    [simpl; lia | simpl; lia | simpl; lia |].
  destruct (month_ends (mkdate 2100 2 1)) as ((_ & H3 & _) & _);
    [simpl; lia | simpl; lia | simpl; lia |].
  destruct (month_ends (mkdate 9999 12 31)) as (_ & (H4 & _));
    [simpl; lia | simpl; lia | simpl; lia |].
  destruct (month_ends (mkdate 1 1 1)) as ((_ & H5 & _) & _);
    [simpl; lia | simpl; lia | simpl; lia |].
  split; [exact H1 |]. split; [exact H2 |]. split; [exact H3 |].
  split; [exact H4 | exact H5].
Defined.

(** ** The checks on operands of one kind *)

(** X13. Given [date] operands, [check_varparm_bordt] prints that the BOR
    date is good exactly when the flag is ["n"] and the reference date is
    the last day of the previous month, or the flag is ["y"] and the
    reference date and the transmittal date both are the last day of the
    current month; with any other flag it prints that it is no good. *)
Theorem check_varparm_bordt_on_dates (today : date) (is_monthly : str) (ref fin : date) :
  (check_varparm_bordt today is_monthly (DateObj ref) (DateObj fin) = BOR_DATE_GOOD
   <-> (is_monthly = $"n" /\ ref = get_last_day_of_previous_month today)
       \/ (is_monthly = $"y" /\ ref = fin /\ fin = get_last_day_of_month today))
  /\ (check_varparm_bordt today is_monthly (DateObj ref) (DateObj fin) = BOR_DATE_NO_GOOD
      <-> ~ ((is_monthly = $"n" /\ ref = get_last_day_of_previous_month today)
             \/ (is_monthly = $"y" /\ ref = fin /\ fin = get_last_day_of_month today))).
Proof.
  rewrite <- bor_date_is_good_on_dates. unfold check_varparm_bordt.
  destruct (bor_date_is_good today is_monthly (DateObj ref) (DateObj fin)).
  - split; split; try reflexivity; intros H; try discriminate H.
    exfalso. now apply H.
  - split; split; try reflexivity; intros H; try discriminate H.
    intros H'. discriminate H'.
Qed.

(** ** When val_parameters returns *)

Lemma ask_confirmation_returns (stdin : list str) :
  returns (ask_confirmation stdin)
  <-> Exists (fun l => normal l = $"y" \/ normal l = $"n") stdin.
Proof.
  induction stdin as [|l rest IH].
  - split; [intros [a Ha]; discriminate Ha | intros H; inversion H].
  - cbn [ask_confirmation]. fold (normal l).
    destruct (bool_decide (normal l = $"y")) eqn:Ey;
      [| destruct (bool_decide (normal l = $"n")) eqn:En]; cbn [orb].
    + apply bool_decide_eq_true in Ey. split; [| intros _; eexists; reflexivity].
      intros _. constructor. now left.
    + apply bool_decide_eq_true in En. split; [| intros _; eexists; reflexivity].
      intros _. constructor. now right.
    + apply bool_decide_eq_false in Ey, En. rewrite IH. split.
      * intros H. now apply Exists_cons_tl.
      * intros H. inversion H as [? ? [Hy | Hn] | ? ? Ht]; subst; [tauto | tauto | exact Ht].
Qed.

Lemma ask_confirmation_raises (stdin : list str) (e : exn) :
  ask_confirmation stdin = Raise e -> e = EOFError.
Proof.
  induction stdin as [|l rest IH]; [intros [= <-]; reflexivity |].
  cbn [ask_confirmation]. destruct (_ || _); [discriminate | exact IH].
Qed.

(** The part of [val_parameters] that follows the read of the result
    file returns exactly when the result parses and the answers are there;
    it passes the exception of [parse_valfile] on, and after a parse its
    only exception is [EOFError]. *)
Lemma val_parameters_returns_after_read (parse : str -> result datetime) (bor_tbl : str)
    (self_is_monthly : option str) (today : date) (val_lines stdin : list str) :
  (returns (val_parameters parse bor_tbl self_is_monthly today val_lines stdin)
   <-> returns (parse_valfile parse val_lines)
       /\ ((exists c s, self_is_monthly = Some (c :: s)) \/ stdin <> [])
       /\ Exists (fun l => normal l = $"y" \/ normal l = $"n")
            (confirmation_input self_is_monthly stdin))
  /\ (forall e, parse_valfile parse val_lines = Raise e ->
                val_parameters parse bor_tbl self_is_monthly today val_lines stdin = Raise e)
  /\ (forall e, returns (parse_valfile parse val_lines) ->
                val_parameters parse bor_tbl self_is_monthly today val_lines stdin = Raise e ->
                e = EOFError).
Proof.
  unfold val_parameters.
  destruct (parse_valfile parse val_lines) as [facts|e0] eqn:Ep; cbn [bind].
  2: { split; [| split].
       - split; [intros [a Ha]; discriminate Ha | intros [[a Ha] _]; discriminate Ha].
       - intros e [= <-]. reflexivity.
       - intros e [a Ha]. discriminate Ha. }
  split; [| split; [intros e He; discriminate He |]].
  - rewrite <- ask_confirmation_returns.
    destruct self_is_monthly as [[|c s]|]; cbn [bind confirmation_input].
    + destruct stdin as [|a rest]; cbn [input bind fst snd tl].
      * split; [intros [x Hx]; discriminate Hx |].
        intros (_ & [(c & s & H) | H] & _); [discriminate H | congruence].
      * destruct (ask_confirmation rest) as [ans|e]; cbn [bind].
        -- split; [| intros _; eexists; reflexivity].
           intros _. split; [eexists; reflexivity |]. split; [right; discriminate |].
           eexists; reflexivity.
        -- split; [intros [x Hx]; discriminate Hx |].
           intros (_ & _ & [x Hx]). discriminate Hx.
    + destruct (ask_confirmation stdin) as [ans|e]; cbn [bind].
      * split; [| intros _; eexists; reflexivity].
        intros _. split; [eexists; reflexivity |]. split; [left; eauto |].
        eexists; reflexivity.
      * split; [intros [x Hx]; discriminate Hx |].
        intros (_ & _ & [x Hx]). discriminate Hx.
    + destruct stdin as [|a rest]; cbn [input bind fst snd tl].
      * split; [intros [x Hx]; discriminate Hx |].
        intros (_ & [(c & s & H) | H] & _); [discriminate H | congruence].
      * destruct (ask_confirmation rest) as [ans|e]; cbn [bind].
        -- split; [| intros _; eexists; reflexivity].
           intros _. split; [eexists; reflexivity |]. split; [right; discriminate |].
           eexists; reflexivity.
        -- split; [intros [x Hx]; discriminate Hx |].
           intros (_ & _ & [x Hx]). discriminate Hx.
  - intros e _.
    destruct self_is_monthly as [[|c s]|]; cbn [bind].
    + destruct stdin as [|a rest]; cbn [input bind fst snd]; [intros [= <-]; reflexivity |].
      destruct (ask_confirmation rest) as [ans|e'] eqn:Ea; cbn [bind]; [discriminate |].
      intros [= <-]. eapply ask_confirmation_raises, Ea.
    + destruct (ask_confirmation stdin) as [ans|e'] eqn:Ea; cbn [bind]; [discriminate |].
      intros [= <-]. eapply ask_confirmation_raises, Ea.
    + destruct stdin as [|a rest]; cbn [input bind fst snd]; [intros [= <-]; reflexivity |].
      destruct (ask_confirmation rest) as [ans|e'] eqn:Ea; cbn [bind]; [discriminate |].
      intros [= <-]. eapply ask_confirmation_raises, Ea.
Qed.

(** ** The Sybase directory *)

Lemma str_leb_refl (a : str) : str_leb a a = true.
Proof.
  induction a as [|x a IH]; [reflexivity |]. cbn [str_leb].
  now rewrite N.ltb_irrefl.
Qed.

Lemma str_leb_total (a b : str) : str_leb a b = false -> str_leb b a = true.
Proof.
  revert b. induction a as [|x a IH]; intros [|y b]; cbn [str_leb]; try easy.
  destruct (N.ltb_spec (Py.ord x) (Py.ord y)) as [H1 | H1]; [discriminate |].
  destruct (N.ltb_spec (Py.ord y) (Py.ord x)) as [H2 | H2]; [reflexivity |].
  apply IH.
Qed.

Lemma str_leb_trans (a b c : str) :
  str_leb a b = true -> str_leb b c = true -> str_leb a c = true.
Proof.
  revert b c. induction a as [|x a IH]; intros [|y b] [|z c]; cbn [str_leb]; try easy.
  destruct (N.ltb_spec (Py.ord x) (Py.ord y)) as [H1 | H1];
    destruct (N.ltb_spec (Py.ord y) (Py.ord z)) as [H2 | H2];
    destruct (N.ltb_spec (Py.ord x) (Py.ord z)) as [H3 | H3];
    try reflexivity; try lia.
  - destruct (N.ltb_spec (Py.ord z) (Py.ord y)); [discriminate | lia].
  - destruct (N.ltb_spec (Py.ord y) (Py.ord x)); [discriminate | lia].
  - destruct (N.ltb_spec (Py.ord y) (Py.ord x)) as [H4 | H4]; [discriminate |].
    destruct (N.ltb_spec (Py.ord z) (Py.ord y)) as [H5 | H5]; [discriminate |].
    destruct (N.ltb_spec (Py.ord z) (Py.ord x)) as [H6 | H6]; [lia |].
    apply IH.
Qed.

Lemma py_max_spec (ds : list str) (d : str) :
  In (py_max d ds) (d :: ds)
  /\ Forall (fun item => str_leb item (py_max d ds) = true) (d :: ds).
Proof.
  unfold py_max. revert d. induction ds as [|x ds IH]; intros d.
  - cbn [fold_left]. split; [now left |]. constructor; [apply str_leb_refl | constructor].
  - cbn [fold_left].
    destruct (str_leb x d) eqn:E.
    + destruct (IH d) as [Hin Hall]. inversion Hall as [|? ? Hd Hds]; subst. split.
      * destruct Hin as [<- | Hin]; [now left | right; now right].
      * constructor; [exact Hd |]. constructor; [| exact Hds].
        eapply str_leb_trans; eassumption.
    + destruct (IH x) as [Hin Hall]. inversion Hall as [|? ? Hx Hds]; subst. split.
      * right. destruct Hin as [<- | Hin]; [now left | now right].
      * constructor; [| constructor; assumption].
        eapply str_leb_trans; [| exact Hx]. now apply str_leb_total.
Qed.

(** X21. [get_sybase_ocs_path] raises [RuntimeError] exactly when no
    directory was found, and it raises nothing else; otherwise it returns
    one of the directories found, and none of them is greater in the order
    of strings. *)
Theorem get_sybase_ocs_path_greatest (ocs_dirs : list str) :
  (get_sybase_ocs_path ocs_dirs = Raise RuntimeError <-> ocs_dirs = [])
  /\ (forall e, get_sybase_ocs_path ocs_dirs = Raise e -> e = RuntimeError)
  /\ (forall sybase_ocs_path,
         get_sybase_ocs_path ocs_dirs = Ok sybase_ocs_path ->
         In sybase_ocs_path ocs_dirs
         /\ Forall (fun d => str_leb d sybase_ocs_path = true) ocs_dirs).
Proof.
  destruct ocs_dirs as [|d ds]; cbn [get_sybase_ocs_path].
  - split; [easy |]. split; [intros e [= <-]; reflexivity | intros p H; discriminate H].
  - split; [split; intros H; discriminate H |].
    split; [intros e H; discriminate H |].
    intros p H. apply Ok_inj in H. subst p. apply py_max_spec.
Qed.

Lemma get_sybase_ocs_path_greatest_witness :
  get_sybase_ocs_path [$"/opt/sybase/OCS-15_0"; $"/opt/sybase/OCS-16_0"; $"/opt/sybase/OCS-12_5"]
  = Ok ($"/opt/sybase/OCS-16_0")
  /\ get_sybase_ocs_path [] = Raise RuntimeError.
Proof.
  destruct (get_sybase_ocs_path_greatest []) as ([_ H] & _).
  split; [vm_compute; reflexivity | apply H; reflexivity].
Defined.

(** ** val_parameters from its first call *)

Section RunValParameters.

Variable parse : str -> result datetime.
Variable bor_tbl : str.
Variable ensure_directories : result unit.
Variable create_pd_file : result unit.
Variable generate_sql_script : result unit.
Variable ocs_dirs : list str.
Variable generate_pkickoff_script : str -> result unit.
Variable execute_pkickoff_script : str -> result unit.
Variable read_valfile : result (list str).

Lemma run_val_parameters_prepared (self_is_monthly : option str) (today : date)
    (stdin val_lines : list str) :
  returns ensure_directories
  /\ returns create_pd_file
  /\ returns generate_sql_script
  /\ (exists sybase_ocs_path,
         get_sybase_ocs_path ocs_dirs = Ok sybase_ocs_path
         /\ returns (generate_pkickoff_script sybase_ocs_path)
         /\ returns (execute_pkickoff_script sybase_ocs_path))
  /\ read_valfile = Ok val_lines ->
  run_val_parameters parse bor_tbl ensure_directories create_pd_file
    generate_sql_script ocs_dirs generate_pkickoff_script
    execute_pkickoff_script read_valfile self_is_monthly today stdin
  = val_parameters parse bor_tbl self_is_monthly today val_lines stdin.
Proof.
  intros ([a Ha] & [b Hb] & [c Hc] & (p & Hp & [d Hd] & [f Hf]) & Hr).
  unfold run_val_parameters.
  rewrite Ha, Hb, Hc, Hp. cbn [bind]. rewrite Hd, Hf, Hr. reflexivity.
Qed.

Lemma run_val_parameters_returns (self_is_monthly : option str) (today : date)
    (stdin : list str) :
  returns (run_val_parameters parse bor_tbl ensure_directories create_pd_file
             generate_sql_script ocs_dirs generate_pkickoff_script
             execute_pkickoff_script read_valfile self_is_monthly today stdin) ->
  exists val_lines,
    returns ensure_directories
    /\ returns create_pd_file
    /\ returns generate_sql_script
    /\ (exists sybase_ocs_path,
           get_sybase_ocs_path ocs_dirs = Ok sybase_ocs_path
           /\ returns (generate_pkickoff_script sybase_ocs_path)
           /\ returns (execute_pkickoff_script sybase_ocs_path))
    /\ read_valfile = Ok val_lines.
Proof.
  intros [r Hr]. unfold run_val_parameters in Hr.
  apply bind_ok in Hr as (a & Ha & Hr). apply bind_ok in Hr as (b & Hb & Hr).
  apply bind_ok in Hr as (c & Hc & Hr). apply bind_ok in Hr as (p & Hp & Hr).
  apply bind_ok in Hr as (d & Hd & Hr). apply bind_ok in Hr as (f & Hf & Hr).
  apply bind_ok in Hr as (val_lines & Hl & Hr).
  exists val_lines.
  split; [eexists; exact Ha |]. split; [eexists; exact Hb |].
  split; [eexists; exact Hc |]. split; [| exact Hl].
  exists p. split; [exact Hp |]. split; eexists; eassumption.
Qed.

(** X14. [val_parameters] returns exactly when each of its six calls
    before the parse returns, a Sybase directory being found among them,
    the result file is read and parses, an answer is there for the monthly
    prompt if the flag was not given, and some later answer reads as ["y"]
    or ["n"]. An exception of [ensure_directories] is the exception of
    [val_parameters]; without a Sybase directory it is [RuntimeError], and
    no script is written or run; after the read it is that of
    [parse_valfile], whatever was typed; once the result has parsed, the
    only exception left is the [EOFError] of an input that ends too
    early. *)
Theorem run_val_parameters_returns_iff (self_is_monthly : option str) (today : date)
    (stdin : list str) :
  (returns (run_val_parameters parse bor_tbl ensure_directories create_pd_file
              generate_sql_script ocs_dirs generate_pkickoff_script
              execute_pkickoff_script read_valfile self_is_monthly today stdin)
   <-> returns ensure_directories
       /\ returns create_pd_file
       /\ returns generate_sql_script
       /\ (exists sybase_ocs_path,
              get_sybase_ocs_path ocs_dirs = Ok sybase_ocs_path
              /\ returns (generate_pkickoff_script sybase_ocs_path)
              /\ returns (execute_pkickoff_script sybase_ocs_path))
       /\ (exists val_lines,
              read_valfile = Ok val_lines /\ returns (parse_valfile parse val_lines))
       /\ ((exists c s, self_is_monthly = Some (c :: s)) \/ stdin <> [])
       /\ Exists (fun l => normal l = $"y" \/ normal l = $"n")
            (confirmation_input self_is_monthly stdin))
  /\ (forall e, ensure_directories = Raise e ->
                run_val_parameters parse bor_tbl ensure_directories create_pd_file
                  generate_sql_script ocs_dirs generate_pkickoff_script
                  execute_pkickoff_script read_valfile self_is_monthly today stdin
                = Raise e)
  /\ (returns ensure_directories -> returns create_pd_file ->
      returns generate_sql_script -> ocs_dirs = [] ->
      run_val_parameters parse bor_tbl ensure_directories create_pd_file
        generate_sql_script ocs_dirs generate_pkickoff_script
        execute_pkickoff_script read_valfile self_is_monthly today stdin
      = Raise RuntimeError)
  /\ (forall val_lines,
         returns ensure_directories
         /\ returns create_pd_file
         /\ returns generate_sql_script
         /\ (exists sybase_ocs_path,
                get_sybase_ocs_path ocs_dirs = Ok sybase_ocs_path
                /\ returns (generate_pkickoff_script sybase_ocs_path)
                /\ returns (execute_pkickoff_script sybase_ocs_path))
         /\ read_valfile = Ok val_lines ->
         run_val_parameters parse bor_tbl ensure_directories create_pd_file
           generate_sql_script ocs_dirs generate_pkickoff_script
           execute_pkickoff_script read_valfile self_is_monthly today stdin
         = val_parameters parse bor_tbl self_is_monthly today val_lines stdin
         /\ (forall e, parse_valfile parse val_lines = Raise e ->
                       run_val_parameters parse bor_tbl ensure_directories create_pd_file
                         generate_sql_script ocs_dirs generate_pkickoff_script
                         execute_pkickoff_script read_valfile self_is_monthly today stdin
                       = Raise e)
         /\ (forall e, returns (parse_valfile parse val_lines) ->
                       run_val_parameters parse bor_tbl ensure_directories create_pd_file
                         generate_sql_script ocs_dirs generate_pkickoff_script
                         execute_pkickoff_script read_valfile self_is_monthly today stdin
                       = Raise e ->
                       e = EOFError))
  /\ (forall e,
         run_val_parameters parse bor_tbl ensure_directories create_pd_file
           generate_sql_script ocs_dirs generate_pkickoff_script
           execute_pkickoff_script read_valfile self_is_monthly today stdin
         = Raise e ->
         ensure_directories = Raise e
         \/ create_pd_file = Raise e
         \/ generate_sql_script = Raise e
         \/ (ocs_dirs = [] /\ e = RuntimeError)
         \/ (exists sybase_ocs_path,
                get_sybase_ocs_path ocs_dirs = Ok sybase_ocs_path
                /\ (generate_pkickoff_script sybase_ocs_path = Raise e
                    \/ execute_pkickoff_script sybase_ocs_path = Raise e))
         \/ read_valfile = Raise e
         \/ (exists val_lines,
                read_valfile = Ok val_lines /\ parse_valfile parse val_lines = Raise e)
         \/ e = EOFError).
Proof.
  split; [| split; [| split; [| split]]].
  5: { intros e H. unfold run_val_parameters in H.
       destruct ensure_directories as [a|e1];
         [| cbn [bind] in H; injection H as <-; left; reflexivity].
       destruct create_pd_file as [b|e2];
         [| cbn [bind] in H; injection H as <-; right; left; reflexivity].
       destruct generate_sql_script as [c|e3];
         [| cbn [bind] in H; injection H as <-; right; right; left; reflexivity].
       cbn [bind] in H.
       destruct (get_sybase_ocs_path ocs_dirs) as [p|e4] eqn:Ep.
       2: { cbn [bind] in H. injection H as <-.
            destruct ocs_dirs; [| discriminate Ep]. cbn in Ep. injection Ep as <-.
            right; right; right; left. split; reflexivity. }
       cbn [bind] in H.
       destruct (generate_pkickoff_script p) as [g|e5] eqn:Eg.
       2: { cbn [bind] in H. injection H as <-.
            do 4 right. left. exists p. split; [reflexivity | left; exact Eg]. }
       destruct (execute_pkickoff_script p) as [x|e6] eqn:Ex.
       2: { cbn [bind] in H. injection H as <-.
            do 4 right. left. exists p. split; [reflexivity | right; exact Ex]. }
       cbn [bind] in H.
       destruct read_valfile as [val_lines|e7];
         [| cbn [bind] in H; injection H as <-; do 5 right; left; reflexivity].
       cbn [bind] in H.
       destruct (val_parameters_returns_after_read parse bor_tbl self_is_monthly today
                   val_lines stdin) as (_ & H2 & H3).
       destruct (parse_valfile parse val_lines) as [facts|e8] eqn:Epv.
       - do 7 right. apply H3; [eexists; reflexivity | exact H].
       - do 6 right. left. exists val_lines. split; [reflexivity |].
         rewrite (H2 e8 eq_refl) in H. injection H as <-. exact Epv. }
  - split.
    + intros Hret. destruct (run_val_parameters_returns _ _ _ Hret) as [val_lines Hprep].
      rewrite (run_val_parameters_prepared _ _ _ _ Hprep) in Hret.
      apply val_parameters_returns_after_read in Hret as (Hparse & Hin & Hans).
      destruct Hprep as (Ha & Hb & Hc & Hp & Hr). eauto 10.
    + intros (Ha & Hb & Hc & Hp & (val_lines & Hr & Hparse) & Hin & Hans).
      rewrite (run_val_parameters_prepared self_is_monthly today stdin val_lines)
        by auto.
      apply val_parameters_returns_after_read. auto.
  - intros e He. unfold run_val_parameters. rewrite He. reflexivity.
  - intros [a Ha] [b Hb] [c Hc] ->. unfold run_val_parameters.
    rewrite Ha, Hb, Hc. reflexivity.
  - intros val_lines Hprep.
    rewrite (run_val_parameters_prepared self_is_monthly today stdin val_lines Hprep).
    split; [reflexivity |].
    destruct (val_parameters_returns_after_read parse bor_tbl self_is_monthly today
                val_lines stdin) as (_ & H2 & H3).
    split; assumption.
Qed.

End RunValParameters.

Lemma run_val_parameters_returns_iff_witness :
  run_val_parameters parse_iso ($"bor_mo_rpt") (Ok tt) (Ok tt) (Ok tt) []
    (fun _ => Ok tt) (fun _ => Ok tt) (Ok sample_valfile) (Some ($"n")) (mkdate 2024 2 15)
    [$"y"]
  = Raise RuntimeError
  /\ run_val_parameters parse_iso ($"bor_mo_rpt") (Ok tt) (Ok tt) (Ok tt)
       [$"/opt/sybase/OCS-16_0"]
       (fun _ => Ok tt) (fun _ => Ok tt) (Ok (firstn 9 sample_valfile)) (Some ($"n"))
       (mkdate 2024 2 15) [$"y"]
     = Raise IndexError
  /\ returns
       (run_val_parameters parse_iso ($"bor_mo_rpt") (Ok tt) (Ok tt) (Ok tt)
          [$"/opt/sybase/OCS-16_0"]
          (fun _ => Ok tt) (fun _ => Ok tt) (Ok sample_valfile) None
          (mkdate 2024 2 15) [$"n"; $"perhaps"; $"Y"]).
Proof.
  destruct (run_val_parameters_returns_iff parse_iso ($"bor_mo_rpt") (Ok tt) (Ok tt)
              (Ok tt) [] (fun _ => Ok tt) (fun _ => Ok tt) (Ok sample_valfile)
              (Some ($"n")) (mkdate 2024 2 15) [$"y"]) as (_ & _ & H1 & _).
  destruct (run_val_parameters_returns_iff parse_iso ($"bor_mo_rpt") (Ok tt) (Ok tt)
              (Ok tt) [$"/opt/sybase/OCS-16_0"] (fun _ => Ok tt) (fun _ => Ok tt)
              (Ok (firstn 9 sample_valfile)) (Some ($"n")) (mkdate 2024 2 15) [$"y"])
    as (_ & _ & _ & H2 & _).
  destruct (run_val_parameters_returns_iff parse_iso ($"bor_mo_rpt") (Ok tt) (Ok tt)
              (Ok tt) [$"/opt/sybase/OCS-16_0"] (fun _ => Ok tt) (fun _ => Ok tt)
              (Ok sample_valfile) None (mkdate 2024 2 15) [$"n"; $"perhaps"; $"Y"])
    as ([_ H3] & _).
  split; [| split].
  - apply H1; [eexists; reflexivity | eexists; reflexivity | eexists; reflexivity
              | reflexivity].
  - destruct (H2 (firstn 9 sample_valfile)) as (_ & H & _).
    + split; [eexists; reflexivity |]. split; [eexists; reflexivity |].
      split; [eexists; reflexivity |]. split; [| reflexivity].
      eexists. split; [reflexivity | split; eexists; reflexivity].
    + apply H. vm_compute. reflexivity.
  - apply H3.
    split; [eexists; reflexivity |]. split; [eexists; reflexivity |].
    split; [eexists; reflexivity |].
    split; [eexists; split; [reflexivity | split; eexists; reflexivity] |].
    split; [exists sample_valfile; split; [reflexivity | eexists; vm_compute; reflexivity] |].
    split; [right; discriminate |].
    cbn [confirmation_input].
    apply Exists_cons_tl, Exists_cons_hd. left. vm_compute. reflexivity.
Defined.

(** ** The report of the three checks *)

Lemma check_mrdt_bortecdt_matches (bor_tbl : str) (a b : datetime) :
  check_mrdt_bortecdt bor_tbl (DateTimeObj a) (DateTimeObj b)
  = $"material_request_tbl tl date matches " ++ bor_tbl ++ $" tl date."
  <-> a = b.
Proof.
  unfold check_mrdt_bortecdt, py_eq.
  destruct (bool_decide (a = b)) eqn:E.
  - apply bool_decide_eq_true in E. split; [intros _; exact E | reflexivity].
  - apply bool_decide_eq_false in E. split; [| intros H; contradiction].
    intros H. cbn in H. discriminate H.
Qed.

(** X15. The report [val_parameters] prints before it asks has three
    statuses, a function of the parsed facts: the first says the BOR date is
    no good, the second says the two transmittal dates match exactly when
    the parsed dates of lines 9 and 3 are equal, the third says the TL
    numbers match exactly when the values of lines 2, 5 and 8 are the same
    text; the fiscal years have no part in it. *)
Theorem val_parameters_report (parse : str -> result datetime) (bor_tbl : str)
    (self_is_monthly : option str) (today : date) (val_lines stdin : list str)
    (facts : valfacts) (report : list str) (val_confirmation : bool) :
  parse_valfile parse val_lines = Ok facts ->
  val_parameters parse bor_tbl self_is_monthly today val_lines stdin
  = Ok (report, val_confirmation) ->
  exists dates_status tl_status,
    report = [BOR_DATE_NO_GOOD; dates_status; tl_status]
    /\ (dates_status = $"material_request_tbl tl date matches " ++ bor_tbl ++ $" tl date."
        <-> material_request_tldt facts = bor_tldt facts)
    /\ (tl_status = $"TL numbers match."
        <-> bor_tl_no facts = fin_tl_no facts
            /\ fin_tl_no facts = material_request_tl_no facts).
Proof.
  intros Hp H. unfold val_parameters in H. rewrite Hp in H. cbn [bind] in H.
  apply bind_ok in H as ([is_monthly rest] & _ & H).
  apply bind_ok in H as (answer & _ & H). apply Ok_inj in H.
  injection H as <- _.
  eexists _, _. split; [| split].
  - f_equal. unfold check_varparm_bordt, bor_date_is_good.
    rewrite !py_eq_datetime_date, !andb_false_r. reflexivity.
  - apply check_mrdt_bortecdt_matches.
  - unfold check_tl_no.
    destruct (bool_decide (bor_tl_no facts = fin_tl_no facts)) eqn:E1;
      [| apply bool_decide_eq_false in E1; split;
         [intros H; discriminate H | intros [H _]; contradiction]].
    destruct (bool_decide (fin_tl_no facts = material_request_tl_no facts)) eqn:E2;
      [| apply bool_decide_eq_false in E2; split;
         [intros H; discriminate H | intros [_ H]; contradiction]].
    apply bool_decide_eq_true in E1, E2. split; [intros _; now split | reflexivity].
Qed.

Lemma val_parameters_report_witness :
  exists report,
    val_parameters parse_iso ($"bor_mo_rpt") (Some ($"n")) (mkdate 2024 2 15)
      sample_valfile [$"y"]
    = Ok (report, true)
    /\ report = [ BOR_DATE_NO_GOOD;
                  $"material_request_tbl tl date doesn't match bor_mo_rpt tl date.";
                  $"TL numbers do not match!" ].
Proof.
  destruct (parse_valfile parse_iso sample_valfile) as [facts|] eqn:Ep;
    [| vm_compute in Ep; discriminate Ep].
  destruct (val_parameters parse_iso ($"bor_mo_rpt") (Some ($"n")) (mkdate 2024 2 15)
              sample_valfile [$"y"]) as [[report d]|] eqn:Ev;
    [| vm_compute in Ev; discriminate Ev].
  destruct (val_parameters_report _ _ _ _ _ _ facts report d Ep Ev)
    as (s2 & s3 & Hr & _ & _).
  exists report. vm_compute in Ev. apply Ok_inj in Ev.
  injection Ev as Hrep Hd. subst d. split; [reflexivity |].
  rewrite <- Hrep. reflexivity.
Defined.

(** ** The batch number *)

Section BatchNumber.

Variable upper : str -> str.
Variable path_exists : str -> bool.

Lemma validate_batch_input_true (batch_no : str) :
  validate_batch_input path_exists batch_no = true
  <-> List.length batch_no = 13%nat
      /\ Py.startswith ($"JSF404") batch_no = true
      /\ path_exists batch_no = true.
Proof.
  unfold validate_batch_input.
  destruct (Nat.eqb_spec (List.length batch_no) 13) as [Hl | Hl];
    destruct (Py.startswith ($"JSF404") batch_no);
    destruct (path_exists batch_no); cbn; intuition congruence.
Qed.

Lemma last_chars_length (n : nat) (s : str) :
  List.length (last_chars n s) = Nat.min n (List.length s).
Proof. unfold last_chars. rewrite length_skipn. lia. Qed.

Lemma ask_batch_no_spec (attempts_left : nat) (stdin : list str) (chosen : choice)
    (rest : list str) :
  ask_batch_no upper path_exists attempts_left stdin = Ok (chosen, rest) ->
  exists rejected,
    (List.length rejected <= attempts_left)%nat
    /\ Forall (fun a => validate_batch_input path_exists (upper (Py.strip a)) = false) rejected
    /\ ((exists a, stdin = rejected ++ a :: rest
                   /\ (List.length rejected < attempts_left)%nat
                   /\ chosen = Batch (upper (Py.strip a))
                   /\ validate_batch_input path_exists (upper (Py.strip a)) = true)
        \/ (stdin = rejected ++ rest
            /\ List.length rejected = attempts_left
            /\ chosen = SystemExit 1)).
Proof.
  revert stdin. induction attempts_left as [|n IH]; intros stdin H.
  - simpl in H. apply Ok_inj in H. injection H as <- <-.
    exists []. split; [simpl; lia |]. split; [constructor |]. right. repeat split.
  - cbn [ask_batch_no] in H. destruct stdin as [|a stdin']; [discriminate H |].
    cbn [input bind fst snd] in H.
    destruct (validate_batch_input path_exists (upper (Py.strip a))) eqn:Ev.
    + apply Ok_inj in H. injection H as <- <-.
      exists []. split; [simpl; lia |]. split; [constructor |]. left.
      exists a. repeat split; [simpl; lia | exact Ev].
    + apply IH in H as (rejected & Hlen & Hrej & Hcase).
      exists (a :: rejected). split; [simpl; lia |]. split; [now constructor |].
      destruct Hcase as [(b & -> & Hl & Hc & Hv) | (-> & Hl & Hc)].
      * left. exists b. repeat split; [simpl; lia | exact Hc | exact Hv].
      * right. repeat split; [simpl; lia | exact Hc].
Qed.

(** X16. The loop that asks for a batch number reads at most three
    answers. It ends with the first of them that, stripped and put in upper
    case, has 13 characters, begins with ["JSF404"] and names a file of the
    reports directory; when three answers in a row fail it exits with code 1
    and reads no further; when the input ends first it raises [EOFError].
    The [pid] cut from an accepted batch number has three characters. *)
Theorem ask_batch_no_three_attempts (stdin : list str) :
  (forall chosen rest,
      ask_batch_no upper path_exists 3 stdin = Ok (chosen, rest) ->
      exists rejected,
        (List.length rejected <= 3)%nat
        /\ Forall (fun a => validate_batch_input path_exists (upper (Py.strip a)) = false)
             rejected
        /\ ((exists a batch_no,
                stdin = rejected ++ a :: rest
                /\ (List.length rejected < 3)%nat
                /\ batch_no = upper (Py.strip a)
                /\ chosen = Batch batch_no
                /\ List.length batch_no = 13%nat
                /\ Py.startswith ($"JSF404") batch_no = true
                /\ path_exists batch_no = true
                /\ List.length (last_chars 3 batch_no) = 3%nat)
            \/ (stdin = rejected ++ rest
                /\ List.length rejected = 3%nat
                /\ chosen = SystemExit 1)))
  /\ (forall e, ask_batch_no upper path_exists 3 stdin = Raise e ->
                e = EOFError /\ (List.length stdin < 3)%nat
                /\ Forall (fun a => validate_batch_input path_exists (upper (Py.strip a))
                                    = false) stdin).
Proof.
  split.
  - intros chosen rest H. apply ask_batch_no_spec in H as (rejected & Hlen & Hrej & Hcase).
    exists rejected. split; [exact Hlen |]. split; [exact Hrej |].
    destruct Hcase as [(a & Hs & Hl & Hc & Hv) | Hexit]; [left | right; exact Hexit].
    exists a, (upper (Py.strip a)).
    apply validate_batch_input_true in Hv as (H13 & Hp & He).
    repeat split; try assumption. rewrite last_chars_length, H13. reflexivity.
  - intros e. generalize 3%nat as n. revert stdin.
    induction stdin as [|a stdin' IH]; intros n H.
    + destruct n; [discriminate H |]. simpl in H. injection H as <-.
      split; [reflexivity |]. split; [simpl; lia | constructor].
    + destruct n; [discriminate H |]. cbn [ask_batch_no input bind fst snd] in H.
      destruct (validate_batch_input path_exists (upper (Py.strip a))) eqn:Ev;
        [discriminate H |].
      apply IH in H as (He & Hl & Hall).
      split; [exact He |]. split; [simpl; lia | now constructor].
Qed.

End BatchNumber.

(** ** run_stars_creator *)

Section Run.

Variable upper : str -> str.
Variable path_exists : str -> bool.
Variable validator : list str -> result (list str * bool).
Variable read_file : str -> result (list str).
Variable now : str.

(** X17. Where [choose_batch] gets its batch number from: the command
    line, and then nothing is read and nothing is checked; or the latest
    report, put in upper case, after an answer ["y"] or ["yes"]; or an
    answer typed after ["n"] or ["no"], and only then is it validated. With
    no latest report it returns without reading; ["q"] or ["quit"] exits
    with code 0; any other first answer returns. *)
Theorem choose_batch_sources (self_batch_no : option str) (latest_report_exists : bool)
    (latest_batch_no : str) (stdin : list str) :
  (forall batch_no rest,
      choose_batch upper path_exists self_batch_no latest_report_exists latest_batch_no stdin
      = Ok (Batch batch_no, rest) ->
      (self_batch_no = Some batch_no /\ batch_no <> [] /\ rest = stdin)
      \/ (exists a, stdin = a :: rest
                    /\ one_of ($"y") ($"yes") (normal a) = true
                    /\ batch_no = upper latest_batch_no)
      \/ (exists a typed,
             stdin = a :: typed
             /\ one_of ($"n") ($"no") (normal a) = true
             /\ validate_batch_input path_exists batch_no = true
             /\ ask_batch_no upper path_exists 3 typed = Ok (Batch batch_no, rest)))
  /\ ((self_batch_no = None \/ self_batch_no = Some []) ->
      latest_report_exists = false ->
      choose_batch upper path_exists self_batch_no latest_report_exists latest_batch_no stdin
      = Ok (Return, stdin))
  /\ (forall a rest,
         (self_batch_no = None \/ self_batch_no = Some []) ->
         latest_report_exists = true ->
         stdin = a :: rest ->
         one_of ($"q") ($"quit") (normal a) = true ->
         choose_batch upper path_exists self_batch_no latest_report_exists latest_batch_no
           stdin
         = Ok (SystemExit 0, rest)).
Proof.
  split; [| split].
  - intros batch_no rest H. unfold choose_batch in H.
    destruct self_batch_no as [[|c s]|].
    2: { apply Ok_inj in H. injection H as <- <-. left. repeat split. discriminate. }
    all: right; destruct latest_report_exists; [| discriminate H];
      destruct stdin as [|a stdin']; [discriminate H |];
      cbn [input bind fst snd] in H; fold (normal a) in H;
      destruct (one_of ($"y") ($"yes") (normal a)) eqn:Ey;
      [ apply Ok_inj in H; injection H as <- <-; left; exists a; repeat split; exact Ey |];
      destruct (one_of ($"n") ($"no") (normal a)) eqn:En;
      [| destruct (one_of ($"q") ($"quit") (normal a)); discriminate H];
      right; exists a, stdin'; split; [reflexivity |]; split; [exact En |];
      split; [| exact H];
      apply ask_batch_no_spec in H as (rejected & _ & _ & Hcase);
      destruct Hcase as [(b & _ & _ & Hc & Hv) | (_ & _ & Hc)]; [| discriminate Hc];
      injection Hc as ->; exact Hv.
  - intros Hb ->. unfold choose_batch. destruct Hb as [-> | ->]; reflexivity.
  - intros a rest Hb -> -> Hq. unfold choose_batch. cbn [input bind fst snd].
    fold (normal a).
    assert (one_of ($"y") ($"yes") (normal a) = false) as Hy.
    { unfold one_of in *. apply orb_true_iff in Hq.
      destruct Hq as [Hq | Hq]; apply bool_decide_eq_true in Hq; rewrite Hq; reflexivity. }
    assert (one_of ($"n") ($"no") (normal a) = false) as Hn.
    { unfold one_of in *. apply orb_true_iff in Hq.
      destruct Hq as [Hq | Hq]; apply bool_decide_eq_true in Hq; rewrite Hq; reflexivity. }
    destruct Hb as [-> | ->]; rewrite Hy, Hn, Hq; reflexivity.
Qed.

(** X18. [run_stars_creator] writes a file only through all of these: a
    batch number was chosen; the validation, when it was asked for on the
    command line or by the answer ["y"], returned [True]; the report of that
    name was read; and [create_stars] completed on its lines. The file is
    named after the batch with ["RR"] appended, its lines are those of
    [create_stars], the [pid] being the last three characters of the batch
    number. A validation that returns [False] ends the run with exit code 1
    before the report is read. *)
Theorem run_stars_creator_writes (self_batch_no : option str) (latest_report_exists : bool)
    (latest_batch_no : str) (self_validate : bool) (stdin : list str) :
  (forall outfile output_lines,
      run_stars_creator upper path_exists validator read_file now self_batch_no
        latest_report_exists latest_batch_no self_validate stdin
      = Ok (Wrote outfile output_lines) ->
      exists batch_no rest original_lines,
        choose_batch upper path_exists self_batch_no latest_report_exists latest_batch_no
          stdin = Ok (Batch batch_no, rest)
        /\ outfile = batch_no ++ $"RR"
        /\ read_file batch_no = Ok original_lines
        /\ create_stars now original_lines (last_chars 3 batch_no) = Ok output_lines
        /\ (self_validate = true -> exists report, validator rest = Ok (report, true)))
  /\ (forall batch_no rest report,
         self_validate = true ->
         choose_batch upper path_exists self_batch_no latest_report_exists latest_batch_no
           stdin = Ok (Batch batch_no, rest) ->
         validator rest = Ok (report, false) ->
         run_stars_creator upper path_exists validator read_file now self_batch_no
           latest_report_exists latest_batch_no self_validate stdin
         = Ok (Exited 1))
  /\ (forall batch_no rest typed report,
         self_validate = false ->
         choose_batch upper path_exists self_batch_no latest_report_exists latest_batch_no
           stdin = Ok (Batch batch_no, rest) ->
         ask_confirmation rest = Ok ($"y", typed) ->
         validator typed = Ok (report, false) ->
         run_stars_creator upper path_exists validator read_file now self_batch_no
           latest_report_exists latest_batch_no self_validate stdin
         = Ok (Exited 1)).
Proof.
  unfold run_stars_creator. split; [| split].
  - intros outfile output_lines H.
    apply bind_ok in H as ([chosen rest] & Hc & H). cbn [fst snd] in H.
    destruct chosen as [batch_no | code |]; [| discriminate H | discriminate H].
    apply bind_ok in H as ([ask rest'] & Ha & H). cbn [fst snd] in H.
    apply bind_ok in H as (proceed & Hp & H).
    destruct proceed; [| discriminate H]. cbn [negb] in H.
    apply bind_ok in H as (original_lines & Hr & H).
    apply bind_ok in H as (out & Hcs & H).
    apply Ok_inj in H. injection H as <- <-.
    exists batch_no, rest, original_lines.
    split; [exact Hc |]. split; [reflexivity |]. split; [exact Hr |].
    split; [exact Hcs |].
    intros ->. apply Ok_inj in Ha. injection Ha as <- <-.
    apply bind_ok in Hp as ([report d] & Hv & Hp). apply Ok_inj in Hp.
    cbn [snd] in Hp. subst d. eauto.
  - intros batch_no rest report -> Hc Hv. rewrite Hc. cbn [bind fst snd].
    rewrite Hv. reflexivity.
  - intros batch_no rest typed report -> Hc Ha Hv.
    rewrite Hc. cbn [bind fst snd]. rewrite Ha. cbn [bind fst snd].
    rewrite bool_decide_eq_true_2 by reflexivity. rewrite Hv. reflexivity.
Qed.

End Run.

Lemma run_stars_creator_writes_witness :
  run_stars_creator (fun s => s) (fun _ => true)
    (val_parameters parse_iso ($"bor_mo_rpt") (Some ($"n")) (mkdate 2024 2 15) sample_valfile)
    (fun _ => Ok [line_detail; line_unknown; line_transaction]) ($"20240101120000")
    (Some ($"JSF404A000123")) true ($"JSF404A000123") true [$"n"]
  = Ok (Exited 1)
  /\ exists output_lines,
       run_stars_creator (fun s => s) (fun _ => true)
         (val_parameters parse_iso ($"bor_mo_rpt") (Some ($"n")) (mkdate 2024 2 15)
            sample_valfile)
         (fun _ => Ok [line_detail; line_unknown; line_transaction]) ($"20240101120000")
         (Some ($"JSF404A000123")) true ($"JSF404A000123") true [$"y"]
       = Ok (Wrote ($"JSF404A000123RR") output_lines)
       /\ List.last output_lines []
          = $"TRAILERSTARSFL   0000000000000020000000000000012468stars123r.txt" ++ newline.
Proof.
  split.
  - destruct (run_stars_creator_writes (fun s => s) (fun _ => true)
                (val_parameters parse_iso ($"bor_mo_rpt") (Some ($"n")) (mkdate 2024 2 15)
                   sample_valfile)
                (fun _ => Ok [line_detail; line_unknown; line_transaction])
                ($"20240101120000") (Some ($"JSF404A000123")) true ($"JSF404A000123")
                true [$"n"]) as (_ & H & _).
    eapply H; [reflexivity | reflexivity | vm_compute; reflexivity].
  - eexists. split; vm_compute; reflexivity.
Defined.

(** ** The BOR table *)





